(** * Campus course reminder: the rules engine of [app.py]

    A shallow embedding of the deterministic core of the Streamlit page
    [src/app.py] -- week-range matching, the academic week number, the
    merge of one-off adjustments into today's timetable, the reminder
    window, the spreadsheet import and the adjustment delete buttons --
    together with the properties its specification states about them.

    Conventions of the embedding.
    - A Python [str] is a [string]; one character stands for one code
      point below 256.
    - A Python exception is a value of [exn]; a computation that may raise
      returns an [outcome].  [try ... except] is [try_except].
    - [st.session_state] is the record [session]; DataFrames are objects of
      a heap and the session holds a reference to the imported one.
    - [datetime.datetime.now()] reads a clock that is part of the world;
      two readings need not agree.
    - Rendering calls ([st.error], [st.success], [st.dataframe], ...) have
      no effect on the session and are left out. *)

From Stdlib Require Import ZArith List String Ascii Bool Lia Permutation Sorted.
From stdpp Require Import gmap sorting.
Import ListNotations.
Local Open Scope string_scope.
Local Open Scope Z_scope.

(** ** Exceptions *)

Inductive exn : Type :=
| ValueError
| TypeError
| IndexError
| KeyError.

Inductive outcome (A : Type) : Type :=
| Ok (a : A)
| Raise (e : exn).
Arguments Ok {A} a.
Arguments Raise {A} e.

Definition obind {A B} (m : outcome A) (k : A -> outcome B) : outcome B :=
  match m with
  | Ok a => k a
  | Raise e => Raise e
  end.

Declare Scope outcome_scope.
Delimit Scope outcome_scope with outcome.
Notation "'let!' x ':=' m 'in' k" := (obind m (fun x => k))
  (at level 10, x name, m at level 200, k at level 200) : outcome_scope.
Local Open Scope outcome_scope.

(** [try: body except: handler] with a bare [except]. *)
Definition try_except {A} (body : outcome A) (handler : outcome A) : outcome A :=
  match body with
  | Ok a => Ok a
  | Raise _ => handler
  end.

(** [list(map(f, xs))]: the first exception stops the traversal. *)
Fixpoint omap {A B} (f : A -> outcome B) (xs : list A) : outcome (list B) :=
  match xs with
  | [] => Ok []
  | x :: r => let! y := f x in let! ys := omap f r in Ok (y :: ys)
  end.

(** ** Python string primitives *)

Module Py.

Definition code (c : ascii) : Z := Z.of_nat (nat_of_ascii c).

(** Whitespace as [int()] sees it: the C-locale blanks, and the two
    non-ASCII blanks below 256 (NEL and NBSP), which [int()] first turns
    into a space. *)
Definition isspace (c : ascii) : bool :=
  let n := code c in
  ((9 <=? n) && (n <=? 13)) || (n =? 32) || (n =? 133) || (n =? 160).

Definition digit (c : ascii) : option Z :=
  let n := code c in
  if (48 <=? n) && (n <=? 57) then Some (n - 48) else None.

Definition isdigit (c : ascii) : bool :=
  match digit c with Some _ => true | None => false end.

Fixpoint lstrip (s : string) : string :=
  match s with
  | String c r => if isspace c then lstrip r else s
  | EmptyString => s
  end.

Fixpoint all_space (s : string) : bool :=
  match s with
  | String c r => isspace c && all_space r
  | EmptyString => true
  end.

(** The digit loop of [PyLong_FromString] in base 10: digits with single
    underscores between them; [after_us] records that the previous
    character was an underscore.  Returns the value and the unread rest. *)
Fixpoint digits_loop (acc : Z) (after_us : bool) (s : string) : option (Z * string) :=
  match s with
  | EmptyString => if after_us then None else Some (acc, s)
  | String c r =>
      match digit c with
      | Some d => digits_loop (acc * 10 + d) false r
      | None =>
          if Ascii.eqb c "_"
          then (if after_us then None else digits_loop acc true r)
          else (if after_us then None else Some (acc, s))
      end
  end.

Definition unsigned_literal (s : string) : option Z :=
  match s with
  | String c r =>
      match digit c with
      | Some d =>
          match digits_loop d false r with
          | Some (v, rest) => if all_space rest then Some v else None
          | None => None
          end
      | None => None
      end
  | EmptyString => None
  end.

(** [int(s)] for a [str] argument, base 10. *)
Definition int (s : string) : outcome Z :=
  let body :=
    match lstrip s with
    | String "+" r => unsigned_literal r
    | String "-" r => option_map Z.opp (unsigned_literal r)
    | t => unsigned_literal t
    end in
  match body with
  | Some v => Ok v
  | None => Raise ValueError
  end.

(** [sep in s] for a one-character [sep]. *)
Fixpoint contains (sep : ascii) (s : string) : bool :=
  match s with
  | String c r => Ascii.eqb c sep || contains sep r
  | EmptyString => false
  end.

(** [s.split(sep)] for a one-character [sep]: never empty, and one more
    part than there are separators. *)
Fixpoint split (sep : ascii) (s : string) : list string :=
  match s with
  | EmptyString => [EmptyString]
  | String c r =>
      if Ascii.eqb c sep then EmptyString :: split sep r
      else match split sep r with
           | p :: ps => String c p :: ps
           | [] => [String c EmptyString]
           end
  end.

(** [a, b = it]: exactly two items, else [ValueError]; the items are
    produced on demand, so the exception of the first failing one wins. *)
Definition unpack2 {A} (items : list (outcome A)) : outcome (A * A) :=
  match items with
  | [x; y] => let! a := x in let! b := y in Ok (a, b)
  | x :: y :: z :: _ => let! a := x in let! b := y in let! _ := z in Raise ValueError
  | [x] => let! _ := x in Raise ValueError
  | [] => Raise ValueError
  end.

(** [str(n)] for [n >= 0]. *)
Fixpoint decimal_fuel (fuel : nat) (n : Z) (acc : string) : string :=
  match fuel with
  | O => acc
  | S f =>
      let acc' := String (ascii_of_nat (Z.to_nat (48 + n mod 10))) acc in
      if n <? 10 then acc' else decimal_fuel f (n / 10) acc'
  end.

Definition decimal (n : Z) : string :=
  decimal_fuel (S (Z.to_nat (Z.log2 n))) n EmptyString.

(** [str(n)] for every integer. *)
Definition str (n : Z) : string :=
  if n <? 0 then String "-" (decimal (- n)) else decimal n.

End Py.

(** ** Values of the week-range column

    The column holds text; an empty spreadsheet cell arrives as NaN, and the
    annotation [Optional[str]] also admits [None]. *)
Inductive pyval : Type :=
| PyNone
| PyNaN
| PyStr (s : string).

(** [pd.isna] on these scalars. *)
Definition isna (v : pyval) : bool :=
  match v with
  | PyNone | PyNaN => true
  | PyStr _ => false
  end.

(** ** [check_week_range] *)

Definition check_week_range (week_str : pyval) (current_week : Z) : outcome bool :=
  if isna week_str then Ok true
  else
    match week_str with
    | PyStr s =>
        if String.eqb s "" then Ok true
        else if Py.contains "-" s then
          try_except
            (let! se := Py.unpack2 (map Py.int (Py.split "-" s)) in
             Ok ((fst se <=? current_week) && (current_week <=? snd se)))
            (Ok false)
        else if Py.contains "," s then
          try_except
            (let! week_list := omap Py.int (Py.split "," s) in
             Ok (existsb (Z.eqb current_week) week_list))
            (Ok false)
        else
          try_except
            (let! n := Py.int s in Ok (n =? current_week))
            (Ok false)
    | PyNone | PyNaN => Raise TypeError
    end.

(** ** Dates and times

    A [datetime.datetime] is the number of microseconds since
    0001-01-01T00:00:00 (the midnight that opens proleptic ordinal 1); a
    [datetime.time] with zero seconds is its number of minutes after
    midnight.  Comparison of datetimes, and of times, is comparison of these
    numbers.  The upper end of the range of [datetime] (year 9999) is not
    modelled. *)

Module Datetime.

Definition us_per_minute : Z := 60000000.
Definition us_per_day : Z := 86400000000.

Definition is_leap (year : Z) : bool :=
  (year mod 4 =? 0) && (negb (year mod 100 =? 0) || (year mod 400 =? 0)).

Definition days_in_month (year month : Z) : Z :=
  if (month =? 2) && is_leap year then 29
  else nth (Z.to_nat month) [0; 31; 28; 31; 30; 31; 30; 31; 31; 30; 31; 30; 31] 0.

Definition days_before_year (year : Z) : Z :=
  let y := year - 1 in y * 365 + y / 4 - y / 100 + y / 400.

Definition days_before_month (year month : Z) : Z :=
  nth (Z.to_nat month) [0; 0; 31; 59; 90; 120; 151; 181; 212; 243; 273; 304; 334] 0
  + (if (2 <? month) && is_leap year then 1 else 0).

(** [datetime.date(year, month, day).toordinal()], with the range checks of
    the constructor. *)
Definition ymd2ord (year month day : Z) : outcome Z :=
  if (1 <=? year) && (year <=? 9999) && (1 <=? month) && (month <=? 12)
     && (1 <=? day) && (day <=? days_in_month year month)
  then Ok (days_before_year year + days_before_month year month + day)
  else Raise ValueError.

(** Midnight of the day with the given ordinal. *)
Definition midnight (ordinal : Z) : Z := (ordinal - 1) * us_per_day.

(** [dt.date()], as the midnight that opens the day of [dt]. *)
Definition date_of (dt : Z) : Z := dt / us_per_day * us_per_day.

(** [datetime.datetime.combine(d, t)] for a date [d] (a midnight) and a
    time [t] (minutes after midnight). *)
Definition combine (d : Z) (t : Z) : Z := d + t * us_per_minute.

(** [dt.isoweekday()]: Monday is 1, Sunday is 7; ordinal 1 is a Monday. *)
Definition isoweekday (dt : Z) : Z := (dt / us_per_day) mod 7 + 1.

(** [dt + datetime.timedelta(minutes=m)]. *)
Definition add_minutes (dt : Z) (m : Z) : Z := dt + m * us_per_minute.

(** [(a - b).days]: a timedelta is normalised with a non-negative
    remainder, so the day count is the floor. *)
Definition days_between (a b : Z) : Z := (a - b) / us_per_day.

(** *** The regular expressions of [strptime]

    A directive is a list of alternatives tried in order; an alternative is
    a sequence of character classes.  [re.match] commits to the first
    alternative for which the rest of the pattern matches too. *)
Inductive cls : Type :=
| Lit (c : ascii)
| Dig
| Rng (lo hi : ascii).

Definition cls_ok (k : cls) (c : ascii) : bool :=
  match k with
  | Lit l => Ascii.eqb c l
  | Dig => Py.isdigit c
  | Rng lo hi => (Py.code lo <=? Py.code c) && (Py.code c <=? Py.code hi)
  end.

Fixpoint match_alt (a : list cls) (s : string) : option (string * string) :=
  match a with
  | [] => Some (EmptyString, s)
  | k :: a' =>
      match s with
      | String c r =>
          if cls_ok k c then
            match match_alt a' r with
            | Some (m, rest) => Some (String c m, rest)
            | None => None
            end
          else None
      | EmptyString => None
      end
  end.

Fixpoint first_alt {A} (alts : list (list cls)) (s : string)
    (k : string -> string -> option A) : option A :=
  match alts with
  | [] => None
  | a :: alts' =>
      match match_alt a s with
      | Some (m, rest) =>
          match k m rest with
          | Some x => Some x
          | None => first_alt alts' s k
          end
      | None => first_alt alts' s k
      end
  end.

(** The groups matched by a sequence of directives, and the unread rest. *)
Fixpoint re_match (p : list (list (list cls))) (s : string) : option (list string * string) :=
  match p with
  | [] => Some ([], s)
  | d :: p' =>
      first_alt d s (fun m rest =>
        match re_match p' rest with
        | Some (groups, rest') => Some (m :: groups, rest')
        | None => None
        end)
  end.

Definition re_Y : list (list cls) := [[Dig; Dig; Dig; Dig]].
Definition re_m : list (list cls) :=
  [[Lit "1"; Rng "0" "2"]; [Lit "0"; Rng "1" "9"]; [Rng "1" "9"]].
Definition re_d : list (list cls) :=
  [[Lit "3"; Rng "0" "1"]; [Rng "1" "2"; Dig]; [Lit "0"; Rng "1" "9"];
   [Rng "1" "9"]; [Lit " "; Rng "1" "9"]].
Definition re_H : list (list cls) :=
  [[Lit "2"; Rng "0" "3"]; [Rng "0" "1"; Dig]; [Dig]].
Definition re_M : list (list cls) := [[Rng "0" "5"; Dig]; [Dig]].
Definition re_lit (c : ascii) : list (list cls) := [[Lit c]].

(** [_strptime]: the data must match the format and leave nothing unread. *)
Definition strptime_groups (p : list (list (list cls))) (s : string) : outcome (list string) :=
  match re_match p s with
  | Some (groups, EmptyString) => Ok groups
  | _ => Raise ValueError
  end.

(** [datetime.datetime.strptime(s, "%Y-%m-%d")]. *)
Definition strptime_ymd (s : string) : outcome Z :=
  let! groups := strptime_groups [re_Y; re_lit "-"; re_m; re_lit "-"; re_d] s in
  match groups with
  | [gy; _; gm; _; gd] =>
      let! year := Py.int gy in
      let! month := Py.int gm in
      let! day := Py.int gd in
      let! ordinal := ymd2ord year month day in
      Ok (midnight ordinal)
  | _ => Raise ValueError
  end.

(** [datetime.datetime.strptime(s, "%H:%M").time()]. *)
Definition strptime_hm (s : string) : outcome Z :=
  let! groups := strptime_groups [re_H; re_lit ":"; re_M] s in
  match groups with
  | [gh; _; gm] =>
      let! hour := Py.int gh in
      let! minute := Py.int gm in
      Ok (hour * 60 + minute)
  | _ => Raise ValueError
  end.

End Datetime.

(** ** [parse_course_time]: midnight stands in for an unreadable time. *)
Definition parse_course_time (time_str : string) : Z :=
  match Datetime.strptime_hm time_str with
  | Ok t => t
  | Raise _ => 0
  end.

(** ** The timetable data

    The seven columns of the imported sheet, in the order of the template:
    weekday, start, end, course name, place, teacher, week range. *)
Record Row : Type := mkRow {
  weekday : Z;
  start_time : string;
  end_time : string;
  course_name : string;
  place : string;
  teacher : string;
  weeks : pyval
}.

(** One entry of [st.session_state.adjust_courses], as the form builds it. *)
Record Adjust : Type := mkAdjust {
  adj_weekday : Z;
  adj_weeks : string;
  orig_name : string;
  orig_start : string;
  new_name : string;
  new_start : string;
  new_end : string;
  new_place : string;
  new_teacher : string
}.

(** A DataFrame over these columns.  [start_obj] is the helper column of
    parsed start times, present only between its creation and its [drop].
    The row index is not modelled: the code never selects by label. *)
Record frame : Type := mkFrame {
  rows : list Row;
  start_obj : option (list Z)
}.

Definition empty_frame : frame := mkFrame [] None.

(** [df.empty]. *)
Definition frame_empty (f : frame) : bool :=
  match rows f with [] => true | _ => false end.

Definition loc : Type := nat.

Record session : Type := mkSession {
  course_data : option loc;
  remind_minutes : Z;
  adjust_courses : list Adjust;
  current_remind : option Row;
  semester_start : string
}.

Record world : Type := mkWorld {
  heap : gmap loc frame;
  sess : session;
  clock : nat -> Z;
  ticks : nat
}.

(** ** The state-and-exception monad of the page script *)

Definition M (A : Type) : Type := world -> outcome A * world.

Definition ret {A} (a : A) : M A := fun w => (Ok a, w).

Definition bind {A B} (m : M A) (k : A -> M B) : M B :=
  fun w =>
    match m w with
    | (Ok a, w') => k a w'
    | (Raise e, w') => (Raise e, w')
    end.

Declare Scope M_scope.
Delimit Scope M_scope with M.
Notation "'let*' x ':=' m 'in' k" := (bind m (fun x => k))
  (at level 10, x name, m at level 200, k at level 200) : M_scope.
Local Open Scope M_scope.

Definition lift {A} (o : outcome A) : M A := fun w => (o, w).

(** [try: body except: handler]: what [body] did to the world before it
    raised stays done. *)
Definition Mtry {A} (body handler : M A) : M A :=
  fun w =>
    match body w with
    | (Ok a, w') => (Ok a, w')
    | (Raise _, w') => handler w'
    end.

Definition gets {A} (f : session -> A) : M A := fun w => (Ok (f (sess w)), w).

Definition set_sess (s : session) : M unit :=
  fun w => (Ok tt, mkWorld (heap w) s (clock w) (ticks w)).

(** [datetime.datetime.now()]. *)
Definition now : M Z :=
  fun w => (Ok (clock w (ticks w)), mkWorld (heap w) (sess w) (clock w) (S (ticks w))).

(** A new object. *)
Definition alloc (f : frame) : M loc :=
  fun w =>
    let l := fresh (dom (heap w)) in
    (Ok l, mkWorld (<[l := f]> (heap w)) (sess w) (clock w) (ticks w)).

Definition load (l : loc) : M frame :=
  fun w =>
    match heap w !! l with
    | Some f => (Ok f, w)
    | None => (Raise KeyError, w)
    end.

(** Mutation of an object in place. *)
Definition store (l : loc) (f : frame) : M unit :=
  fun w => (Ok tt, mkWorld (<[l := f]> (heap w)) (sess w) (clock w) (ticks w)).

(** ** [get_week_num] *)

Definition get_week_num : M Z :=
  Mtry
    (let* s := gets semester_start in
     let* start_date := lift (Datetime.strptime_ymd s) in
     let* today := now in
     if today <? start_date then ret 0
     else ret (Datetime.days_between today start_date / 7 + 1))
    (ret 1).

(** ** The sort behind [DataFrame.sort_values]

    [sort_values(by)] is called without [kind], so pandas uses its default,
    ["quicksort"]: the key column (objects of type [datetime.time]) is
    handed to NumPy's generic [argsort], and the frame is reordered by the
    index array that comes back.  NumPy's generic quicksort is an
    introsort over the index array: median-of-three partitioning while a
    partition has more than 17 items, insertion sort below that, and
    heapsort for a partition whose depth budget is used up.  The model
    follows that routine; its explicit stack of pending partitions is
    written as recursion on the two sides of the pivot, which touch
    disjoint parts of the array. *)

Module Npy.
Section Argsort.

(** The key column. *)
Variable v : list Z.

Definition key (i : nat) : Z := nth i v 0.

(** [a[i]] and the exchange of two cells of the index array. *)
Definition at_ (a : list nat) (i : nat) : nat := nth i a O.

Definition swap (a : list nat) (i j : nat) : list nat :=
  <[j := at_ a i]> (<[i := at_ a j]> a).

(** *** Insertion sort

    [acc] is the part already in order, held last cell first: the inner
    loop walks down from its top cell while the new item is smaller. *)
Fixpoint shift_in (vi : nat) (acc : list nat) : list nat :=
  match acc with
  | [] => [vi]
  | k :: rest =>
      if key vi <? key k then k :: shift_in vi rest else vi :: acc
  end.

Definition insertion_sort (seg : list nat) : list nat :=
  rev (fold_left (fun acc vi => shift_in vi acc) seg []).

(** *** Heapsort, on cells numbered from 1 *)
Definition at1 (a : list nat) (k : nat) : nat := at_ a (k - 1).
Definition set1 (a : list nat) (k : nat) (x : nat) : list nat := <[(k - 1)%nat := x]> a.

(** The sift loop [for (i, j; j <= n;)]: the hole [i] moves down to the
    larger child while [tmp] is smaller than it; returns the array and the
    final hole. *)
Fixpoint sift (fuel : nat) (a : list nat) (tmp : nat) (i j n : nat) : list nat * nat :=
  match fuel with
  | O => (a, i)
  | S f =>
      if (j <=? n)%nat then
        let j' := if (j <? n)%nat && (key (at1 a j) <? key (at1 a (j + 1))) then S j else j in
        if key tmp <? key (at1 a j')
        then sift f (set1 a i (at1 a j')) tmp j' (j' + j')%nat n
        else (a, i)
      else (a, i)
  end.

Definition sift_from (a : list nat) (tmp : nat) (i n : nat) : list nat :=
  let '(a', i') := sift (S n) a tmp i (i + i)%nat n in
  set1 a' i' tmp.

(** [for (l = n >> 1; l > 0; --l)]. *)
Fixpoint heapify (l : nat) (a : list nat) (n : nat) : list nat :=
  match l with
  | O => a
  | S l' => heapify l' (sift_from a (at1 a l) l n) n
  end.

(** [for (; n > 1;)]: the top goes to cell [n], the old cell [n] sifts in. *)
Fixpoint extract (n : nat) (a : list nat) : list nat :=
  match n with
  | O => a
  | S n' =>
      if (1 <? n)%nat then
        let tmp := at1 a n in
        extract n' (sift_from (set1 a n (at1 a 1)) tmp 1 n')
      else a
  end.

Definition aheapsort (seg : list nat) : list nat :=
  let n := length seg in
  extract n (heapify (Nat.div2 n) seg n).

(** *** Partition *)
Definition SMALL_QUICKSORT : nat := 16.

(** [do { ++pi; } while (LT(a[pi], vp) && pi < pj);] *)
Fixpoint scan_up (fuel : nat) (a : list nat) (vp : Z) (pi pj : nat) : nat :=
  let pi' := S pi in
  match fuel with
  | O => pi'
  | S f =>
      if (key (at_ a pi') <? vp) && (pi' <? pj)%nat
      then scan_up f a vp pi' pj else pi'
  end.

(** [do { --pj; } while (LT(vp, a[pj]) && pi < pj);] *)
Fixpoint scan_down (fuel : nat) (a : list nat) (vp : Z) (pi pj : nat) : nat :=
  let pj' := Nat.pred pj in
  match fuel with
  | O => pj'
  | S f =>
      if (vp <? key (at_ a pj')) && (pi <? pj')%nat
      then scan_down f a vp pi pj' else pj'
  end.

(** The [for (;;)] loop that exchanges misplaced items. *)
Fixpoint exchange (fuel : nat) (a : list nat) (vp : Z) (pi pj : nat) : list nat * nat :=
  let pi' := scan_up (length a) a vp pi pj in
  let pj' := scan_down (length a) a vp pi' pj in
  if (pj' <=? pi')%nat then (a, pi')
  else
    match fuel with
    | O => (a, pi')
    | S f => exchange f (swap a pi' pj') vp pi' pj'
    end.

(** One partition step on a segment ([pl] is cell 0, [pr] the last cell):
    the array afterwards and the cell of the pivot. *)
Definition partition (seg : list nat) : list nat * nat :=
  let pr := (length seg - 1)%nat in
  let pm := Nat.div2 pr in
  let a := if key (at_ seg pm) <? key (at_ seg 0) then swap seg pm 0 else seg in
  let a := if key (at_ a pr) <? key (at_ a pm) then swap a pr pm else a in
  let a := if key (at_ a pm) <? key (at_ a 0) then swap a pm 0 else a in
  let vp := key (at_ a pm) in
  let pj := (pr - 1)%nat in
  let a := swap a pm pj in
  let '(a, pi) := exchange (length a) a vp 0 pj in
  (swap a pi (pr - 1), pi).

(** *** The driver

    [quick] is the inner [while] on the current partition; the side that is
    put on the stack is met again at the top of the outer loop, where an
    exhausted depth budget sends it to heapsort. *)
Fixpoint quick (fuel : nat) (cdepth : Z) (seg : list nat) : list nat :=
  match fuel with
  | O => seg
  | S f =>
      if (SMALL_QUICKSORT <? length seg - 1)%nat then
        let '(a, pi) := partition seg in
        let left := firstn pi a in
        let right := skipn (S pi) a in
        let cdepth' := cdepth - 1 in
        let popped side := if cdepth' <? 0 then aheapsort side else quick f cdepth' side in
        if (pi <? length seg - 1 - pi)%nat
        then (quick f cdepth' left ++ at_ a pi :: popped right)%list
        else (popped left ++ at_ a pi :: quick f cdepth' right)%list
      else insertion_sort seg
  end.

(** [npy_aquicksort] on the identity index array. *)
Definition aquicksort : list nat :=
  let num := length v in
  quick num (2 * Z.log2 (Z.of_nat num)) (seq 0 num).

End Argsort.
End Npy.

(** [frame.take(indexer)] on one column. *)
Definition take {A} (indexer : list nat) (column : list A) : outcome (list A) :=
  omap (fun i => match nth_error column i with
                 | Some x => Ok x
                 | None => Raise IndexError
                 end) indexer.

(** [f.sort_values("开始时间_obj")]: a new frame. *)
Definition sort_values (f : frame) : outcome frame :=
  match start_obj f with
  | Some keys =>
      let indexer := Npy.aquicksort keys in
      let! rs := take indexer (rows f) in
      let! ks := take indexer keys in
      Ok (mkFrame rs (Some ks))
  | None => Raise KeyError
  end.

(** [f.drop("开始时间_obj", axis=1)]: a new frame. *)
Definition drop_start_obj (f : frame) : frame := mkFrame (rows f) None.

(** ** [get_today_courses] *)

(** [column[mask]] for a boolean mask. *)
Fixpoint select {A} (mask : list bool) (column : list A) : list A :=
  match mask, column with
  | b :: mask', x :: column' =>
      if b then x :: select mask' column' else select mask' column'
  | _, _ => []
  end.

(** The mask of the rows an adjustment replaces. *)
Definition adjust_mask (adjust : Adjust) (f : frame) : list bool :=
  map (fun r => String.eqb (start_time r) (orig_start adjust)
                && String.eqb (course_name r) (orig_name adjust)) (rows f).

Definition overwrite (adjust : Adjust) (r : Row) : Row :=
  mkRow (weekday r) (new_start adjust) (new_end adjust) (new_name adjust)
        (new_place adjust) (new_teacher adjust) (weeks r).

(** [f.loc[mask, [name, place, teacher, start, end]] = [...]]. *)
Definition loc_assign (mask : list bool) (adjust : Adjust) (f : frame) : frame :=
  mkFrame (zip_with (fun (b : bool) r => if b then overwrite adjust r else r)
                    mask (rows f))
          (start_obj f).

Definition new_course (adjust : Adjust) : Row :=
  mkRow (adj_weekday adjust) (new_start adjust) (new_end adjust) (new_name adjust)
        (new_place adjust) (new_teacher adjust) (PyStr (adj_weeks adjust)).

(** [pd.concat([f, g], ignore_index=True)]: a new frame. *)
Definition concat (f g : frame) : frame := mkFrame (rows f ++ rows g)%list None.

(** The body of the loop over the adjustments; [today_courses] is the
    variable of that name, a reference. *)
Definition merge_adjust (today_weekday current_week : Z) (adjust : Adjust)
    (today_courses : loc) : M loc :=
  let* applies :=
    if adj_weekday adjust =? today_weekday
    then lift (check_week_range (PyStr (adj_weeks adjust)) current_week)
    else ret false in
  if (applies : bool) then
    let* f := load today_courses in
    let mask := adjust_mask adjust f in
    if existsb (fun b : bool => b) mask then
      let* _ := store today_courses (loc_assign mask adjust f) in
      ret today_courses
    else
      let* extra := alloc (mkFrame [new_course adjust] None) in
      let* g := load extra in
      alloc (concat f g)
  else ret today_courses.

Fixpoint merge_adjusts (today_weekday current_week : Z) (adjusts : list Adjust)
    (today_courses : loc) : M loc :=
  match adjusts with
  | [] => ret today_courses
  | adjust :: rest =>
      let* today_courses' := merge_adjust today_weekday current_week adjust today_courses in
      merge_adjusts today_weekday current_week rest today_courses'
  end.

Definition get_today_courses : M loc :=
  let* cd := gets course_data in
  match cd with
  | None => alloc empty_frame
  | Some data =>
      let* t := now in
      let today_weekday := Datetime.isoweekday t in
      let* current_week := get_week_num in
      let* df := load data in
      let on_day := map (fun r => weekday r =? today_weekday) (rows df) in
      let* in_week := lift (omap (fun r => check_week_range (weeks r) current_week) (rows df)) in
      let* today_courses := alloc (mkFrame (select (zip_with andb on_day in_week) (rows df)) None) in
      let* adjusts := gets adjust_courses in
      let* today_courses := merge_adjusts today_weekday current_week adjusts today_courses in
      let* f := load today_courses in
      let* _ := store today_courses
                  (mkFrame (rows f) (Some (map (fun r => parse_course_time (start_time r)) (rows f)))) in
      let* f := load today_courses in
      let* sorted := lift (sort_values f) in
      let* sorted_ref := alloc sorted in
      alloc (drop_start_obj sorted)
  end.

(** ** [check_remind] *)

(** The loop over [iterrows()]: the first course that starts inside the
    window ends it. *)
Fixpoint first_due (t remind_time : Z) (courses : list Row) : option Row :=
  match courses with
  | [] => None
  | course :: rest =>
      let course_start :=
        Datetime.combine (Datetime.date_of t) (parse_course_time (start_time course)) in
      if (t <=? course_start) && (course_start <=? remind_time) then Some course
      else first_due t remind_time rest
  end.

Definition set_current_remind (r : option Row) : M unit :=
  let* s := gets (fun s => s) in
  set_sess (mkSession (course_data s) (remind_minutes s) (adjust_courses s) r (semester_start s)).

Definition check_remind : M unit :=
  let* today_ref := get_today_courses in
  let* today_courses := load today_ref in
  if frame_empty today_courses then set_current_remind None
  else
    let* t := now in
    let* minutes := gets remind_minutes in
    let remind_time := Datetime.add_minutes t minutes in
    set_current_remind (first_due t remind_time (rows today_courses)).

(** ** The upload block *)

(** The values the filter expression of the import handles: integers and
    Series of integers or booleans.  The operators are given for the shapes
    of operands that expression has. *)
Inductive pv : Type :=
| PInt (z : Z)
| PIntSeries (l : list Z)
| PBoolSeries (l : list bool).

(** [a & b]. *)
Definition py_and (a b : pv) : outcome pv :=
  match a, b with
  | PInt x, PInt y => Ok (PInt (Z.land x y))
  | PInt x, PIntSeries l => Ok (PIntSeries (map (Z.land x) l))
  | PIntSeries l, PInt y => Ok (PIntSeries (map (fun x => Z.land x y) l))
  | _, _ => Raise TypeError
  end.

Definition py_cmp (op : Z -> Z -> bool) (a b : pv) : outcome pv :=
  match a, b with
  | PIntSeries l, PIntSeries r =>
      if (length l =? length r)%nat then Ok (PBoolSeries (zip_with op l r))
      else Raise ValueError
  | PIntSeries l, PInt y => Ok (PBoolSeries (map (fun x => op x y) l))
  | PInt x, PIntSeries r => Ok (PBoolSeries (map (fun y => op x y) r))
  | _, _ => Raise TypeError
  end.

(** [bool(x)]: the truth value of a Series is ambiguous, whatever its
    length. *)
Definition py_truth (x : pv) : outcome bool :=
  match x with
  | PInt z => Ok (negb (z =? 0))
  | PIntSeries _ | PBoolSeries _ => Raise ValueError
  end.

(** [a >= b <= c], that is [a >= b and b <= c] with [b] evaluated once. *)
Definition py_ge_le (a b c : pv) : outcome pv :=
  let! t := py_cmp Z.geb a b in
  let! truth := py_truth t in
  if (truth : bool) then py_cmp Z.leb b c else Ok t.

(** A cell of the uploaded weekday column. *)
Inductive wcell : Type :=
| WInt (z : Z)
| WText (s : string)
| WBlank.

(** What [read_excel] returns: the column names, and for each line the raw
    weekday cell next to the other six cells.  Columns beyond the seven of
    the template are carried along by the code and never read. *)
Record sheet : Type := mkSheet {
  columns : list string;
  lines : list (wcell * Row)
}.

Definition required_cols : list string :=
  ["星期"; "开始时间"; "结束时间"; "课程名称"; "地点"; "教师"; "周次"].

Inductive notice : Type :=
| ImportSucceeded
| MissingColumns
| ImportFailed.

Definition set_course_data (d : option loc) : M unit :=
  let* s := gets (fun s => s) in
  set_sess (mkSession d (remind_minutes s) (adjust_courses s) (current_remind s) (semester_start s)).

Section Upload.

(** The integer [pd.to_numeric(..., errors="coerce")] followed by
    [astype(int)] makes of a text cell; [None] where the text is coerced to
    NaN.  The parser is pandas' own. *)
Variable numeric_text : string -> option Z.

(** [pd.to_numeric(col, errors="coerce").fillna(0).astype(int)], per cell. *)
Definition to_weekday (c : wcell) : Z :=
  match c with
  | WInt z => z
  | WText s => match numeric_text s with Some z => z | None => 0 end
  | WBlank => 0
  end.

Definition with_weekday (line : wcell * Row) : Row :=
  let r := snd line in
  mkRow (to_weekday (fst line)) (start_time r) (end_time r) (course_name r)
        (place r) (teacher r) (weeks r).

(** The [if uploaded_file:] block; [uploaded_file] is [None] when nothing
    was uploaded, else what [pd.read_excel] made of the file. *)
Definition upload_block (uploaded_file : option (outcome sheet)) : M (option notice) :=
  match uploaded_file with
  | None => ret None
  | Some read_excel =>
      Mtry
        (let* df := lift read_excel in
         if forallb (fun col => existsb (String.eqb col) (columns df)) required_cols then
           let day := PIntSeries (map (fun l => to_weekday (fst l)) (lines df)) in
           let* mask := lift (let! low := py_and (PInt 1) day in py_ge_le day low (PInt 7)) in
           match mask with
           | PBoolSeries m =>
               let* data := alloc (mkFrame (select m (map with_weekday (lines df))) None) in
               let* _ := set_course_data (Some data) in
               ret (Some ImportSucceeded)
           | _ => lift (Raise KeyError)
           end
         else ret (Some MissingColumns))
        (ret (Some ImportFailed))
  end.

End Upload.

(** ** The delete buttons of the adjustment list *)

(** [l.pop(i)]. *)
Definition py_pop {A} (l : list A) (i : Z) : outcome (A * list A) :=
  let n := Z.of_nat (length l) in
  let j := if i <? 0 then i + n else i in
  if (0 <=? j) && (j <? n) then
    match nth_error l (Z.to_nat j) with
    | Some x => Ok (x, (firstn (Z.to_nat j) l ++ skipn (S (Z.to_nat j)) l)%list)
    | None => Raise IndexError
    end
  else Raise IndexError.

Definition set_adjust_courses (l : list Adjust) : M unit :=
  let* s := gets (fun s => s) in
  set_sess (mkSession (course_data s) (remind_minutes s) l (current_remind s) (semester_start s)).

(** [for i, adjust in enumerate(adjust_courses)]: the button with key
    [del_i] is drawn, and when it reports a click the entry is popped and
    the script reruns, which ends the loop.  [pressed k] tells whether the
    button with key [del_k] reports a click in this run; the result tells
    whether a rerun was requested. *)
Fixpoint delete_buttons (pressed : Z -> bool) (i : Z) (items : list Adjust) : M bool :=
  match items with
  | [] => ret false
  | _ :: rest =>
      if pressed i then
        let* l := gets adjust_courses in
        let* popped := lift (py_pop l i) in
        let* _ := set_adjust_courses (snd popped) in
        ret true
      else delete_buttons pressed (i + 1) rest
  end.

Definition adjust_list_block (pressed : Z -> bool) : M bool :=
  let* l := gets adjust_courses in
  match l with
  | [] => ret false
  | _ => delete_buttons pressed 0 l
  end.

(** ** The effective schedule as the specification words it

    The merge of the adjustments written as a function on rows, to be
    compared with the loop of [get_today_courses], which works on frame
    objects. *)

(** [matches(expr, currentWeek)]. *)
Definition matches (expr : pyval) (current_week : Z) : bool :=
  match check_week_range expr current_week with
  | Ok b => b
  | Raise _ => false
  end.

(** Step 1: the rows of the weekday whose week range matches. *)
Definition selected (today_weekday current_week : Z) (base : list Row) : list Row :=
  List.filter (fun r => (weekday r =? today_weekday) && matches (weeks r) current_week) base.

(** The key of an adjustment: original start time and original name. *)
Definition targets (adjust : Adjust) (r : Row) : bool :=
  String.eqb (start_time r) (orig_start adjust)
  && String.eqb (course_name r) (orig_name adjust).

Definition applies (today_weekday current_week : Z) (adjust : Adjust) : bool :=
  (adj_weekday adjust =? today_weekday)
  && matches (PyStr (adj_weeks adjust)) current_week.

(** Step 2, for one adjustment: replace the rows it targets, or append a
    synthetic row when it targets none. *)
Definition replace_or_append (today_weekday current_week : Z)
    (today : list Row) (adjust : Adjust) : list Row :=
  if applies today_weekday current_week adjust then
    if existsb (targets adjust) today
    then map (fun r => if targets adjust r then overwrite adjust r else r) today
    else (today ++ [new_course adjust])%list
  else today.

Definition merged (today_weekday current_week : Z) (adjusts : list Adjust)
    (base : list Row) : list Row :=
  fold_left (replace_or_append today_weekday current_week) adjusts
            (selected today_weekday current_week base).

(** The parsed start time of a row, the sort key. *)
Definition start_key (r : Row) : Z := parse_course_time (start_time r).

(** Ascending by parsed start time. *)
Definition by_start (r1 r2 : Row) : Prop := start_key r1 <= start_key r2.

(** The rows of a table in the order [sort_values] gives them. *)
Definition sorted_rows (today : list Row) : list Row :=
  match sort_values (mkFrame today (Some (map start_key today))) with
  | Ok f => rows f
  | Raise _ => []
  end.

(** The world after one reading of the clock. *)
Definition tick (w : world) : world :=
  mkWorld (heap w) (sess w) (clock w) (S (ticks w)).

(** ** Orders and loop invariants of the sort

    Used only in the proofs about [Npy]. *)

Module Invariant.
Section Keys.

Variable v : list Z.
Local Abbreviation K := (Npy.key v).

(** Order on the cells of the index array: by key. *)
Definition key_le (x y : nat) : Prop := K x <= K y.

(** Order by key, then by index: the order a stable sort produces. *)
Definition key_index_lt (x y : nat) : Prop :=
  K x < K y \/ (K x = K y /\ (x < y)%nat).

(** The state of the exchange loop: the cells up to [pi] hold keys at most
    the pivot's, the cells from [pj] on keys at least the pivot's, and the
    pivot itself waits in the last cell but one. *)
Definition exchange_inv (a0 : list nat) (vp : Z) (a : list nat) (pi pj : nat) : Prop :=
  length a = length a0
  /\ Permutation a a0
  /\ (pi < pj)%nat /\ (S pj < length a)%nat
  /\ K (Npy.at_ a (length a - 2)) = vp
  /\ (forall k, (k <= pi)%nat -> K (Npy.at_ a k) <= vp)
  /\ (forall k, (pj <= k < length a)%nat -> vp <= K (Npy.at_ a k)).

Local Open Scope nat_scope.

(** Node [k] of the heap on the cells [1..n] is at least its children. *)
Definition heap_ok (n : nat) (a : list nat) (k : nat) : Prop :=
  (2 * k <= n -> (K (Npy.at1 a (2 * k)) <= K (Npy.at1 a k))%Z)
  /\ (2 * k + 1 <= n -> (K (Npy.at1 a (2 * k + 1)) <= K (Npy.at1 a k))%Z).

(** The state of the sift loop started at node [l]: [tmp] is out of the
    array, cell [i] is free to receive it. *)
Definition sift_inv (l n : nat) (b : list nat) (tmp : nat) (a : list nat) (i : nat) : Prop :=
  length a = length b
  /\ 1 <= l <= i /\ i <= n <= length a
  /\ (forall k, l <= k -> (k = l -> i <> l) -> heap_ok n a k)
  /\ (forall k, l <= k -> 2 * k = i \/ 2 * k + 1 = i ->
        (K tmp <= K (Npy.at1 a k))%Z)
  /\ Permutation (Npy.set1 a i tmp) b
  /\ (forall k, n < k -> Npy.at1 a k = Npy.at1 b k)
  /\ (forall B, (forall k, 1 <= k <= n -> (K (Npy.at1 b k) <= B)%Z) ->
        forall k, 1 <= k <= n -> k <> i -> (K (Npy.at1 a k) <= B)%Z).

Definition sift_post (l n : nat) (b : list nat) (a' : list nat) : Prop :=
  length a' = length b
  /\ Permutation a' b
  /\ (forall k, l <= k -> heap_ok n a' k)
  /\ (forall k, n < k -> Npy.at1 a' k = Npy.at1 b k)
  /\ (forall B, (forall k, 1 <= k <= n -> (K (Npy.at1 b k) <= B)%Z) ->
        forall k, 1 <= k <= n -> (K (Npy.at1 a' k) <= B)%Z).

End Keys.
End Invariant.

(** A course starts inside the window that opens at [t]. *)
Definition due (t remind_time : Z) (course : Row) : Prop :=
  t <= Datetime.combine (Datetime.date_of t) (start_key course) <= remind_time.

(** A row to stand for [nth] out of range. *)
Definition blank_row : Row := mkRow 0 "" "" "" "" "" PyNone.

(** ** Sample states, used in the examples *)

(** A Monday morning in the first week of a semester, used in the
    examples: semester start 2025-09-01, clock at 2025-09-01 08:55. *)
Definition monday_0855 : Z := Datetime.midnight 739495 + 535 * Datetime.us_per_minute.

Definition sample_session (adjusts : list Adjust) (data : option loc) : session :=
  mkSession data 10 adjusts None "2025-09-01".

Definition sample_world (h : gmap loc frame) (adjusts : list Adjust)
    (data : option loc) (t : Z) : world :=
  mkWorld h (sample_session adjusts data) (fun _ => t) 0.

Definition math_to_physics : Adjust :=
  mkAdjust 1 "1-16" "Math" "08:00" "Physics" "08:00" "08:45" "A101" "Li".

Definition extra_seminar : Adjust :=
  mkAdjust 1 "1-16" "Seminar" "07:00" "Seminar" "07:30" "08:00" "B2" "".

Definition one_monday_course : Row :=
  mkRow 1 "08:00" "08:45" "Math" "A101" "Wang" (PyStr "1-16").

Definition sample_sheet : sheet :=
  mkSheet required_cols [(WInt 1, one_monday_course)].

Definition monday_art : Row :=
  mkRow 1 "09:00" "09:45" "Art" "C3" "Wu" PyNaN.

Definition tuesday_math : Row :=
  mkRow 2 "08:00" "08:45" "Math" "A101" "Wang" (PyStr "1-16").

Definition monday_schedule : frame :=
  mkFrame [monday_art; tuesday_math; one_monday_course] None.

Definition loaded_world (adjusts : list Adjust) : world :=
  sample_world {[ 0%nat := monday_schedule ]} adjusts (Some 0%nat) monday_0855.

(** Eighteen Monday courses that all start at 08:00. *)
Definition course_at_eight (name : string) : Row :=
  mkRow 1 "08:00" "08:45" name "" "" PyNaN.

Definition eighteen_names : list string :=
  ["c00"; "c01"; "c02"; "c03"; "c04"; "c05"; "c06"; "c07"; "c08";
   "c09"; "c10"; "c11"; "c12"; "c13"; "c14"; "c15"; "c16"; "c17"].

Definition eighteen_at_eight : frame :=
  mkFrame (map course_at_eight eighteen_names) None.

Definition crowded_world : world :=
  sample_world {[ 0%nat := eighteen_at_eight ]} [] (Some 0%nat) monday_0855.

(** ** The page script around these functions

    The blocks of the script that read or write the session, in the order
    of the file.  What a widget returns in a run is an argument of its
    block. *)

(** [st.session_state] after lines 14-23 of a first run. *)
Definition initial_session : session := mkSession None 10 [] None "2025-09-01".

(** *** The date picker of the semester start *)

Fixpoint zeros (k : nat) (s : string) : string :=
  match k with
  | O => s
  | S k' => String "0" (zeros k' s)
  end.

(** [n >= 0] in decimal, filled with zeros on the left up to [width]
    characters: what [strftime] writes for [%m] and [%d] (width 2). *)
Definition zero_pad (width : nat) (n : Z) : string :=
  let digits := Py.decimal n in
  zeros (width - String.length digits) digits.

(** [datetime.date(year, month, day).strftime("%Y-%m-%d")].  The year is
    written as the C library of the deployment writes it, without filling;
    from the year 1000 on every platform writes these same four digits. *)
Definition strftime_ymd (year month day : Z) : string :=
  (Py.decimal year ++ "-" ++ zero_pad 2 month ++ "-" ++ zero_pad 2 day)%string.

Definition set_semester_start (s : string) : M unit :=
  let* old := gets (fun s => s) in
  set_sess (mkSession (course_data old) (remind_minutes old) (adjust_courses old)
                      (current_remind old) s).

(** The date picker: its [value] argument parses the stored text, outside
    any [try]; [picked] is the date the widget returns, as year, month and
    day. *)
Definition semester_block (picked : Z * Z * Z) : M unit :=
  let* s := gets semester_start in
  let* _ := lift (Datetime.strptime_ymd s) in
  let '(year, month, day) := picked in
  set_semester_start (strftime_ymd year month day).

(** *** The select box of the lookahead *)

Definition set_remind_minutes (m : Z) : M unit :=
  let* s := gets (fun s => s) in
  set_sess (mkSession (course_data s) m (adjust_courses s) (current_remind s)
                      (semester_start s)).

(** [remind_min] is the option the select box returns. *)
Definition remind_block (remind_min : Z) : M unit :=
  set_remind_minutes remind_min.

(** *** The form that adds an adjustment *)

(** [bool(s)] for a string. *)
Definition str_truth (s : string) : bool := negb (String.eqb s "").

Inductive form_notice : Type :=
| AdjustAdded
| MissingFields.

(** The form: [submit_adjust] is [None] unless the submit button reports
    a click, and then holds the nine fields. *)
Definition form_block (submit_adjust : option Adjust) : M (option form_notice) :=
  match submit_adjust with
  | None => ret None
  | Some form =>
      if forallb str_truth
           [orig_name form; orig_start form; new_name form; new_start form; new_end form]
      then
        let* l := gets adjust_courses in
        let* _ := set_adjust_courses (l ++ [form])%list in
        ret (Some AdjustAdded)
      else ret (Some MissingFields)
  end.

(** *** The main column *)

(** The rows of the week overview, before they are sorted and drawn: the
    selection by week range and its [copy()]. *)
Definition week_courses : M (option loc) :=
  let* cd := gets course_data in
  match cd with
  | Some data =>
      let* current_week := get_week_num in
      let* df := load data in
      let* in_week := lift (omap (fun r => check_week_range (weeks r) current_week) (rows df)) in
      let* picked := alloc (mkFrame (select in_week (rows df)) None) in
      let* f := load picked in
      let* copy := alloc f in
      ret (Some copy)
  | None => ret None
  end.

(** Today's table is computed for display, the clock and the week number
    are shown, and the reminder is checked, once more when the refresh
    button reports a click.  The result is the table on display. *)
Definition main_block (refresh : bool) : M loc :=
  let* today_courses := get_today_courses in
  let* _ := week_courses in
  let* _ := now in
  let* _ := get_week_num in
  let* _ := check_remind in
  let* _ := (if refresh then check_remind else ret tt) in
  ret today_courses.

(** *** One run of the script *)

(** What the widgets return in a run. *)
Record widgets : Type := mkWidgets {
  semester_start_picker : Z * Z * Z;
  file_uploader : option (outcome sheet);
  remind_min_select : Z;
  adjust_form : option Adjust;
  del_buttons : Z -> bool;
  refresh_button : bool
}.

Section Script.

Variable numeric_text : string -> option Z.

(** The script from the side bar down; a click on a delete button ends
    the run before the main column. *)
Definition page_run (ws : widgets) : M unit :=
  let* _ := semester_block (semester_start_picker ws) in
  let* _ := upload_block numeric_text (file_uploader ws) in
  let* _ := remind_block (remind_min_select ws) in
  let* _ := form_block (adjust_form ws) in
  let* rerun := adjust_list_block (del_buttons ws) in
  if (rerun : bool) then ret tt
  else
    let* _ := main_block (refresh_button ws) in
    ret tt.

Fixpoint page_runs (runs : list widgets) : M unit :=
  match runs with
  | [] => ret tt
  | ws :: rest =>
      let* _ := page_run ws in
      page_runs rest
  end.

End Script.

(** *** Vocabulary of the properties *)

(** The integers from [lo] up to [hi], without [hi]. *)
Definition zrange (lo hi : Z) : list Z :=
  map (fun i => lo + Z.of_nat i) (seq 0 (Z.to_nat (hi - lo))).

(** [HH:MM] with both fields filled to two digits, and with the fields as
    short as they go. *)
Definition padded_time (h m : Z) : string :=
  (zero_pad 2 h ++ ":" ++ zero_pad 2 m)%string.

Definition plain_time (h m : Z) : string :=
  (Py.decimal h ++ ":" ++ Py.decimal m)%string.

(** The time of day of an instant, in microseconds. *)
Definition time_of_day (t : Z) : Z := t mod Datetime.us_per_day.

(** The week number [get_week_num] answers at the instant [t] for the
    stored semester start [s]. *)
Definition week_at (s : string) (t : Z) : Z :=
  match Datetime.strptime_ymd s with
  | Ok start => if t <? start then 0 else Datetime.days_between t start / 7 + 1
  | Raise _ => 1
  end.

(** The schedule the session refers to, if any, is an object of the heap. *)
Definition schedule_in_heap (w : world) : Prop :=
  forall data, course_data (sess w) = Some data -> exists df, heap w !! data = Some df.

(** Two sessions that differ at most in the stored reminder. *)
Definition same_settings (s s' : session) : Prop :=
  course_data s' = course_data s
  /\ remind_minutes s' = remind_minutes s
  /\ adjust_courses s' = adjust_courses s
  /\ semester_start s' = semester_start s.

(** The rows of the table [get_today_courses] builds in the world [w]:
    the weekday comes from the first reading of the clock, the week from
    the second. *)
Definition today_table (w : world) : list Row :=
  match course_data (sess w) with
  | Some data =>
      match heap w !! data with
      | Some df =>
          sorted_rows
            (merged (Datetime.isoweekday (clock w (ticks w)))
                    (week_at (semester_start (sess w)) (clock w (S (ticks w))))
                    (adjust_courses (sess w)) (rows df))
      | None => []
      end
  | None => []
  end.

(** ** Week-range expressions as the specification words them

    What it is for a text to read as an integer, and for an expression to
    hold a week, said without the functions of the code: to be compared
    with [Py.int], [Py.split] and [check_week_range]. *)

Module Literal.

(** The characters allowed around a number. *)
Definition blank (c : ascii) : Prop :=
  In (nat_of_ascii c) [9; 10; 11; 12; 13; 32; 133; 160]%nat.

Definition blanks (s : string) : Prop :=
  List.Forall blank (list_ascii_of_string s).

(** [c] is the decimal digit of value [d]. *)
Definition digit_of (c : ascii) (d : Z) : Prop :=
  0 <= d <= 9 /\ nat_of_ascii c = (48 + Z.to_nat d)%nat.

(** [more acc s v]: after digits worth [acc], the text [s] carries the
    number on to the value [v]; each further digit may have one underscore
    in front of it. *)
Inductive more : Z -> string -> Z -> Prop :=
| more_end acc :
    more acc EmptyString acc
| more_digit acc c d s v :
    digit_of c d -> more (acc * 10 + d) s v -> more acc (String c s) v
| more_underscore acc c d s v :
    digit_of c d -> more (acc * 10 + d) s v -> more acc (String "_" (String c s)) v.

(** A number without sign: it opens with a digit. *)
Definition unsigned (s : string) (v : Z) : Prop :=
  exists c d r, s = String c r /\ digit_of c d /\ more d r v.

(** The text [s] reads as the integer [n]: blanks, an optional sign, the
    number, blanks. *)
Definition reads_as (s : string) (n : Z) : Prop :=
  exists pre body post v,
    blanks pre /\ blanks post /\ unsigned body v
    /\ ((s = (pre ++ body ++ post)%string /\ n = v)
        \/ (s = (pre ++ String "+" (body ++ post))%string /\ n = v)
        \/ (s = (pre ++ String "-" (body ++ post))%string /\ n = - v)).

Definition unreadable (s : string) : Prop := forall n, ~ reads_as s n.

End Literal.

Module WeekRange.

(** The character [c] occurs in [s]. *)
Definition has (c : ascii) (s : string) : Prop := In c (list_ascii_of_string s).

(** The texts [parts] with [sep] between them. *)
Fixpoint join (sep : ascii) (parts : list string) : string :=
  match parts with
  | [] => EmptyString
  | [p] => p
  | p :: rest => (p ++ String sep (join sep rest))%string
  end.

(** The expression holds the week [W]: it is missing or empty; or an
    interval [a-b] of two integers with [W] between them; or, without a
    hyphen, a comma list of integers one of which is [W]; or, without
    hyphen and comma, the integer [W]. *)
Definition holds (expr : pyval) (W : Z) : Prop :=
  match expr with
  | PyNone | PyNaN => True
  | PyStr s =>
      s = EmptyString
      \/ (exists a b A B,
            s = (a ++ String "-" b)%string /\ ~ has "-" a /\ ~ has "-" b
            /\ Literal.reads_as a A /\ Literal.reads_as b B /\ A <= W <= B)
      \/ (~ has "-" s /\ has "," s
          /\ exists parts l,
               s = join "," parts /\ List.Forall (fun p => ~ has "," p) parts
               /\ Forall2 Literal.reads_as parts l /\ In W l)
      \/ (~ has "-" s /\ ~ has "," s /\ Literal.reads_as s W)
  end.

End WeekRange.

(** * Properties *)

(** ** Exceptions and traversals *)

Lemma omap_Ok_iff {A B} (f : A -> outcome B) xs ys :
  omap f xs = Ok ys <-> Forall2 (fun x y => f x = Ok y) xs ys.
Proof.
  revert ys. induction xs as [|x r IH]; intros ys; simpl.
  - split.
    + intros H. injection H as <-. constructor.
    + intros H. inversion H. reflexivity.
  - split.
    + destruct (f x) as [y|e] eqn:Hx; simpl; [|discriminate].
      destruct (omap f r) as [l|e] eqn:Hr; simpl; [|discriminate].
      intros H. injection H as <-. constructor; [exact Hx|]. now apply IH.
    + intros H. inversion H as [|x' y r' l Hx Hl]; subst.
      rewrite Hx. simpl. apply IH in Hl. rewrite Hl. reflexivity.
Qed.

Lemma omap_Raise_iff {A B} (f : A -> outcome B) xs :
  (exists e, omap f xs = Raise e) <-> (exists x e, In x xs /\ f x = Raise e).
Proof.
  induction xs as [|x r IH]; simpl.
  - split; [intros [e H]; discriminate | intros (x & e & [] & _)].
  - split.
    + destruct (f x) as [y|e] eqn:Hx; simpl.
      * destruct (omap f r) as [l|e] eqn:Hr; simpl.
        -- intros [e H]; discriminate.
        -- intros _. destruct IH as [IH _].
           destruct IH as (x' & e' & Hin & Hx'); [now exists e|].
           exists x', e'. auto.
      * intros _. exists x, e. auto.
    + intros (x' & e' & [<-|Hin] & Hx').
      * rewrite Hx'. simpl. now exists e'.
      * destruct (f x) as [y|e]; simpl; [|now exists e].
        destruct IH as [_ IH]. destruct IH as [e Hr]; [now exists x', e'|].
        rewrite Hr. simpl. now exists e.
Qed.

Lemma omap_total {A B} (f : A -> outcome B) (g : A -> B) xs :
  (forall x, In x xs -> f x = Ok (g x)) -> omap f xs = Ok (map g xs).
Proof.
  induction xs as [|x r IH]; simpl; intros H; [reflexivity|].
  rewrite (H x) by auto. simpl. rewrite IH by auto. reflexivity.
Qed.

(** ** Strings *)

Lemma contains_app sep a b :
  Py.contains sep (a ++ b) = Py.contains sep a || Py.contains sep b.
Proof.
  induction a as [|c a IH]; simpl; [reflexivity|].
  rewrite IH. now rewrite orb_assoc.
Qed.

Lemma split_without sep s : Py.contains sep s = false -> Py.split sep s = [s].
Proof.
  induction s as [|c s IH]; simpl; [reflexivity|].
  intros H. apply orb_false_iff in H as [Hc Hs].
  rewrite Hc, (IH Hs). reflexivity.
Qed.

Lemma split_app sep a b :
  Py.contains sep a = false ->
  Py.split sep (a ++ String sep b) = a :: Py.split sep b.
Proof.
  induction a as [|c a IH]; simpl.
  - intros _. now rewrite Ascii.eqb_refl.
  - intros H. apply orb_false_iff in H as [Hc Ha].
    rewrite Hc, (IH Ha). reflexivity.
Qed.

Lemma split_nonempty sep s : Py.split sep s <> [].
Proof.
  destruct s as [|c s]; simpl; [discriminate|].
  destruct (Ascii.eqb c sep); [discriminate|].
  destruct (Py.split sep s); discriminate.
Qed.

Lemma contains_sep sep a b : Py.contains sep (a ++ String sep b) = true.
Proof.
  rewrite contains_app. simpl. rewrite Ascii.eqb_refl. simpl. apply orb_true_r.
Qed.

Lemma app_nonempty a c b : String.eqb (a ++ String c b) "" = false.
Proof. destruct a; reflexivity. Qed.

(** The decimal numeral of a non-negative integer reads back as that
    integer. *)
Lemma digit_of_nat d :
  0 <= d < 10 ->
  let c := ascii_of_nat (Z.to_nat (48 + d)) in
  Py.digit c = Some d /\ Ascii.eqb c "-" = false.
Proof.
  intros H.
  assert (Hd : d = 0 \/ d = 1 \/ d = 2 \/ d = 3 \/ d = 4 \/ d = 5 \/ d = 6
               \/ d = 7 \/ d = 8 \/ d = 9) by lia.
  repeat (destruct Hd as [-> | Hd]; [split; reflexivity|]).
  subst d. split; reflexivity.
Qed.

Lemma decimal_fuel_read fuel : forall n tail,
  0 <= n < 2 ^ Z.of_nat fuel -> (0 < fuel)%nat ->
  exists k, 0 <= k /\ forall acc,
    Py.digits_loop acc false (Py.decimal_fuel fuel n tail)
    = Py.digits_loop (acc * 10 ^ k + n) false tail.
Proof.
  induction fuel as [|f IH]; intros n tail Hn Hf; [lia|].
  simpl Py.decimal_fuel.
  assert (Hm : 0 <= n mod 10 < 10) by (apply Z.mod_pos_bound; lia).
  destruct (digit_of_nat _ Hm) as [Hd _]. cbv zeta in Hd.
  destruct (n <? 10) eqn:Hlt.
  - apply Z.ltb_lt in Hlt. exists 1. split; [lia|]. intros acc.
    simpl Py.digits_loop. rewrite Hd.
    rewrite Z.mod_small by lia. f_equal; lia.
  - apply Z.ltb_ge in Hlt.
    assert (Hq : 1 <= n / 10) by (apply Z.div_le_lower_bound; lia).
    assert (Hq2 : n / 10 < 2 ^ Z.of_nat f).
    { rewrite Nat2Z.inj_succ, Z.pow_succ_r in Hn by lia.
      apply Z.div_lt_upper_bound; lia. }
    assert (Hf' : (0 < f)%nat).
    { destruct f; [simpl in Hq2; lia | lia]. }
    destruct (IH (n / 10) (String (ascii_of_nat (Z.to_nat (48 + n mod 10))) tail))
      as (k & Hk & Hread); [lia | exact Hf' |].
    exists (k + 1). split; [lia|]. intros acc.
    rewrite Hread. simpl Py.digits_loop. rewrite Hd.
    f_equal; try reflexivity. rewrite Z.pow_add_r, Z.pow_1_r by lia.
    pose proof (Z.div_mod n 10). lia.
Qed.

Lemma decimal_fuel_head fuel : forall n tail,
  (0 < fuel)%nat -> 0 <= n ->
  exists c r, Py.decimal_fuel fuel n tail = String c r /\ Py.isdigit c = true
              /\ Py.isspace c = false.
Proof.
  induction fuel as [|f IH]; intros n tail Hf Hn; [lia|].
  simpl Py.decimal_fuel.
  assert (Hm : 0 <= n mod 10 < 10) by (apply Z.mod_pos_bound; lia).
  destruct (n <? 10) eqn:Hlt.
  - eexists _, _. split; [reflexivity|].
    assert (Hd : n mod 10 = 0 \/ n mod 10 = 1 \/ n mod 10 = 2 \/ n mod 10 = 3
                 \/ n mod 10 = 4 \/ n mod 10 = 5 \/ n mod 10 = 6
                 \/ n mod 10 = 7 \/ n mod 10 = 8 \/ n mod 10 = 9) by lia.
    repeat (destruct Hd as [-> | Hd]; [split; reflexivity|]).
    rewrite Hd. split; reflexivity.
  - destruct f as [|f'].
    + simpl. eexists _, _. split; [reflexivity|].
      assert (Hd : n mod 10 = 0 \/ n mod 10 = 1 \/ n mod 10 = 2 \/ n mod 10 = 3
                   \/ n mod 10 = 4 \/ n mod 10 = 5 \/ n mod 10 = 6
                   \/ n mod 10 = 7 \/ n mod 10 = 8 \/ n mod 10 = 9) by lia.
      repeat (destruct Hd as [-> | Hd]; [split; reflexivity|]).
      rewrite Hd. split; reflexivity.
    + apply IH; [lia|]. apply Z.div_pos; lia.
Qed.

Lemma decimal_fuel_no_minus fuel : forall n tail,
  0 <= n ->
  Py.contains "-" (Py.decimal_fuel fuel n tail) = Py.contains "-" tail.
Proof.
  induction fuel as [|f IH]; intros n tail Hn; [reflexivity|].
  simpl Py.decimal_fuel.
  assert (Hm : 0 <= n mod 10 < 10) by (apply Z.mod_pos_bound; lia).
  destruct (digit_of_nat _ Hm) as [_ Hc]. cbv zeta in Hc.
  destruct (n <? 10).
  - simpl. now rewrite Hc.
  - rewrite IH by (apply Z.div_pos; lia). simpl. now rewrite Hc.
Qed.

Lemma decimal_no_minus n : 0 <= n -> Py.contains "-" (Py.str n) = false.
Proof.
  intros Hn. unfold Py.str. destruct (n <? 0) eqn:E; [apply Z.ltb_lt in E; lia|].
  unfold Py.decimal. now rewrite decimal_fuel_no_minus.
Qed.

Lemma int_str n : 0 <= n -> Py.int (Py.str n) = Ok n.
Proof.
  intros Hn. unfold Py.str. destruct (n <? 0) eqn:E; [apply Z.ltb_lt in E; lia|].
  unfold Py.decimal.
  set (fuel := S (Z.to_nat (Z.log2 n))).
  assert (Hf : (0 < fuel)%nat) by (unfold fuel; lia).
  assert (Hb : 0 <= n < 2 ^ Z.of_nat fuel).
  { split; [exact Hn|]. unfold fuel.
    rewrite Nat2Z.inj_succ, Z2Nat.id by apply Z.log2_nonneg.
    destruct (Z.eq_dec n 0) as [->|Hz]; [reflexivity|].
    apply Z.log2_spec. lia. }
  destruct (decimal_fuel_head fuel n EmptyString Hf Hn) as (c & r & Hs & Hdig & Hsp).
  destruct (decimal_fuel_read fuel n EmptyString Hb Hf) as (k & Hk & Hread).
  unfold Py.int. rewrite Hs. simpl Py.lstrip. rewrite Hsp.
  assert (Hnp : Ascii.eqb c "+" = false /\ Ascii.eqb c "-" = false).
  { unfold Py.isdigit, Py.digit in Hdig.
    destruct ((48 <=? Py.code c) && (Py.code c <=? 57)) eqn:Hr; [|discriminate].
    apply andb_true_iff in Hr as [H1 H2].
    apply Z.leb_le in H1. apply Z.leb_le in H2.
    split; apply Ascii.eqb_neq; intros ->.
    - change (Py.code "+") with 43 in H1. lia.
    - change (Py.code "-") with 45 in H1. lia. }
  destruct Hnp as [Hplus Hminus].
  assert (Hlit : Py.unsigned_literal (String c r) = Some n).
  { unfold Py.unsigned_literal.
    unfold Py.isdigit in Hdig. destruct (Py.digit c) as [d|] eqn:Hd; [|discriminate].
    specialize (Hread 0). rewrite Hs in Hread. simpl Py.digits_loop in Hread.
    rewrite Hd in Hread. change (0 * 10 + d) with d in Hread.
    replace (0 * 10 ^ k + n) with n in Hread by lia.
    rewrite Hread. reflexivity. }
  destruct c as [b0 b1 b2 b3 b4 b5 b6 b7].
  destruct b0, b1, b2, b3, b4, b5, b6, b7;
    try discriminate Hplus; try discriminate Hminus; rewrite Hlit; reflexivity.
Qed.

(** ** Week ranges *)

Lemma try_except_total {A} (body : outcome A) (a0 : A) :
  exists a, try_except body (Ok a0) = Ok a.
Proof. destruct body as [a|e]; simpl; eauto. Qed.

Lemma check_week_range_parts a b W :
  Py.contains "-" a = false -> Py.contains "-" b = false ->
  check_week_range (PyStr (a ++ String "-" b)) W =
    match Py.int a, Py.int b with
    | Ok A, Ok B => Ok ((A <=? W) && (W <=? B))
    | _, _ => Ok false
    end.
Proof.
  intros Ha Hb. unfold check_week_range. cbn [isna].
  rewrite app_nonempty, contains_sep.
  rewrite (split_app "-" a b Ha), (split_without "-" b Hb). simpl.
  destruct (Py.int a) as [A|ea]; simpl; [|reflexivity].
  destruct (Py.int b) as [B|eb]; simpl; reflexivity.
Qed.

Lemma check_week_range_decimal A B W :
  0 <= A -> 0 <= B ->
  check_week_range (PyStr (Py.str A ++ String "-" (Py.str B))) W
  = Ok ((A <=? W) && (W <=? B)).
Proof.
  intros HA HB.
  rewrite check_week_range_parts by (apply decimal_no_minus; assumption).
  now rewrite !int_str by assumption.
Qed.

(** A third part makes the unpacking fail, whatever the parts are. *)
Lemma check_week_range_three_parts a b c W :
  Py.contains "-" a = false -> Py.contains "-" b = false ->
  check_week_range (PyStr (a ++ String "-" (b ++ String "-" c))) W = Ok false.
Proof.
  intros Ha Hb. unfold check_week_range. cbn [isna].
  rewrite app_nonempty, contains_sep.
  rewrite (split_app "-" a _ Ha), (split_app "-" b _ Hb).
  destruct (Py.split "-" c) as [|p ps] eqn:Hc.
  - now apply split_nonempty in Hc.
  - simpl. destruct (Py.int a); simpl; [|reflexivity].
    destruct (Py.int b); simpl; [|reflexivity].
    destruct (Py.int p); reflexivity.
Qed.

(** ** Reading integers

    [Py.int] accepts exactly the texts that read as an integer in the
    sense of [Literal.reads_as], and gives the integer they read as. *)

Lemma isspace_blank c : Py.isspace c = true <-> Literal.blank c.
Proof.
  unfold Py.isspace, Literal.blank, Py.code. simpl In.
  destruct (Z.leb_spec 9 (Z.of_nat (nat_of_ascii c)));
    destruct (Z.leb_spec (Z.of_nat (nat_of_ascii c)) 13);
    destruct (Z.eqb_spec (Z.of_nat (nat_of_ascii c)) 32);
    destruct (Z.eqb_spec (Z.of_nat (nat_of_ascii c)) 133);
    destruct (Z.eqb_spec (Z.of_nat (nat_of_ascii c)) 160);
    simpl; split; intros K; try reflexivity; try discriminate; lia.
Qed.

Lemma digit_spec c d : Py.digit c = Some d <-> Literal.digit_of c d.
Proof.
  unfold Py.digit, Literal.digit_of, Py.code.
  destruct (Z.leb_spec 48 (Z.of_nat (nat_of_ascii c)));
    destruct (Z.leb_spec (Z.of_nat (nat_of_ascii c)) 57); simpl; split;
    try discriminate; try (intros [= <-]; lia); intros [H1 H2];
    try (f_equal; lia); lia.
Qed.

Lemma blank_not_digit c : Literal.blank c -> Py.digit c = None /\ Ascii.eqb c "_" = false.
Proof.
  intros H. split.
  - destruct (Py.digit c) as [d|] eqn:Hd; [|reflexivity].
    apply digit_spec in Hd. destruct Hd as [Hd1 Hd2].
    unfold Literal.blank in H. simpl in H. lia.
  - destruct (Ascii.eqb_spec c "_") as [->|]; [|reflexivity].
    unfold Literal.blank in H. change (nat_of_ascii "_") with 95%nat in H.
    simpl in H. lia.
Qed.

Lemma all_space_blanks s : Py.all_space s = true <-> Literal.blanks s.
Proof.
  unfold Literal.blanks. induction s as [|c r IH]; simpl.
  - split; [constructor|reflexivity].
  - rewrite andb_true_iff, IH, isspace_blank. split.
    + intros [H1 H2]. now constructor.
    + intros H. inversion H. auto.
Qed.

Lemma string_cons_app c a b : (String c a ++ b)%string = String c (a ++ b).
Proof. reflexivity. Qed.

Lemma lstrip_split s : exists pre, s = (pre ++ Py.lstrip s)%string /\ Literal.blanks pre.
Proof.
  induction s as [|c r (pre & Hs & Hpre)].
  - exists EmptyString. split; [reflexivity|constructor].
  - cbn [Py.lstrip]. destruct (Py.isspace c) eqn:Hc.
    + exists (String c pre). split.
      * rewrite string_cons_app. now rewrite <- Hs.
      * unfold Literal.blanks. simpl. constructor; [now apply isspace_blank|exact Hpre].
    + exists EmptyString. split; [reflexivity|constructor].
Qed.

Lemma lstrip_blanks pre x : Literal.blanks pre -> Py.lstrip (pre ++ x) = Py.lstrip x.
Proof.
  unfold Literal.blanks. induction pre as [|c pre IH]; intros H; [reflexivity|].
  simpl in H. inversion H as [|? ? Hc Hrest]. subst.
  rewrite string_cons_app. cbn [Py.lstrip].
  rewrite (proj2 (isspace_blank c) Hc). now apply IH.
Qed.

Lemma int_lstrip_eq s : Py.int s = Py.int (Py.lstrip s).
Proof.
  unfold Py.int.
  assert (H : Py.lstrip (Py.lstrip s) = Py.lstrip s).
  { induction s as [|c r IH]; [reflexivity|].
    cbn [Py.lstrip]. destruct (Py.isspace c) eqn:Hc; [exact IH|].
    cbn [Py.lstrip]. now rewrite Hc. }
  now rewrite H.
Qed.

Lemma int_after_blanks pre x : Literal.blanks pre -> Py.int (pre ++ x) = Py.int x.
Proof.
  intros H. rewrite int_lstrip_eq, (lstrip_blanks _ _ H), <- int_lstrip_eq. reflexivity.
Qed.

(** The digit loop against [Literal.more]. *)
Lemma loop_more s : forall acc us v rest,
  Py.digits_loop acc us s = Some (v, rest) ->
  exists body,
    s = (body ++ rest)%string
    /\ if us
       then exists c d body', body = String c body' /\ Literal.digit_of c d
                              /\ Literal.more (acc * 10 + d) body' v
       else Literal.more acc body v.
Proof.
  induction s as [|c r IH]; intros acc us v rest; cbn [Py.digits_loop].
  - destruct us; [discriminate|]. intros [= <- <-].
    exists EmptyString. split; [reflexivity|constructor].
  - destruct (Py.digit c) as [d|] eqn:Hd.
    + intros H. destruct (IH _ _ _ _ H) as (body & -> & Hmore).
      apply digit_spec in Hd.
      exists (String c body). split; [reflexivity|].
      destruct us.
      * exists c, d, body. auto.
      * now apply Literal.more_digit with d.
    + destruct (Ascii.eqb_spec c "_") as [->|Hus].
      * destruct us; [discriminate|]. intros H.
        destruct (IH _ _ _ _ H) as (body & -> & c' & d' & body' & -> & Hd' & Hmore).
        exists (String "_" (String c' body')). split; [reflexivity|].
        now apply Literal.more_underscore with d'.
      * destruct us; [discriminate|]. intros [= <- <-].
        exists EmptyString. split; [reflexivity|constructor].
Qed.

Lemma more_loop acc body v post :
  Literal.more acc body v -> Literal.blanks post ->
  Py.digits_loop acc false (body ++ post) = Some (v, post).
Proof.
  intros Hmore Hpost. induction Hmore as [acc|acc c d s v Hd _ IH|acc c d s v Hd _ IH].
  - change (EmptyString ++ post)%string with post.
    destruct post as [|c p]; [reflexivity|].
    unfold Literal.blanks in Hpost. simpl in Hpost. inversion Hpost as [|? ? Hc _]. subst.
    destruct (blank_not_digit c Hc) as [H1 H2].
    cbn [Py.digits_loop]. now rewrite H1, H2.
  - rewrite string_cons_app. cbn [Py.digits_loop].
    rewrite (proj2 (digit_spec c d) Hd). exact IH.
  - rewrite !string_cons_app. cbn [Py.digits_loop].
    change (Py.digit "_") with (@None Z). change (Ascii.eqb "_" "_") with true.
    cbv iota. rewrite (proj2 (digit_spec c d) Hd). exact IH.
Qed.

Lemma unsigned_literal_spec u v :
  Py.unsigned_literal u = Some v
  <-> exists body post,
        u = (body ++ post)%string /\ Literal.unsigned body v /\ Literal.blanks post.
Proof.
  split.
  - unfold Py.unsigned_literal. destruct u as [|c r]; [discriminate|].
    destruct (Py.digit c) as [d|] eqn:Hd; [|discriminate].
    destruct (Py.digits_loop d false r) as [[v' rest]|] eqn:Hloop; [|discriminate].
    destruct (Py.all_space rest) eqn:Hsp; [|discriminate].
    intros [= <-].
    destruct (loop_more _ _ _ _ _ Hloop) as (body & -> & Hmore).
    exists (String c body), rest. split; [reflexivity|].
    split; [|now apply all_space_blanks].
    exists c, d, body. split; [reflexivity|]. split; [now apply digit_spec|exact Hmore].
  - intros (body & post & -> & (c & d & r & -> & Hd & Hmore) & Hpost).
    rewrite string_cons_app. unfold Py.unsigned_literal.
    rewrite (proj2 (digit_spec c d) Hd), (more_loop _ _ _ _ Hmore Hpost).
    now rewrite (proj2 (all_space_blanks post) Hpost).
Qed.

(** [int] on a text that opens without a blank: the sign, if any, is the
    first character. *)
Lemma int_head_cases c r n :
  Py.isspace c = false ->
  (Py.int (String c r) = Ok n
   <-> (c = "+"%char /\ Py.unsigned_literal r = Some n)
       \/ (c = "-"%char /\ exists v, Py.unsigned_literal r = Some v /\ n = - v)
       \/ (c <> "+"%char /\ c <> "-"%char /\ Py.unsigned_literal (String c r) = Some n)).
Proof.
  intros Hsp. unfold Py.int. cbn [Py.lstrip]. rewrite Hsp.
  destruct c as [b0 b1 b2 b3 b4 b5 b6 b7].
  destruct b0, b1, b2, b3, b4, b5, b6, b7; cbv beta iota zeta;
    (split;
     [ intros H;
       first
         [ right; right; split; [discriminate|]; split; [discriminate|];
           destruct (Py.unsigned_literal _) as [u|]; [|discriminate H];
           now injection H as ->
         | left; split; [reflexivity|];
           destruct (Py.unsigned_literal _) as [u|]; [|discriminate H];
           now injection H as ->
         | right; left; split; [reflexivity|];
           destruct (Py.unsigned_literal _) as [u|]; [|discriminate H];
           injection H as <-; now exists u ]
     | intros [[Hc H]|[[Hc (v & H & ->)]|(Hp & Hm & H)]];
       try discriminate Hc; try (now elim Hp); try (now elim Hm);
       rewrite H; reflexivity ]).
Qed.

Lemma unsigned_head body v :
  Literal.unsigned body v ->
  exists c r, body = String c r /\ Py.isspace c = false
              /\ c <> "+"%char /\ c <> "-"%char.
Proof.
  intros (c & d & r & -> & Hd & _). exists c, r. split; [reflexivity|].
  destruct Hd as [Hd1 Hd2].
  split.
  - destruct (Py.isspace c) eqn:Hc; [|reflexivity].
    apply isspace_blank in Hc. unfold Literal.blank in Hc. simpl in Hc. lia.
  - split; intros ->;
      [change (nat_of_ascii "+") with 43%nat in Hd2
      |change (nat_of_ascii "-") with 45%nat in Hd2]; lia.
Qed.

(** [Py.int] reads exactly the integer literals. *)
Lemma int_reads_as s n : Py.int s = Ok n <-> Literal.reads_as s n.
Proof.
  split.
  - intros H. destruct (lstrip_split s) as (pre & Hs & Hpre).
    rewrite int_lstrip_eq in H.
    destruct (Py.lstrip s) as [|c r] eqn:Ht; [discriminate H|].
    assert (Hc : Py.isspace c = false).
    { destruct s as [|x s']; [discriminate Ht|].
      clear -Ht. revert x Ht. induction s' as [|y s' IH]; intros x Ht.
      - cbn [Py.lstrip] in Ht. destruct (Py.isspace x) eqn:Hx; [discriminate Ht|].
        now injection Ht as <- _.
      - cbn [Py.lstrip] in Ht. destruct (Py.isspace x) eqn:Hx.
        + apply (IH y). exact Ht.
        + now injection Ht as <- _. }
    apply (int_head_cases c r n Hc) in H.
    destruct H as [[-> H]|[[-> (v & H & ->)]|(_ & _ & H)]];
      apply unsigned_literal_spec in H; destruct H as (body & post & Hr & Hbody & Hpost).
    + exists pre, body, post, n. subst r. auto 10.
    + exists pre, body, post, v. subst r. auto 10.
    + exists pre, body, post, n. rewrite Hr in Hs. auto 10.
  - intros (pre & body & post & v & Hpre & Hpost & Hbody & Hcase).
    destruct (unsigned_head body v Hbody) as (c & r & Hb & Hc & Hp & Hm).
    assert (Hlit : Py.unsigned_literal (body ++ post) = Some v).
    { apply unsigned_literal_spec. now exists body, post. }
    destruct Hcase as [[-> ->]|[[-> ->]|[-> ->]]]; rewrite (int_after_blanks _ _ Hpre).
    + rewrite Hb in *. rewrite string_cons_app in *.
      apply (int_head_cases c _ v Hc). right. right. auto.
    + apply (int_head_cases "+" _ v eq_refl). left. auto.
    + apply (int_head_cases "-" _ (- v) eq_refl). right. left.
      split; [reflexivity|]. now exists v.
Qed.

Lemma int_unreadable s : (exists e, Py.int s = Raise e) <-> Literal.unreadable s.
Proof.
  unfold Literal.unreadable. split.
  - intros [e He] n Hn. apply int_reads_as in Hn. congruence.
  - intros H. destruct (Py.int s) as [n|e] eqn:Hs; [|now exists e].
    elim (H n). now apply int_reads_as.
Qed.

(** ** Splitting and joining *)

Lemma contains_has c s : Py.contains c s = true <-> WeekRange.has c s.
Proof.
  unfold WeekRange.has. induction s as [|x r IH]; simpl.
  - split; [discriminate|tauto].
  - rewrite orb_true_iff, IH. split.
    + intros [H|H]; [left; now apply Ascii.eqb_eq|now right].
    + intros [H|H]; [left; now apply Ascii.eqb_eq|now right].
Qed.

Lemma contains_not_has c s : Py.contains c s = false <-> ~ WeekRange.has c s.
Proof.
  rewrite <- contains_has. destruct (Py.contains c s); split; congruence.
Qed.

Lemma has_app c a b :
  WeekRange.has c (a ++ b) <-> WeekRange.has c a \/ WeekRange.has c b.
Proof.
  rewrite <- !contains_has, contains_app. apply orb_true_iff.
Qed.

Lemma has_cons c x s : WeekRange.has c (String x s) <-> x = c \/ WeekRange.has c s.
Proof. reflexivity. Qed.

Lemma split_join sep parts :
  parts <> [] ->
  List.Forall (fun p => ~ WeekRange.has sep p) parts ->
  Py.split sep (WeekRange.join sep parts) = parts.
Proof.
  induction parts as [|p rest IH]; intros Hne Hall; [congruence|].
  inversion Hall as [|? ? Hp Hrest]. subst.
  destruct rest as [|q rest].
  - cbn [WeekRange.join]. apply split_without. now apply contains_not_has.
  - change (WeekRange.join sep (p :: q :: rest))
      with (p ++ String sep (WeekRange.join sep (q :: rest)))%string.
    rewrite split_app by now apply contains_not_has.
    rewrite IH; [reflexivity|discriminate|exact Hrest].
Qed.

Lemma join_split sep s :
  WeekRange.join sep (Py.split sep s) = s
  /\ List.Forall (fun p => ~ WeekRange.has sep p) (Py.split sep s).
Proof.
  induction s as [|x r [IHj IHf]].
  - split; [reflexivity|]. constructor; [|constructor]. intros [].
  - cbn [Py.split]. destruct (Ascii.eqb_spec x sep) as [->|Hx].
    + destruct (Py.split sep r) as [|p ps] eqn:Hsp.
      * now apply split_nonempty in Hsp.
      * split.
        -- change (WeekRange.join sep (EmptyString :: p :: ps))
             with (String sep (WeekRange.join sep (p :: ps))).
           now rewrite IHj.
        -- constructor; [intros []|exact IHf].
    + destruct (Py.split sep r) as [|p ps] eqn:Hsp.
      * now apply split_nonempty in Hsp.
      * inversion IHf as [|? ? Hp Hps]. subst. split.
        -- destruct ps; reflexivity.
        -- constructor; [|exact Hps].
           intros H. apply has_cons in H. destruct H as [H|H]; [congruence|tauto].
Qed.

(** The parts between separators are determined by the text. *)
Lemma join_unique sep s parts :
  parts <> [] ->
  List.Forall (fun p => ~ WeekRange.has sep p) parts ->
  s = WeekRange.join sep parts ->
  parts = Py.split sep s.
Proof. intros Hne Hall ->. symmetry. now apply split_join. Qed.

Lemma join_two_has sep p q rest : WeekRange.has sep (WeekRange.join sep (p :: q :: rest)).
Proof.
  change (WeekRange.join sep (p :: q :: rest))
    with (p ++ String sep (WeekRange.join sep (q :: rest)))%string.
  apply has_app. right. now left.
Qed.

Lemma join_one_without sep parts :
  List.Forall (fun p => ~ WeekRange.has sep p) parts ->
  WeekRange.has sep (WeekRange.join sep parts) -> (2 <= length parts)%nat.
Proof.
  intros Hall Hhas. destruct parts as [|p [|q rest]]; simpl in *.
  - destruct Hhas.
  - inversion Hall. tauto.
  - lia.
Qed.

(** ** The matcher against the specification's wording *)

Lemma existsb_In W l : existsb (Z.eqb W) l = true <-> In W l.
Proof.
  rewrite existsb_exists. split.
  - intros (x & Hin & Hx). apply Z.eqb_eq in Hx. now subst x.
  - intros Hin. exists W. split; [exact Hin|apply Z.eqb_refl].
Qed.

Lemma omap_reads parts l :
  omap Py.int parts = Ok l <-> Forall2 Literal.reads_as parts l.
Proof.
  rewrite omap_Ok_iff. split; intros H; induction H; constructor; auto;
    now apply int_reads_as.
Qed.

Lemma reads_as_unique s n n' : Literal.reads_as s n -> Literal.reads_as s n' -> n = n'.
Proof. intros H H'. apply int_reads_as in H, H'. congruence. Qed.

(** The interval branch, for a text with exactly one hyphen. *)
Lemma check_interval a b W :
  ~ WeekRange.has "-" a -> ~ WeekRange.has "-" b ->
  check_week_range (PyStr (a ++ String "-" b)) W =
    match Py.int a, Py.int b with
    | Ok A, Ok B => Ok ((A <=? W) && (W <=? B))
    | _, _ => Ok false
    end.
Proof.
  intros Ha Hb. now apply check_week_range_parts; apply contains_not_has.
Qed.

(** The comma branch. *)
Lemma check_list s W :
  ~ WeekRange.has "-" s -> WeekRange.has "," s ->
  check_week_range (PyStr s) W =
    match omap Py.int (Py.split "," s) with
    | Ok l => Ok (existsb (Z.eqb W) l)
    | Raise _ => Ok false
    end.
Proof.
  intros Hd Hc. apply contains_not_has in Hd. apply contains_has in Hc.
  assert (Hne : String.eqb s "" = false) by (destruct s; [discriminate|reflexivity]).
  unfold check_week_range. cbn [isna]. rewrite Hne, Hd, Hc.
  destruct (omap Py.int (Py.split "," s)); reflexivity.
Qed.

(** The last branch. *)
Lemma check_single s W :
  s <> EmptyString -> ~ WeekRange.has "-" s -> ~ WeekRange.has "," s ->
  check_week_range (PyStr s) W =
    match Py.int s with
    | Ok n => Ok (n =? W)
    | Raise _ => Ok false
    end.
Proof.
  intros Hne Hd Hc. apply contains_not_has in Hd, Hc.
  apply String.eqb_neq in Hne.
  unfold check_week_range. cbn [isna]. rewrite Hne, Hd, Hc.
  destruct (Py.int s); reflexivity.
Qed.

(** More than one hyphen: no week. *)
Lemma check_hyphens s W :
  (3 <= length (Py.split "-" s))%nat -> check_week_range (PyStr s) W = Ok false.
Proof.
  intros Hlen.
  destruct (join_split "-" s) as [Hj _].
  destruct (Py.split "-" s) as [|a [|b [|c rest]]] eqn:Hsp; simpl in Hlen; try lia.
  assert (Hh : Py.contains "-" s = true).
  { apply contains_has. rewrite <- Hj. apply join_two_has. }
  assert (Hne : String.eqb s "" = false) by (destruct s; [discriminate|reflexivity]).
  unfold check_week_range. cbn [isna]. rewrite Hne, Hh, Hsp.
  cbn [map Py.unpack2].
  destruct (Py.int a); [|reflexivity]. destruct (Py.int b); [|reflexivity].
  destruct (Py.int c); reflexivity.
Qed.

Lemma split_hyphen s :
  WeekRange.has "-" s ->
  (exists a b, s = (a ++ String "-" b)%string
               /\ ~ WeekRange.has "-" a /\ ~ WeekRange.has "-" b)
  \/ (3 <= length (Py.split "-" s))%nat.
Proof.
  intros Hh. destruct (join_split "-" s) as [Hj Hf].
  destruct (Py.split "-" s) as [|a [|b [|c rest]]] eqn:Hsp.
  - now apply split_nonempty in Hsp.
  - simpl in Hj. subst a. inversion Hf. tauto.
  - left. exists a, b. inversion Hf as [|? ? Ha Hf']. inversion Hf' as [|? ? Hb _].
    subst. auto.
  - right. simpl. lia.
Qed.

Lemma interval_unique a b a' b' :
  (a ++ String "-" b)%string = (a' ++ String "-" b')%string ->
  ~ WeekRange.has "-" a -> ~ WeekRange.has "-" b ->
  ~ WeekRange.has "-" a' -> ~ WeekRange.has "-" b' ->
  a' = a /\ b' = b.
Proof.
  intros He Ha Hb Ha' Hb'.
  assert (H : Py.split "-" (a ++ String "-" b) = [a; b]).
  { rewrite split_app, split_without by now apply contains_not_has. reflexivity. }
  assert (H' : Py.split "-" (a' ++ String "-" b') = [a'; b']).
  { rewrite split_app, split_without by now apply contains_not_has. reflexivity. }
  rewrite He, H' in H. now injection H.
Qed.

(** [check_week_range] answers true exactly on the expressions that hold
    the week, and false on every other one. *)
Lemma check_week_range_holds expr W :
  exists m, check_week_range expr W = Ok m /\ (m = true <-> WeekRange.holds expr W).
Proof.
  destruct expr as [| |s]; [exists true; now split|exists true; now split|].
  destruct (String.eqb_spec s "") as [->|Hne].
  { exists true. split; [reflexivity|]. split; [now left|reflexivity]. }
  cbn [WeekRange.holds].
  destruct (Py.contains "-" s) eqn:Hd.
  - apply contains_has in Hd.
    destruct (split_hyphen s Hd) as [(a & b & -> & Ha & Hb)|Hlen].
    + rewrite (check_interval a b W Ha Hb).
      destruct (Py.int a) as [A|ea] eqn:HA; [destruct (Py.int b) as [B|eb] eqn:HB|].
      * eexists. split; [reflexivity|].
        rewrite andb_true_iff, !Z.leb_le. split.
        -- intros HW. right. left. exists a, b, A, B.
           repeat split; try assumption; try (now apply int_reads_as); lia.
        -- intros [H|[(a' & b' & A' & B' & He & Ha' & Hb' & HA' & HB' & HW)|[H|H]]].
           ++ congruence.
           ++ destruct (interval_unique a b a' b' He Ha Hb Ha' Hb') as [-> ->].
              apply int_reads_as in HA', HB'. assert (A' = A) by congruence.
              assert (B' = B) by congruence. lia.
           ++ tauto.
           ++ tauto.
      * exists false. split; [reflexivity|]. split; [discriminate|].
        intros [H|[(a' & b' & A' & B' & He & Ha' & Hb' & HA' & HB' & HW)|[H|H]]];
          try congruence; try tauto.
        destruct (interval_unique a b a' b' He Ha Hb Ha' Hb') as [-> ->].
        apply int_reads_as in HB'. congruence.
      * exists false. split; [reflexivity|]. split; [discriminate|].
        intros [H|[(a' & b' & A' & B' & He & Ha' & Hb' & HA' & HB' & HW)|[H|H]]];
          try congruence; try tauto.
        destruct (interval_unique a b a' b' He Ha Hb Ha' Hb') as [-> ->].
        apply int_reads_as in HA'. congruence.
    + rewrite (check_hyphens s W Hlen).
      exists false. split; [reflexivity|]. split; [discriminate|].
      intros [H|[(a' & b' & A' & B' & -> & Ha' & Hb' & _)|[H|H]]];
        try congruence; try tauto.
      rewrite split_app, split_without in Hlen by now apply contains_not_has.
      simpl in Hlen. lia.
  - apply contains_not_has in Hd.
    destruct (Py.contains "," s) eqn:Hc.
    + apply contains_has in Hc. rewrite (check_list s W Hd Hc).
      destruct (join_split "," s) as [Hj Hf].
      destruct (omap Py.int (Py.split "," s)) as [l|e] eqn:Hl.
      * eexists. split; [reflexivity|]. rewrite existsb_In. split.
        -- intros HW. right. right. left. split; [exact Hd|]. split; [exact Hc|].
           exists (Py.split "," s), l. split; [now symmetry|].
           split; [exact Hf|]. split; [now apply omap_reads|exact HW].
        -- intros [H|[(a' & b' & A' & B' & -> & _)|[(_ & _ & parts & l' & Hs & Hp & Hr & HW)|H]]];
             try congruence; try tauto.
           ++ elim Hd. apply has_app. right. now left.
           ++ assert (Hparts : parts = Py.split "," s).
              { apply join_unique; try assumption.
                intros ->. simpl in Hs. congruence. }
              subst parts. apply omap_reads in Hr. congruence.
      * exists false. split; [reflexivity|]. split; [discriminate|].
        intros [H|[(a' & b' & A' & B' & -> & _)|[(_ & _ & parts & l' & Hs & Hp & Hr & HW)|H]]];
          try congruence; try tauto.
        -- elim Hd. apply has_app. right. now left.
        -- assert (Hparts : parts = Py.split "," s).
           { apply join_unique; try assumption.
             intros ->. simpl in Hs. congruence. }
           subst parts. apply omap_reads in Hr. congruence.
    + apply contains_not_has in Hc. rewrite (check_single s W Hne Hd Hc).
      destruct (Py.int s) as [n|e] eqn:Hn.
      * eexists. split; [reflexivity|]. rewrite Z.eqb_eq. split.
        -- intros ->. right. right. right. split; [exact Hd|]. split; [exact Hc|].
           now apply int_reads_as.
        -- intros [H|[(a' & b' & A' & B' & -> & _)|[H|(_ & _ & H)]]];
             try congruence; try tauto.
           ++ elim Hd. apply has_app. right. now left.
           ++ apply int_reads_as in H. congruence.
      * exists false. split; [reflexivity|]. split; [discriminate|].
        intros [H|[(a' & b' & A' & B' & -> & _)|[H|(_ & _ & H)]]];
          try congruence; try tauto.
        -- elim Hd. apply has_app. right. now left.
        -- apply int_reads_as in H. congruence.
Qed.

(** C5.  For an interval expression [A-B] of two week numbers written as
    decimal numerals: when [A <= B] the matcher answers true exactly for
    the weeks [A <= W <= B], and when [A > B] it answers false for every
    week.  When one of the two texts around a single [-] does not read as
    an integer the answer is false; and a further [-], such as a sign in
    front of either integer, adds a part to the split, so that the answer
    is false as well.  The last two parts say the same in the words of
    [Literal]: for two texts that read as the integers [A] and [B] the
    answer is whether [A <= W <= B], and false when one of them reads as
    no integer, as a numeral followed by other text. *)
Theorem interval_expression (W A B : Z) (a b c : string) :
  (0 <= A -> 0 <= B -> A <= B ->
     exists m, check_week_range (PyStr (Py.str A ++ String "-" (Py.str B))) W = Ok m
               /\ (m = true <-> A <= W <= B)) /\
  (0 <= A -> 0 <= B -> B < A ->
     check_week_range (PyStr (Py.str A ++ String "-" (Py.str B))) W = Ok false) /\
  (Py.contains "-" a = false -> Py.contains "-" b = false ->
     (exists e, Py.int a = Raise e) \/ (exists e, Py.int b = Raise e) ->
     check_week_range (PyStr (a ++ String "-" b)) W = Ok false) /\
  (Py.contains "-" a = false -> Py.contains "-" b = false ->
     check_week_range (PyStr (a ++ String "-" (b ++ String "-" c))) W = Ok false) /\
  (~ WeekRange.has "-" a -> ~ WeekRange.has "-" b ->
     Literal.reads_as a A -> Literal.reads_as b B ->
     check_week_range (PyStr (a ++ String "-" b)) W = Ok ((A <=? W) && (W <=? B))) /\
  (~ WeekRange.has "-" a -> ~ WeekRange.has "-" b ->
     Literal.unreadable a \/ Literal.unreadable b ->
     check_week_range (PyStr (a ++ String "-" b)) W = Ok false).
Proof.
  split; [|split; [|split; [|split; [|split]]]].
  - intros HA HB _. rewrite check_week_range_decimal by assumption.
    eexists; split; [reflexivity|].
    rewrite andb_true_iff, !Z.leb_le. reflexivity.
  - intros HA HB Hlt. rewrite check_week_range_decimal by assumption.
    f_equal. apply andb_false_iff.
    destruct (Z.le_gt_cases A W); [right | left]; apply Z.leb_gt; lia.
  - intros Ha Hb Hfail. rewrite check_week_range_parts by assumption.
    destruct Hfail as [[e ->] | [e ->]]; [reflexivity|].
    destruct (Py.int a); reflexivity.
  - intros Ha Hb. now apply check_week_range_three_parts.
  - intros Ha Hb HA HB. rewrite (check_interval a b W Ha Hb).
    apply int_reads_as in HA, HB. now rewrite HA, HB.
  - intros Ha Hb Hfail. rewrite (check_interval a b W Ha Hb).
    destruct Hfail as [H|H]; apply int_unreadable in H; destruct H as [e ->];
      [reflexivity|].
    destruct (Py.int a); reflexivity.
Qed.

Lemma interval_expression_witness :
  (exists m, check_week_range (PyStr "1-16") 8 = Ok m /\ (m = true <-> 1 <= 8 <= 16))
  /\ check_week_range (PyStr "10-2") 5 = Ok false
  /\ check_week_range (PyStr "x-3") 2 = Ok false
  /\ check_week_range (PyStr "1-2-3") 2 = Ok false
  /\ check_week_range (PyStr " 1 - 3 ") 2 = Ok true
  /\ check_week_range (PyStr "1-3x") 2 = Ok false
  /\ check_week_range (PyStr "1-3 4") 2 = Ok false.
Proof.
  split; [|split; [|split; [|split; [|split; [|split]]]]].
  - exact (proj1 (interval_expression 8 1 16 "" "" "")
             ltac:(lia) ltac:(lia) ltac:(lia)).
  - exact (proj1 (proj2 (interval_expression 5 10 2 "" "" ""))
             ltac:(lia) ltac:(lia) ltac:(lia)).
  - exact (proj1 (proj2 (proj2 (interval_expression 2 0 0 "x" "3" "")))
             eq_refl eq_refl (or_introl (ex_intro _ ValueError eq_refl))).
  - exact (proj1 (proj2 (proj2 (proj2 (interval_expression 2 0 0 "1" "2" "3"))))
             eq_refl eq_refl).
  - apply (proj1 (proj2 (proj2 (proj2 (proj2 (interval_expression 2 1 3 " 1 " " 3 " ""))))));
      try (apply contains_not_has; reflexivity);
      apply int_reads_as; reflexivity.
  - apply (proj2 (proj2 (proj2 (proj2 (proj2 (interval_expression 2 0 0 "1" "3x" ""))))));
      try (apply contains_not_has; reflexivity).
    right. apply int_unreadable. exists ValueError. reflexivity.
  - apply (proj2 (proj2 (proj2 (proj2 (proj2 (interval_expression 2 0 0 "1" "3 4" ""))))));
      try (apply contains_not_has; reflexivity).
    right. apply int_unreadable. exists ValueError. reflexivity.
Defined.

(** A sign in front of the first integer is a hyphen like any other: the
    text ["-3-5"] has three parts and holds no week. *)
Lemma signed_interval_has_three_parts :
  Py.str (-3) ++ String "-" (Py.str 5) = "-3-5"
  /\ Py.split "-" "-3-5" = [""; "3"; "5"]
  /\ check_week_range (PyStr "-3-5") 0 = Ok false.
Proof. split; [reflexivity|]. split; reflexivity. Qed.

(** C6.  A missing or empty expression matches every week.  A comma list
    without hyphen, that is two or more texts with commas between them,
    matches exactly the weeks its texts read as when each of them reads as
    an integer, and no week when one of them reads as no integer (an empty
    part, a numeral followed by other text, ...).  Any other text without
    hyphen and comma matches exactly the week it reads as, and no week when
    it reads as no integer.  Reading is that of [Literal]: blanks, an
    optional sign, digits with single underscores, blanks. *)
Theorem list_and_single_expressions (W : Z) :
  check_week_range PyNone W = Ok true /\
  check_week_range PyNaN W = Ok true /\
  check_week_range (PyStr "") W = Ok true /\
  (forall parts,
     (2 <= length parts)%nat ->
     List.Forall (fun p => ~ WeekRange.has "-" p /\ ~ WeekRange.has "," p) parts ->
     (forall l, Forall2 Literal.reads_as parts l ->
        exists m, check_week_range (PyStr (WeekRange.join "," parts)) W = Ok m
                  /\ (m = true <-> In W l)) /\
     (List.Exists Literal.unreadable parts ->
        check_week_range (PyStr (WeekRange.join "," parts)) W = Ok false)) /\
  (forall s,
     ~ WeekRange.has "-" s -> ~ WeekRange.has "," s ->
     (forall n, Literal.reads_as s n ->
        exists m, check_week_range (PyStr s) W = Ok m /\ (m = true <-> n = W)) /\
     (s <> EmptyString -> Literal.unreadable s ->
        check_week_range (PyStr s) W = Ok false)).
Proof.
  split; [reflexivity|]. split; [reflexivity|]. split; [reflexivity|].
  split.
  - intros parts Hlen Hparts.
    assert (Hd : ~ WeekRange.has "-" (WeekRange.join "," parts)).
    { clear Hlen. induction parts as [|p rest IH]; [intros []|].
      inversion Hparts as [|? ? [Hp _] Hrest]. subst.
      destruct rest as [|q rest]; [exact Hp|].
      change (WeekRange.join "," (p :: q :: rest))
        with (p ++ String "," (WeekRange.join "," (q :: rest)))%string.
      intros H. apply has_app in H. destruct H as [H|H]; [tauto|].
      apply has_cons in H. destruct H as [H|H]; [discriminate H|].
      now apply IH. }
    assert (Hc : WeekRange.has "," (WeekRange.join "," parts)).
    { destruct parts as [|p [|q rest]]; simpl in Hlen; try lia. apply join_two_has. }
    assert (Hsplit : Py.split "," (WeekRange.join "," parts) = parts).
    { apply split_join.
      - intros ->. simpl in Hlen. lia.
      - eapply List.Forall_impl; [|exact Hparts]. now intros p [_ H]. }
    rewrite (check_list _ W Hd Hc), Hsplit. split.
    + intros l Hl. apply omap_reads in Hl. rewrite Hl.
      eexists. split; [reflexivity|]. apply existsb_In.
    + intros Hbad. destruct (omap Py.int parts) as [l|e] eqn:Hl; [|reflexivity].
      apply omap_reads in Hl. exfalso. clear -Hbad Hl.
      induction Hl as [|p n parts l Hp _ IH]; inversion Hbad; subst; [|tauto].
      match goal with H : Literal.unreadable p |- _ => exact (H n Hp) end.
  - intros s Hd Hc. split.
    + intros n Hn.
      assert (Hne : s <> EmptyString).
      { intros ->. apply int_reads_as in Hn. discriminate Hn. }
      rewrite (check_single s W Hne Hd Hc).
      apply int_reads_as in Hn. rewrite Hn.
      eexists. split; [reflexivity|]. apply Z.eqb_eq.
    + intros Hne Hbad. rewrite (check_single s W Hne Hd Hc).
      apply int_unreadable in Hbad. destruct Hbad as [e ->]. reflexivity.
Qed.

Lemma list_and_single_expressions_witness :
  (exists m, check_week_range (PyStr "3,5,7") 5 = Ok m /\ (m = true <-> In 5 [3; 5; 7]))
  /\ check_week_range (PyStr "3,x") 3 = Ok false
  /\ check_week_range (PyStr "3,5x") 3 = Ok false
  /\ check_week_range (PyStr "3,") 3 = Ok false
  /\ (exists m, check_week_range (PyStr " 8 ") 9 = Ok m /\ (m = true <-> 8 = 9))
  /\ check_week_range (PyStr "8x") 8 = Ok false
  /\ check_week_range (PyStr "8 9") 8 = Ok false.
Proof.
  destruct (list_and_single_expressions 5) as (_ & _ & _ & Hlist5 & _).
  destruct (list_and_single_expressions 3) as (_ & _ & _ & Hlist3 & _).
  destruct (list_and_single_expressions 9) as (_ & _ & _ & _ & Hone9).
  destruct (list_and_single_expressions 8) as (_ & _ & _ & _ & Hone8).
  assert (Hclean : forall p, Py.contains "-" p = false -> Py.contains "," p = false ->
            ~ WeekRange.has "-" p /\ ~ WeekRange.has "," p)
    by (intros p H1 H2; split; now apply contains_not_has).
  assert (Hread : forall p n, Py.int p = Ok n -> Literal.reads_as p n)
    by (intros p n H; now apply int_reads_as).
  assert (Hbad : forall p, Py.int p = Raise ValueError -> Literal.unreadable p)
    by (intros p H; apply int_unreadable; now exists ValueError).
  split; [|split; [|split; [|split; [|split; [|split]]]]].
  - apply (proj1 (Hlist5 ["3"; "5"; "7"] ltac:(simpl; lia)
                    ltac:(repeat constructor; apply Hclean; reflexivity))).
    repeat constructor; apply Hread; reflexivity.
  - apply (proj2 (Hlist3 ["3"; "x"] ltac:(simpl; lia)
                    ltac:(repeat constructor; apply Hclean; reflexivity))).
    apply Exists_cons_tl, Exists_cons_hd, Hbad. reflexivity.
  - apply (proj2 (Hlist3 ["3"; "5x"] ltac:(simpl; lia)
                    ltac:(repeat constructor; apply Hclean; reflexivity))).
    apply Exists_cons_tl, Exists_cons_hd, Hbad. reflexivity.
  - apply (proj2 (Hlist3 ["3"; ""] ltac:(simpl; lia)
                    ltac:(repeat constructor; apply Hclean; reflexivity))).
    apply Exists_cons_tl, Exists_cons_hd, Hbad. reflexivity.
  - apply (proj1 (Hone9 " 8 " (proj1 (Hclean " 8 " eq_refl eq_refl))
                    (proj2 (Hclean " 8 " eq_refl eq_refl)))).
    apply Hread. reflexivity.
  - apply (proj2 (Hone8 "8x" (proj1 (Hclean "8x" eq_refl eq_refl))
                    (proj2 (Hclean "8x" eq_refl eq_refl)))).
    + discriminate.
    + apply Hbad. reflexivity.
  - apply (proj2 (Hone8 "8 9" (proj1 (Hclean "8 9" eq_refl eq_refl))
                    (proj2 (Hclean "8 9" eq_refl eq_refl)))).
    + discriminate.
    + apply Hbad. reflexivity.
Defined.

(** C10.  The matcher never raises: for [None], NaN and every string, and
    for every week, it returns a boolean, true exactly when the expression
    holds the week in the sense of [WeekRange.holds].  So each failure to
    read an integer ends in the answer false: in the interval branch when
    the text is not two readable integers around one hyphen, in the list
    branch when one of the texts between the commas is unreadable, and in
    the last branch when the whole text is. *)
Theorem check_week_range_total (week_str : pyval) (current_week : Z) :
  exists m : bool,
    check_week_range week_str current_week = Ok m
    /\ (m = true <-> WeekRange.holds week_str current_week)
    /\ (forall s, week_str = PyStr s -> WeekRange.has "-" s ->
          (forall a b, s = (a ++ String "-" b)%string ->
             ~ WeekRange.has "-" a -> ~ WeekRange.has "-" b ->
             Literal.unreadable a \/ Literal.unreadable b) ->
          m = false)
    /\ (forall parts, week_str = PyStr (WeekRange.join "," parts) ->
          (2 <= length parts)%nat ->
          List.Forall (fun p => ~ WeekRange.has "-" p /\ ~ WeekRange.has "," p) parts ->
          List.Exists Literal.unreadable parts ->
          m = false)
    /\ (forall s, week_str = PyStr s -> s <> EmptyString ->
          ~ WeekRange.has "-" s -> ~ WeekRange.has "," s ->
          Literal.unreadable s ->
          m = false).
Proof.
  destruct (check_week_range_holds week_str current_week) as (m & Hm & Hiff).
  exists m. split; [exact Hm|]. split; [exact Hiff|].
  assert (Hfalse : ~ WeekRange.holds week_str current_week -> m = false).
  { intros H. destruct m; [|reflexivity]. elim H. now apply Hiff. }
  split; [|split].
  - intros s -> Hd Hbad. apply Hfalse. cbn [WeekRange.holds].
    intros [He|[(a & b & A & B & He & Ha & Hb & HA & HB & _)|[[H _]|[H _]]]].
    + rewrite He in Hd. exact Hd.
    + destruct (Hbad a b He Ha Hb) as [H|H]; [exact (H A HA)|exact (H B HB)].
    + exact (H Hd).
    + exact (H Hd).
  - intros parts -> Hlen Hparts Hbad. apply Hfalse. cbn [WeekRange.holds].
    assert (Hcommas : List.Forall (fun p => ~ WeekRange.has "," p) parts)
      by (eapply List.Forall_impl; [|exact Hparts]; now intros p [_ H]).
    assert (Hc : WeekRange.has "," (WeekRange.join "," parts)).
    { destruct parts as [|p [|q rest]]; simpl in Hlen; try lia. apply join_two_has. }
    assert (Hne : parts <> []) by (intros ->; simpl in Hlen; lia).
    intros [He|[(a & b & A & B & He & _)|[(Hd & _ & parts' & l & He & Hp' & Hr & _)|(_ & H & _)]]].
    + rewrite He in Hc. exact Hc.
    + assert (Hd : WeekRange.has "-" (WeekRange.join "," parts))
        by (rewrite He; apply has_app; right; now left).
      clear -Hd Hparts. induction parts as [|p rest IH]; [exact Hd|].
      inversion Hparts as [|? ? [Hp _] Hrest]. subst.
      destruct rest as [|q rest]; [now apply Hp|].
      change (WeekRange.join "," (p :: q :: rest))
        with (p ++ String "," (WeekRange.join "," (q :: rest)))%string in Hd.
      apply has_app in Hd. destruct Hd as [H|H]; [tauto|].
      apply has_cons in H. destruct H as [H|H]; [discriminate H|]. now apply IH.
    + assert (Hne' : parts' <> []).
      { intros ->. simpl in He. rewrite He in Hc. exact Hc. }
      rewrite (join_unique "," _ parts' Hne' Hp' He) in Hr.
      rewrite (split_join "," parts Hne Hcommas) in Hr.
      clear -Hbad Hr.
      induction Hr as [|p n parts l Hp _ IH]; inversion Hbad; subst; [|tauto].
      match goal with H : Literal.unreadable p |- _ => exact (H n Hp) end.
    + tauto.
  - intros s -> Hne Hd Hc Hbad. apply Hfalse. cbn [WeekRange.holds].
    intros [H|[(a & b & A & B & -> & _)|[(_ & H & _)|(_ & _ & H)]]].
    + exact (Hne H).
    + elim Hd. apply has_app. right. now left.
    + exact (Hc H).
    + exact (Hbad _ H).
Qed.

Lemma check_week_range_total_witness :
  check_week_range (PyStr "1-3x") 2 = Ok false
  /\ check_week_range (PyStr "3,5 x") 3 = Ok false
  /\ check_week_range (PyStr "3_") 3 = Ok false.
Proof.
  assert (Hnot : forall c p, Py.contains c p = false -> ~ WeekRange.has c p)
    by (intros c p H; now apply contains_not_has).
  assert (Hbad : forall p, Py.int p = Raise ValueError -> Literal.unreadable p)
    by (intros p H; apply int_unreadable; now exists ValueError).
  split; [|split].
  - destruct (check_week_range_total (PyStr "1-3x") 2) as (m & Hm & _ & Hint & _).
    rewrite Hm. f_equal. apply (Hint "1-3x" eq_refl).
    + apply contains_has. reflexivity.
    + intros a b He Ha Hb.
      destruct (interval_unique "1" "3x" a b He) as [-> ->];
        try (apply Hnot; reflexivity); try assumption.
      right. apply Hbad. reflexivity.
  - destruct (check_week_range_total (PyStr "3,5 x") 3) as (m & Hm & _ & _ & Hlist & _).
    rewrite Hm. f_equal. apply (Hlist ["3"; "5 x"] eq_refl).
    + simpl. lia.
    + repeat constructor; apply Hnot; reflexivity.
    + apply Exists_cons_tl, Exists_cons_hd, Hbad. reflexivity.
  - destruct (check_week_range_total (PyStr "3_") 3) as (m & Hm & _ & _ & _ & Hone).
    rewrite Hm. f_equal. apply (Hone "3_" eq_refl).
    + discriminate.
    + apply Hnot. reflexivity.
    + apply Hnot. reflexivity.
    + apply Hbad. reflexivity.
Defined.

(** ** The week number *)

Lemma get_week_num_run w start :
  Datetime.strptime_ymd (semester_start (sess w)) = Ok start ->
  get_week_num w =
    (Ok (if clock w (ticks w) <? start then 0
         else Datetime.days_between (clock w (ticks w)) start / 7 + 1),
     mkWorld (heap w) (sess w) (clock w) (S (ticks w))).
Proof.
  intros Hs. unfold get_week_num, Mtry, bind, gets, lift, now. simpl.
  rewrite Hs. simpl.
  destruct (clock w (ticks w) <? start); reflexivity.
Qed.

Lemma get_week_num_fallback w e :
  Datetime.strptime_ymd (semester_start (sess w)) = Raise e ->
  get_week_num w = (Ok 1, w).
Proof.
  intros Hs. unfold get_week_num, Mtry, bind, gets, lift, now. simpl.
  rewrite Hs. reflexivity.
Qed.

(** [get_week_num] always answers, and leaves heap and session alone. *)
Lemma get_week_num_total w :
  exists week n, get_week_num w = (Ok week, mkWorld (heap w) (sess w) (clock w) n).
Proof.
  destruct (Datetime.strptime_ymd (semester_start (sess w))) as [start|e] eqn:Hs.
  - rewrite (get_week_num_run w start Hs). eauto.
  - rewrite (get_week_num_fallback w e Hs). destruct w. simpl. eauto.
Qed.

(** Seven-day blocks: in the block number [k] after [start] the whole days
    elapsed, divided by 7, are [k]. *)
Lemma week_block start today k :
  0 <= k ->
  start + 7 * k * 86400000000 <= today < start + 7 * (k + 1) * 86400000000 ->
  (today - start) / 86400000000 / 7 = k.
Proof.
  intros Hk H. rewrite Z.div_div by lia.
  symmetry. apply (Z.div_unique_pos _ _ k (today - start - k * (86400000000 * 7))); lia.
Qed.

(** C7.  With a semester start that reads as a date, the week number is 0
    for every instant before that day's midnight, and otherwise the whole
    days elapsed since then (a day is 86400 seconds, the clock counts
    microseconds), divided by 7 and rounded down, plus 1.  So it is [k + 1]
    throughout the block of seven days number [k] after the start: 1 during
    the first seven days, 2 during the next seven, and so on. *)
Theorem week_number (w : world) (start : Z) :
  Datetime.strptime_ymd (semester_start (sess w)) = Ok start ->
  let today := clock w (ticks w) in
  let day := 86400000000 in
  (today < start -> fst (get_week_num w) = Ok 0) /\
  (start <= today ->
     fst (get_week_num w) = Ok ((today - start) / day / 7 + 1)) /\
  (forall k, 0 <= k ->
     start + 7 * k * day <= today < start + 7 * (k + 1) * day ->
     fst (get_week_num w) = Ok (k + 1)) /\
  (start <= today < start + 7 * day ->
     fst (get_week_num w) = Ok 1).
Proof.
  intros Hs today day. rewrite (get_week_num_run w start Hs).
  cbn [fst]. fold today. unfold Datetime.days_between, Datetime.us_per_day. subst day.
  split; [|split; [|split]].
  - intros H. apply Z.ltb_lt in H. now rewrite H.
  - intros H. apply Z.ltb_ge in H. now rewrite H.
  - intros k Hk H. replace (today <? start) with false by (symmetry; apply Z.ltb_ge; lia).
    now rewrite (week_block start today k Hk H).
  - intros H. replace (today <? start) with false by (symmetry; apply Z.ltb_ge; lia).
    now rewrite (week_block start today 0 ltac:(lia) ltac:(lia)).
Qed.

Lemma week_number_witness :
  fst (get_week_num (sample_world ∅ [] None 0)) = Ok 0
  /\ fst (get_week_num (sample_world ∅ [] None monday_0855)) = Ok 1
  /\ fst (get_week_num (sample_world ∅ [] None (monday_0855 + 15 * 86400000000))) = Ok 3
  /\ fst (get_week_num (sample_world ∅ [] None (monday_0855 + 100 * 86400000000))) = Ok 15.
Proof.
  split; [|split; [|split]].
  - apply (proj1 (week_number (sample_world ∅ [] None 0)
                    (Datetime.midnight 739495) eq_refl)).
    reflexivity.
  - apply (proj2 (proj2 (proj2 (week_number (sample_world ∅ [] None monday_0855)
                                  (Datetime.midnight 739495) eq_refl)))).
    split; [discriminate | reflexivity].
  - apply (proj1 (proj2 (proj2
             (week_number (sample_world ∅ [] None (monday_0855 + 15 * 86400000000))
                (Datetime.midnight 739495) eq_refl))) 2 ltac:(lia)).
    split; [discriminate | reflexivity].
  - apply (proj1 (proj2
             (week_number (sample_world ∅ [] None (monday_0855 + 100 * 86400000000))
                (Datetime.midnight 739495) eq_refl))).
    discriminate.
Defined.

(** ** Deleting an adjustment *)

Lemma py_pop_in_range {A} (l : list A) (i : nat) x :
  nth_error l i = Some x ->
  py_pop l (Z.of_nat i) = Ok (x, (firstn i l ++ skipn (S i) l)%list).
Proof.
  intros Hx. unfold py_pop.
  assert (Hi : (i < length l)%nat) by (apply nth_error_Some; congruence).
  destruct (Z.of_nat i <? 0) eqn:E; [apply Z.ltb_lt in E; lia|].
  replace ((0 <=? Z.of_nat i) && (Z.of_nat i <? Z.of_nat (length l))) with true.
  - rewrite Nat2Z.id, Hx. reflexivity.
  - symmetry. apply andb_true_iff. split; [apply Z.leb_le | apply Z.ltb_lt]; lia.
Qed.




(** The loop over the buttons when the button of position [k] is the first
    to report a click: the entry at [k] is popped. *)
Lemma delete_buttons_click pressed items : forall (i : nat) w (k : nat),
  (exists before, adjust_courses (sess w) = (before ++ items)%list /\ length before = i) ->
  (i <= k < i + length items)%nat ->
  pressed (Z.of_nat k) = true ->
  (forall j, (i <= j < k)%nat -> pressed (Z.of_nat j) = false) ->
  delete_buttons pressed (Z.of_nat i) items w =
    (Ok true,
     mkWorld (heap w)
       (mkSession (course_data (sess w)) (remind_minutes (sess w))
          (firstn k (adjust_courses (sess w)) ++ skipn (S k) (adjust_courses (sess w)))%list
          (current_remind (sess w)) (semester_start (sess w)))
       (clock w) (ticks w)).
Proof.
  induction items as [|x rest IH]; intros i w k (before & Hl & Hlen) Hk Hpressed Hfirst.
  - simpl in Hk. lia.
  - cbn [delete_buttons]. destruct (Nat.eq_dec k i) as [->|Hne].
    + rewrite Hpressed.
      assert (Hx : nth_error (adjust_courses (sess w)) i = Some x).
      { rewrite Hl, nth_error_app2 by lia.
        replace (i - length before)%nat with O by lia. reflexivity. }
      unfold bind, gets, lift, set_adjust_courses, set_sess, ret.
      rewrite (py_pop_in_range _ _ _ Hx). reflexivity.
    + rewrite (Hfirst i) by lia.
      replace (Z.of_nat i + 1) with (Z.of_nat (S i)) by lia.
      apply IH.
      * exists (before ++ [x])%list. split.
        -- rewrite Hl, <- app_assoc. reflexivity.
        -- rewrite length_app. simpl. lia.
      * simpl in Hk. lia.
      * exact Hpressed.
      * intros j Hj. apply Hfirst. lia.
Qed.


Lemma adjust_list_block_click pressed w (k : nat) :
  (k < length (adjust_courses (sess w)))%nat ->
  pressed (Z.of_nat k) = true ->
  (forall j, (j < k)%nat -> pressed (Z.of_nat j) = false) ->
  adjust_list_block pressed w =
    (Ok true,
     mkWorld (heap w)
       (mkSession (course_data (sess w)) (remind_minutes (sess w))
          (firstn k (adjust_courses (sess w)) ++ skipn (S k) (adjust_courses (sess w)))%list
          (current_remind (sess w)) (semester_start (sess w)))
       (clock w) (ticks w)).
Proof.
  intros Hk Hpressed Hfirst. unfold adjust_list_block, bind, gets.
  destruct (adjust_courses (sess w)) as [|x rest] eqn:Hl; [simpl in Hk; lia|].
  rewrite <- Hl in *.
  apply (delete_buttons_click pressed (adjust_courses (sess w)) O w k).
  - exists []. auto.
  - lia.
  - exact Hpressed.
  - intros j Hj. apply Hfirst. lia.
Qed.




(** ** The upload *)

Lemma required_cols_present_dec (df : sheet) :
  forallb (fun col => existsb (String.eqb col) (columns df)) required_cols = true
  <-> (forall col, In col required_cols -> In col (columns df)).
Proof.
  rewrite forallb_forall. split; intros H col Hin.
  - apply H in Hin. apply existsb_exists in Hin as (c & Hc & E).
    apply String.eqb_eq in E. now subst.
  - apply existsb_exists. exists col. split; [now apply H | apply String.eqb_refl].
Qed.

(** The filter expression of the import raises for every weekday column:
    [&] binds tighter than the comparisons, so the line is a chained
    comparison, and the chain asks for the truth value of a Series. *)
Lemma weekday_filter_raises (day : list Z) :
  (let! low := py_and (PInt 1) (PIntSeries day) in
   py_ge_le (PIntSeries day) low (PInt 7)) = Raise ValueError.
Proof.
  simpl. unfold py_ge_le. simpl.
  rewrite length_map, Nat.eqb_refl. reflexivity.
Qed.

(** C3, on the code.  For every uploaded table that has the seven required
    columns, whatever its rows and whatever its weekday cells, the import
    ends in the failure notice and the session keeps the schedule it had:
    nothing is imported. *)
Theorem upload_with_all_columns_fails
    (numeric_text : string -> option Z) (df : sheet) (w : world) :
  (forall col, In col required_cols -> In col (columns df)) ->
  upload_block numeric_text (Some (Ok df)) w = (Ok (Some ImportFailed), w).
Proof.
  intros Hcols. apply required_cols_present_dec in Hcols.
  unfold upload_block, Mtry, bind, lift. rewrite Hcols.
  rewrite weekday_filter_raises. reflexivity.
Qed.


Lemma upload_with_all_columns_fails_witness :
  upload_block (fun _ => None) (Some (Ok sample_sheet)) (sample_world ∅ [] None 0)
  = (Ok (Some ImportFailed), sample_world ∅ [] None 0).
Proof.
  apply (upload_with_all_columns_fails (fun _ => None) sample_sheet).
  intros col Hin. exact Hin.
Defined.

(** ** The sort *)

Section ArgsortFacts.

Variable v : list Z.

Local Abbreviation K := (Npy.key v).
Local Abbreviation key_le := (Invariant.key_le v).
Local Abbreviation key_index_lt := (Invariant.key_index_lt v).



Lemma key_index_lt_le x y : key_index_lt x y -> key_le x y.
Proof. unfold Invariant.key_index_lt, Invariant.key_le. lia. Qed.

(** *** Cells *)

Lemma at_lookup (a : list nat) i x : a !! i = Some x -> Npy.at_ a i = x.
Proof. intros H. unfold Npy.at_. now apply nth_lookup_Some. Qed.

Lemma lookup_at (a : list nat) i : (i < length a)%nat -> a !! i = Some (Npy.at_ a i).
Proof.
  intros H. destruct (nth_lookup_or_length a i O) as [E|E]; [exact E | lia].
Qed.

Lemma at_In (a : list nat) i : (i < length a)%nat -> In (Npy.at_ a i) a.
Proof. intros H. apply nth_In. exact H. Qed.

Lemma swap_length a i j : length (Npy.swap a i j) = length a.
Proof. unfold Npy.swap. now rewrite !length_insert. Qed.

Lemma swap_perm a i j :
  (i < length a)%nat -> (j < length a)%nat -> Permutation (Npy.swap a i j) a.
Proof.
  intros Hi Hj. unfold Npy.swap.
  apply Permutation_insert_swap; now apply lookup_at.
Qed.

Lemma swap_at a i j k :
  (i < length a)%nat -> (j < length a)%nat ->
  Npy.at_ (Npy.swap a i j) k =
    if Nat.eq_dec k j then Npy.at_ a i
    else if Nat.eq_dec k i then Npy.at_ a j else Npy.at_ a k.
Proof.
  intros Hi Hj. unfold Npy.swap.
  destruct (Nat.eq_dec k j) as [->|Hkj].
  - apply at_lookup. apply list_lookup_insert_eq. now rewrite length_insert.
  - destruct (Nat.eq_dec k i) as [->|Hki].
    + apply at_lookup. rewrite list_lookup_insert_ne by congruence.
      now apply list_lookup_insert_eq.
    + unfold Npy.at_. rewrite !nth_lookup.
      rewrite !list_lookup_insert_ne by congruence. reflexivity.
Qed.

(** A list whose cells are in order is sorted. *)
Lemma sorted_by_cells (R : nat -> nat -> Prop) (a : list nat) :
  (forall p q, (p < q < length a)%nat -> R (Npy.at_ a p) (Npy.at_ a q)) ->
  StronglySorted R a.
Proof.
  induction a as [|x a IH]; intros H; [constructor|].
  constructor.
  - apply IH. intros p q Hpq. apply (H (S p) (S q)). simpl. lia.
  - apply List.Forall_forall. intros y Hy.
    apply In_nth with (d := O) in Hy as (q & Hq & <-).
    apply (H O (S q)). simpl. lia.
Qed.

(** *** Insertion sort *)

Lemma shift_in_perm x acc : Permutation (Npy.shift_in v x acc) (x :: acc).
Proof.
  induction acc as [|k rest IH]; simpl; [reflexivity|].
  destruct (K x <? K k); [|reflexivity].
  rewrite IH. apply perm_swap.
Qed.

Lemma insertion_fold_perm seg : forall acc,
  Permutation (fold_left (fun acc vi => Npy.shift_in v vi acc) seg acc) (rev seg ++ acc).
Proof.
  induction seg as [|x seg IH]; intros acc; simpl; [reflexivity|].
  rewrite IH, shift_in_perm. rewrite <- app_assoc. simpl.
  apply Permutation_app_head. reflexivity.
Qed.

Lemma insertion_sort_perm seg : Permutation (Npy.insertion_sort v seg) seg.
Proof.
  unfold Npy.insertion_sort. rewrite <- Permutation_rev.
  rewrite insertion_fold_perm, app_nil_r. symmetry. apply Permutation_rev.
Qed.

(** The part in order is held last cell first, so it descends. *)
Lemma shift_in_sorted x acc :
  StronglySorted (fun a b => key_le b a) acc ->
  StronglySorted (fun a b => key_le b a) (Npy.shift_in v x acc).
Proof.
  induction 1 as [|k rest Hs IH Hk]; simpl; [repeat constructor|].
  destruct (K x <? K k) eqn:E.
  - apply Z.ltb_lt in E. constructor; [exact IH|].
    rewrite shift_in_perm. constructor; [unfold Invariant.key_le; lia | exact Hk].
  - apply Z.ltb_ge in E. constructor; [now constructor|].
    constructor; [exact E|].
    eapply List.Forall_impl; [|exact Hk]. unfold Invariant.key_le. simpl. intros; lia.
Qed.

Lemma StronglySorted_rev (R : nat -> nat -> Prop) l :
  StronglySorted (fun a b => R b a) l -> StronglySorted R (rev l).
Proof.
  induction 1 as [|x l Hs IH Hx]; simpl; [constructor|].
  apply StronglySorted_app_2; [| exact IH | repeat constructor].
  intros x1 x2 H1 H2. apply list_elem_of_In in H1, H2.
  destruct H2 as [<-|[]]. rewrite List.Forall_forall in Hx.
  apply Hx. now apply in_rev.
Qed.

Lemma insertion_fold_sorted seg : forall acc,
  StronglySorted (fun a b => key_le b a) acc ->
  StronglySorted (fun a b => key_le b a)
    (fold_left (fun acc vi => Npy.shift_in v vi acc) seg acc).
Proof.
  induction seg as [|x seg IH]; intros acc H; simpl; [exact H|].
  apply IH. now apply shift_in_sorted.
Qed.

Lemma insertion_sort_sorted seg : StronglySorted key_le (Npy.insertion_sort v seg).
Proof.
  unfold Npy.insertion_sort. apply StronglySorted_rev.
  apply insertion_fold_sorted. constructor.
Qed.

(** Stability: an item is never moved past one with the same key. *)
Lemma shift_in_stable x acc :
  Forall (fun y => (y < x)%nat) acc ->
  StronglySorted (fun a b => key_index_lt b a) acc ->
  StronglySorted (fun a b => key_index_lt b a) (Npy.shift_in v x acc).
Proof.
  intros Hlt Hs. induction Hs as [|k rest Hs IH Hk]; simpl; [repeat constructor|].
  inversion Hlt as [|? ? Hkx Hrest]; subst.
  destruct (K x <? K k) eqn:E.
  - apply Z.ltb_lt in E. constructor; [now apply IH|].
    rewrite shift_in_perm. constructor; [left; exact E | exact Hk].
  - apply Z.ltb_ge in E. constructor; [now constructor|].
    assert (Hkx' : key_index_lt k x) by (unfold Invariant.key_index_lt; lia).
    constructor; [exact Hkx'|].
    eapply List.Forall_impl; [|exact Hk]. unfold Invariant.key_index_lt in *. simpl. intros; lia.
Qed.

Lemma insertion_fold_stable seg : forall acc,
  StronglySorted lt seg ->
  Forall (fun y => Forall (fun x => (y < x)%nat) seg) acc ->
  StronglySorted (fun a b => key_index_lt b a) acc ->
  StronglySorted (fun a b => key_index_lt b a)
    (fold_left (fun acc vi => Npy.shift_in v vi acc) seg acc).
Proof.
  induction seg as [|x seg IH]; intros acc Hseg Hacc H; simpl; [exact H|].
  inversion Hseg as [|? ? Hseg' Hx]; subst.
  apply IH; [exact Hseg' | | ].
  - rewrite shift_in_perm. constructor; [exact Hx|].
    eapply List.Forall_impl; [|exact Hacc]. simpl. intros y Hy. now inversion Hy.
  - apply shift_in_stable; [|exact H].
    eapply List.Forall_impl; [|exact Hacc]. simpl. intros y Hy. now inversion Hy.
Qed.

Lemma insertion_sort_stable seg :
  StronglySorted lt seg -> StronglySorted key_index_lt (Npy.insertion_sort v seg).
Proof.
  intros H. unfold Npy.insertion_sort. apply StronglySorted_rev.
  apply insertion_fold_stable; [exact H | constructor | constructor].
Qed.

End ArgsortFacts.

Section PartitionFacts.

Variable v : list Z.
Local Abbreviation K := (Npy.key v).
Local Abbreviation key_le := (Invariant.key_le v).
Local Abbreviation exchange_inv := (Invariant.exchange_inv v).

(** *** Partition *)

Lemma scan_up_spec vp a pj : forall fuel pi,
  (pi < pj)%nat -> (pj - pi <= S fuel)%nat ->
  let r := Npy.scan_up v fuel a vp pi pj in
  (pi < r <= pj)%nat
  /\ (forall k, (pi < k < r)%nat -> K (Npy.at_ a k) < vp)
  /\ ((r < pj)%nat -> vp <= K (Npy.at_ a r)).
Proof.
  induction fuel as [|f IH]; intros pi Hlt Hfuel; simpl.
  - split; [lia|]. split; [intros; lia | intros; lia].
  - destruct (K (Npy.at_ a (S pi)) <? vp) eqn:Ek; simpl.
    + destruct (S pi <? pj)%nat eqn:Ep.
      * apply Nat.ltb_lt in Ep. apply Z.ltb_lt in Ek.
        destruct (IH (S pi) Ep ltac:(lia)) as (H1 & H2 & H3).
        split; [lia|]. split; [|exact H3].
        intros k Hk. destruct (Nat.eq_dec k (S pi)) as [->|Hne]; [exact Ek|].
        apply H2. lia.
      * apply Nat.ltb_ge in Ep. split; [lia|]. split; intros; lia.
    + apply Z.ltb_ge in Ek. split; [lia|]. split; [intros; lia | intros; exact Ek].
Qed.

Lemma scan_down_spec vp a pi : forall fuel pj,
  (pi <= pj)%nat -> (1 <= pj)%nat -> (pj - pi <= S fuel)%nat ->
  let r := Npy.scan_down v fuel a vp pi pj in
  (Nat.pred pi <= r < pj)%nat
  /\ (forall k, (r < k < pj)%nat -> vp < K (Npy.at_ a k))
  /\ ((pi < r)%nat -> K (Npy.at_ a r) <= vp).
Proof.
  induction fuel as [|f IH]; intros pj Hle Hpos Hfuel; simpl.
  - split; [lia|]. split; [intros; lia | intros; lia].
  - destruct (vp <? K (Npy.at_ a (Nat.pred pj))) eqn:Ek; simpl.
    + destruct (pi <? Nat.pred pj)%nat eqn:Ep.
      * apply Nat.ltb_lt in Ep. apply Z.ltb_lt in Ek.
        destruct (IH (Nat.pred pj) ltac:(lia) ltac:(lia) ltac:(lia)) as (H1 & H2 & H3).
        split; [lia|]. split; [|exact H3].
        intros k Hk. destruct (Nat.eq_dec k (Nat.pred pj)) as [->|Hne]; [exact Ek|].
        apply H2. lia.
      * apply Nat.ltb_ge in Ep. split; [lia|]. split; intros; lia.
    + apply Z.ltb_ge in Ek. split; [lia|]. split; [intros; lia | intros; exact Ek].
Qed.


Lemma exchange_spec a0 vp : forall fuel a pi pj,
  exchange_inv a0 vp a pi pj -> (pj - pi <= S fuel)%nat ->
  let '(a', r) := Npy.exchange v fuel a vp pi pj in
  length a' = length a0
  /\ Permutation a' a0
  /\ (0 < r)%nat /\ (S r < length a')%nat
  /\ K (Npy.at_ a' (length a' - 2)) = vp
  /\ (forall k, (k < r)%nat -> K (Npy.at_ a' k) <= vp)
  /\ (forall k, (r <= k < length a')%nat -> vp <= K (Npy.at_ a' k)).
Proof.
  induction fuel as [|f IH]; intros a pi pj Hinv Hfuel;
    destruct Hinv as (Hlen & Hperm & Hlt & Hpj & Hpiv & Hlo & Hhi).
  - simpl.
    destruct (scan_up_spec vp a pj (length a) pi Hlt ltac:(lia)) as (U1 & U2 & U3).
    set (pi' := Npy.scan_up v (length a) a vp pi pj) in *.
    destruct (scan_down_spec vp a pi' (length a) pj ltac:(lia) ltac:(lia) ltac:(lia))
      as (D1 & D2 & D3).
    set (pj' := Npy.scan_down v (length a) a vp pi' pj) in *.
    assert (Hexit : (pj' <= pi')%nat) by lia.
    apply Nat.leb_le in Hexit. rewrite Hexit.
    repeat split; try assumption; try lia.
    + intros k Hk. destruct (Nat.le_gt_cases k pi); [now apply Hlo | apply Z.lt_le_incl, U2; lia].
    + intros k Hk. destruct (Nat.le_gt_cases pj k); [apply Hhi; lia|].
      destruct (Nat.eq_dec k pi') as [->|Hne]; [apply U3; lia|].
      apply Z.lt_le_incl, D2. apply Nat.leb_le in Hexit. lia.
  - simpl.
    destruct (scan_up_spec vp a pj (length a) pi Hlt ltac:(lia)) as (U1 & U2 & U3).
    set (pi' := Npy.scan_up v (length a) a vp pi pj) in *.
    destruct (scan_down_spec vp a pi' (length a) pj ltac:(lia) ltac:(lia) ltac:(lia))
      as (D1 & D2 & D3).
    set (pj' := Npy.scan_down v (length a) a vp pi' pj) in *.
    destruct (pj' <=? pi')%nat eqn:Hexit.
    + apply Nat.leb_le in Hexit.
      assert (Hpi' : vp <= K (Npy.at_ a pi')).
      { destruct (Nat.eq_dec pi' pj) as [E|E]; [rewrite E; apply Hhi; lia | apply U3; lia]. }
      repeat split; try assumption; try lia.
      * intros k Hk. destruct (Nat.le_gt_cases k pi); [now apply Hlo | apply Z.lt_le_incl, U2; lia].
      * intros k Hk. destruct (Nat.le_gt_cases pj k); [apply Hhi; lia|].
        destruct (Nat.eq_dec k pi') as [->|Hne]; [exact Hpi'|].
        apply Z.lt_le_incl, D2. lia.
    + apply Nat.leb_gt in Hexit.
      assert (Hi : (pi' < length a)%nat) by lia.
      assert (Hj : (pj' < length a)%nat) by lia.
      apply IH; [|lia].
      unfold Invariant.exchange_inv. rewrite swap_length.
      split; [exact Hlen|]. split; [now rewrite swap_perm|].
      split; [exact Hexit|]. split; [lia|].
      split.
      { rewrite swap_at by assumption.
        destruct (Nat.eq_dec (length a - 2)%nat pj'); [lia|].
        destruct (Nat.eq_dec (length a - 2)%nat pi'); [lia|]. exact Hpiv. }
      split.
      * intros k Hk. rewrite swap_at by assumption.
        destruct (Nat.eq_dec k pj'); [lia|].
        destruct (Nat.eq_dec k pi') as [->|Hne]; [apply D3; lia|].
        destruct (Nat.le_gt_cases k pi); [now apply Hlo | apply Z.lt_le_incl, U2; lia].
      * intros k Hk. rewrite swap_at by assumption.
        destruct (Nat.eq_dec k pj') as [->|Hne]; [apply U3; lia|].
        destruct (Nat.eq_dec k pi'); [lia|].
        destruct (Nat.le_gt_cases pj k); [apply Hhi; lia|].
        apply Z.lt_le_incl, D2. lia.
Qed.

(** After a partition step the pivot cell splits the segment: keys at most
    the pivot's before it, keys at least the pivot's after it. *)
Lemma partition_spec seg :
  (3 <= length seg)%nat ->
  let '(a, pi) := Npy.partition v seg in
  length a = length seg
  /\ Permutation a seg
  /\ (pi < length a)%nat
  /\ (forall k, (k < pi)%nat -> K (Npy.at_ a k) <= K (Npy.at_ a pi))
  /\ (forall k, (pi < k < length a)%nat -> K (Npy.at_ a pi) <= K (Npy.at_ a k)).
Proof.
  intros Hn. unfold Npy.partition.
  set (pr := (length seg - 1)%nat).
  set (pm := Nat.div2 pr).
  assert (Hpm : (0 < pm < pr)%nat).
  { unfold pm. pose proof (Nat.div2_odd pr) as E.
    destruct (Nat.odd pr); simpl in E; unfold pr in *; lia. }
  assert (Hpr : (pr < length seg)%nat) by (unfold pr; lia).
  set (a1 := if K (Npy.at_ seg pm) <? K (Npy.at_ seg O) then Npy.swap seg pm O else seg).
  assert (H1 : length a1 = length seg /\ Permutation a1 seg
               /\ K (Npy.at_ a1 O) <= K (Npy.at_ a1 pm)).
  { unfold a1. destruct (K (Npy.at_ seg pm) <? K (Npy.at_ seg O)) eqn:E.
    - apply Z.ltb_lt in E. rewrite swap_length.
      split; [reflexivity|]. split; [apply swap_perm; lia|].
      rewrite !swap_at by lia.
      destruct (Nat.eq_dec O O); [|lia]. destruct (Nat.eq_dec pm O); [lia|].
      destruct (Nat.eq_dec pm pm); [lia|lia].
    - apply Z.ltb_ge in E. auto. }
  destruct H1 as (L1 & P1 & O1).
  set (a2 := if K (Npy.at_ a1 pr) <? K (Npy.at_ a1 pm) then Npy.swap a1 pr pm else a1).
  assert (H2 : length a2 = length seg /\ Permutation a2 seg
               /\ K (Npy.at_ a2 pm) <= K (Npy.at_ a2 pr)
               /\ K (Npy.at_ a2 O) <= K (Npy.at_ a2 pr)).
  { unfold a2. destruct (K (Npy.at_ a1 pr) <? K (Npy.at_ a1 pm)) eqn:E.
    - apply Z.ltb_lt in E. rewrite swap_length.
      split; [exact L1|]. split; [rewrite swap_perm by lia; exact P1|].
      rewrite !swap_at by lia.
      destruct (Nat.eq_dec pm pm); [|lia]. destruct (Nat.eq_dec pr pm); [lia|].
      destruct (Nat.eq_dec pr pr); [|lia]. destruct (Nat.eq_dec O pm); [lia|].
      destruct (Nat.eq_dec O pr); lia.
    - apply Z.ltb_ge in E. repeat split; try assumption; lia. }
  destruct H2 as (L2 & P2 & O2 & O2').
  set (a3 := if K (Npy.at_ a2 pm) <? K (Npy.at_ a2 O) then Npy.swap a2 pm O else a2).
  assert (H3 : length a3 = length seg /\ Permutation a3 seg
               /\ K (Npy.at_ a3 O) <= K (Npy.at_ a3 pm)
               /\ K (Npy.at_ a3 pm) <= K (Npy.at_ a3 pr)).
  { unfold a3. destruct (K (Npy.at_ a2 pm) <? K (Npy.at_ a2 O)) eqn:E.
    - apply Z.ltb_lt in E. rewrite swap_length.
      split; [exact L2|]. split; [rewrite swap_perm by lia; exact P2|].
      rewrite !swap_at by lia.
      destruct (Nat.eq_dec O O); [|lia]. destruct (Nat.eq_dec pm O); [lia|].
      destruct (Nat.eq_dec pm pm); [|lia]. destruct (Nat.eq_dec pr O); [lia|].
      destruct (Nat.eq_dec pr pm); lia.
    - apply Z.ltb_ge in E. repeat split; try assumption; lia. }
  destruct H3 as (L3 & P3 & O3 & O3').
  clearbody a3. clear a1 a2 L1 P1 O1 L2 P2 O2 O2'.
  set (vp := K (Npy.at_ a3 pm)) in *.
  set (a4 := Npy.swap a3 pm (pr - 1)%nat).
  assert (Hinv : exchange_inv seg vp a4 O (pr - 1)%nat).
  { unfold Invariant.exchange_inv, a4. rewrite swap_length.
    split; [exact L3|]. split; [rewrite swap_perm by (unfold pr in *; lia); exact P3|].
    split; [unfold pr; lia|]. split; [unfold pr in *; lia|].
    split.
    { rewrite swap_at by (unfold pr in *; lia).
      replace (length a3 - 2)%nat with (pr - 1)%nat by (unfold pr; lia).
      destruct (Nat.eq_dec (pr - 1)%nat (pr - 1)%nat); [reflexivity | lia]. }
    split.
    - intros k Hk. assert (k = O) by lia. subst k.
      rewrite swap_at by (unfold pr in *; lia).
      destruct (Nat.eq_dec O (pr - 1)%nat); [unfold pr in *; lia|].
      destruct (Nat.eq_dec O pm); [lia | exact O3].
    - intros k Hk. rewrite swap_at by (unfold pr in *; lia).
      destruct (Nat.eq_dec k (pr - 1)%nat); [unfold vp; lia|].
      destruct (Nat.eq_dec k pm); [unfold pr in *; lia|].
      assert (k = pr) by (unfold pr in *; lia). subst k. exact O3'. }
  pose proof (exchange_spec seg vp (length a4) a4 0 (pr - 1)%nat Hinv) as Hex.
  destruct (Npy.exchange v (length a4) a4 vp 0 (pr - 1)%nat) as [a5 r].
  destruct Hex as (L5 & P5 & Hr0 & Hr & Hpiv & Hlo & Hhi).
  { unfold a4. rewrite swap_length. unfold pr. lia. }
  assert (Hrr : (r < length a5)%nat) by lia.
  assert (Hpp : (pr - 1 < length a5)%nat) by (unfold pr; lia).
  assert (Epr : (pr - 1 = length a5 - 2)%nat) by (unfold pr; lia).
  rewrite swap_length.
  split; [exact L5|]. split; [rewrite swap_perm by lia; exact P5|].
  split; [exact Hrr|].
  assert (Hpivot : K (Npy.at_ (Npy.swap a5 r (pr - 1)%nat) r) = vp).
  { rewrite swap_at by lia.
    destruct (Nat.eq_dec r (pr - 1)%nat) as [E|E].
    - rewrite E, Epr. exact Hpiv.
    - destruct (Nat.eq_dec r r); [|lia]. rewrite Epr. exact Hpiv. }
  rewrite Hpivot. split.
  - intros k Hk. rewrite swap_at by lia.
    destruct (Nat.eq_dec k (pr - 1)%nat); [lia|].
    destruct (Nat.eq_dec k r); [lia|]. now apply Hlo.
  - intros k Hk. rewrite swap_at by lia.
    destruct (Nat.eq_dec k (pr - 1)%nat); [apply Hhi; lia|].
    destruct (Nat.eq_dec k r); [lia|]. apply Hhi. lia.
Qed.

End PartitionFacts.

Section HeapsortFacts.

Variable v : list Z.
Local Abbreviation K := (Npy.key v).
Local Abbreviation key_le := (Invariant.key_le v).
Local Abbreviation heap_ok := (Invariant.heap_ok v).
Local Abbreviation sift_inv := (Invariant.sift_inv v).
Local Abbreviation sift_post := (Invariant.sift_post v).
Local Open Scope nat_scope.

(** *** Heapsort *)

Lemma set1_length a k x : length (Npy.set1 a k x) = length a.
Proof. unfold Npy.set1. apply length_insert. Qed.

Lemma at1_set1 a i x k :
  1 <= i <= length a -> 1 <= k ->
  Npy.at1 (Npy.set1 a i x) k = if Nat.eq_dec k i then x else Npy.at1 a k.
Proof.
  intros Hi Hk. unfold Npy.at1, Npy.set1.
  destruct (Nat.eq_dec k i) as [->|Hne].
  - apply at_lookup. apply list_lookup_insert_eq. lia.
  - unfold Npy.at_. rewrite !nth_lookup.
    rewrite list_lookup_insert_ne by lia. reflexivity.
Qed.




Lemma sift_fill l n b tmp a i :
  sift_inv l n b tmp a i ->
  (forall B, (forall k, 1 <= k <= n -> (K (Npy.at1 b k) <= B)%Z) -> (K tmp <= B)%Z) ->
  (2 * i <= n -> (K (Npy.at1 a (2 * i)) <= K tmp)%Z) ->
  (2 * i + 1 <= n -> (K (Npy.at1 a (2 * i + 1)) <= K tmp)%Z) ->
  sift_post l n b (Npy.set1 a i tmp).
Proof.
  intros (Hlen & Hl & Hn & Hheap & Hpar & Hperm & Hfr & Hbd) Htmp Hc1 Hc2.
  unfold Invariant.sift_post. rewrite set1_length.
  split; [exact Hlen|]. split; [exact Hperm|].
  split; [|split].
  - intros k Hk. unfold Invariant.heap_ok.
    rewrite !at1_set1 by lia.
    destruct (Nat.eq_dec k i) as [->|Hki].
    + destruct (Nat.eq_dec (2 * i) i); [lia|].
      destruct (Nat.eq_dec (2 * i + 1) i); [lia|]. split; assumption.
    + assert (Hok : heap_ok n a k) by (apply Hheap; [lia | intros ->; congruence]).
      destruct Hok as [Hok1 Hok2].
      destruct (Nat.eq_dec (2 * k) i) as [E|E];
        destruct (Nat.eq_dec (2 * k + 1) i) as [E'|E'];
        [ lia
        | split; [intros _; apply Hpar; [lia | left; exact E] | exact Hok2]
        | split; [exact Hok1 | intros _; apply Hpar; [lia | right; exact E']]
        | split; assumption ].
  - intros k Hk. rewrite at1_set1 by lia.
    destruct (Nat.eq_dec k i); [lia | now apply Hfr].
  - intros B Hb k Hk. rewrite at1_set1 by lia.
    destruct (Nat.eq_dec k i); [now apply Htmp | now apply (Hbd B)].
Qed.

Lemma sift_spec l n b tmp :
  (forall B, (forall k, 1 <= k <= n -> (K (Npy.at1 b k) <= B)%Z) -> (K tmp <= B)%Z) ->
  forall fuel a i,
  sift_inv l n b tmp a i -> n < fuel + (i + i) ->
  let '(a', i') := Npy.sift v fuel a tmp i (i + i) n in
  sift_post l n b (Npy.set1 a' i' tmp).
Proof.
  intros Htmp.
  induction fuel as [|f IH]; intros a i Hinv Hfuel.
  - simpl. apply sift_fill; [exact Hinv | exact Htmp | lia | lia].
  - simpl. destruct (i + i <=? n) eqn:Hj.
    + apply Nat.leb_le in Hj.
      pose proof Hinv as (Hlen & Hl & Hn & Hheap & Hpar & Hperm & Hfr & Hbd).
      set (j' := if ((i + i <? n) && (K (Npy.at1 a (i + i)) <? K (Npy.at1 a (i + i + 1)))%Z)%bool
                 then S (i + i) else i + i).
      assert (Hj' : ((j' = i + i \/ j' = i + i + 1) /\ j' <= n)
                    /\ (2 * i <= n -> (K (Npy.at1 a (2 * i)) <= K (Npy.at1 a j'))%Z)
                    /\ (2 * i + 1 <= n -> (K (Npy.at1 a (2 * i + 1)) <= K (Npy.at1 a j'))%Z)).
      { unfold j'. replace (2 * i) with (i + i) by lia.
        destruct (i + i <? n) eqn:E1; simpl.
        - apply Nat.ltb_lt in E1.
          destruct (K (Npy.at1 a (i + i)) <? K (Npy.at1 a (i + i + 1)))%Z eqn:E2.
          + apply Z.ltb_lt in E2. replace (S (i + i)) with (i + i + 1) by lia.
            split; [lia|]. split; intros; lia.
          + apply Z.ltb_ge in E2. split; [lia|]. split; intros; lia.
        - apply Nat.ltb_ge in E1. split; [lia|]. split; intros; lia. }
      destruct Hj' as ((Hjv & Hjn) & Hm1 & Hm2).
      fold j'. clearbody j'.
      destruct (K tmp <? K (Npy.at1 a j'))%Z eqn:Et.
      * apply Z.ltb_lt in Et.
        replace (j' + j') with (j' + j') by reflexivity.
        apply IH; [|lia].
        assert (Hji : j' <> i) by lia.
        unfold Invariant.sift_inv. rewrite set1_length.
        split; [exact Hlen|]. split; [lia|]. split; [lia|].
        split; [|split; [|split; [|split]]].
        -- intros k Hk Hkl. unfold Invariant.heap_ok. rewrite !at1_set1 by lia.
           destruct (Nat.eq_dec k i) as [->|Hki].
           ++ destruct (Nat.eq_dec (2 * i) i); [lia|].
              destruct (Nat.eq_dec (2 * i + 1) i); [lia|]. split; assumption.
           ++ assert (Hok : heap_ok n a k).
              { apply Hheap; [lia|]. intros ->. congruence. }
              destruct Hok as [Hok1 Hok2].
              assert (Hdown : i <> l -> (K (Npy.at1 a j') <= K (Npy.at1 a i))%Z).
              { intros Hil. destruct (Hheap i ltac:(lia) ltac:(congruence)) as [T1 T2].
                destruct Hjv as [-> | ->];
                  [replace (i + i) with (2 * i) by lia; apply T1; lia
                  |replace (i + i + 1) with (2 * i + 1) by lia; apply T2; lia]. }
              destruct (Nat.eq_dec (2 * k) i) as [E|E];
                destruct (Nat.eq_dec (2 * k + 1) i) as [E'|E'];
                [ lia | | | split; assumption ].
              ** split; [|exact Hok2].
                 intros H2k. specialize (Hok1 H2k). rewrite E in Hok1.
                 specialize (Hdown ltac:(lia)). lia.
              ** split; [exact Hok1|].
                 intros H2k. specialize (Hok2 H2k). rewrite E' in Hok2.
                 specialize (Hdown ltac:(lia)). lia.
        -- intros k Hk Hc. rewrite at1_set1 by lia.
           destruct (Nat.eq_dec k i) as [->|Hki]; [lia|]. lia.
        -- rewrite <- Hperm. unfold Npy.set1.
           rewrite <- (list_insert_insert_eq a (i - 1) (Npy.at1 a j') tmp).
           apply Permutation_insert_swap.
           ++ apply list_lookup_insert_eq. lia.
           ++ rewrite list_lookup_insert_ne by lia.
              unfold Npy.at1. apply lookup_at. lia.
        -- intros k Hk. rewrite at1_set1 by lia.
           destruct (Nat.eq_dec k i); [lia | now apply Hfr].
        -- intros B Hb k Hk Hkj. rewrite at1_set1 by lia.
           destruct (Nat.eq_dec k i); [apply (Hbd B); [assumption|lia..] | now apply (Hbd B)].
      * apply Z.ltb_ge in Et.
        apply sift_fill; [exact Hinv | exact Htmp | intros; specialize (Hm1 ltac:(lia)); lia
                         | intros; specialize (Hm2 ltac:(lia)); lia].
    + apply Nat.leb_gt in Hj. apply sift_fill; [exact Hinv | exact Htmp | lia | lia].
Qed.

Lemma sift_from_spec l n a tmp :
  1 <= l <= n -> n <= length a ->
  (forall k, l < k -> heap_ok n a k) ->
  sift_post l n (Npy.set1 a l tmp) (Npy.sift_from v a tmp l n).
Proof.
  intros Hl Hn Hheap. unfold Npy.sift_from.
  assert (Htmp : forall B, (forall k, 1 <= k <= n ->
                   (K (Npy.at1 (Npy.set1 a l tmp) k) <= B)%Z) -> (K tmp <= B)%Z).
  { intros B Hb. specialize (Hb l ltac:(lia)). rewrite at1_set1 in Hb by lia.
    destruct (Nat.eq_dec l l); [exact Hb | lia]. }
  pose proof (sift_spec l n (Npy.set1 a l tmp) tmp Htmp (S n) a l) as H.
  destruct (Npy.sift v (S n) a tmp l (l + l) n) as [a' i'].
  apply H; [|lia].
  unfold Invariant.sift_inv. rewrite set1_length.
  split; [reflexivity|]. split; [lia|]. split; [lia|].
  split; [|split; [|split; [|split]]].
  - intros k Hk Hkl. apply Hheap.
    destruct (Nat.eq_dec k l) as [E|E]; [now specialize (Hkl E) | lia].
  - intros k Hk Hc. lia.
  - reflexivity.
  - intros k Hk. rewrite at1_set1 by lia. destruct (Nat.eq_dec k l); [lia | reflexivity].
  - intros B Hb k Hk Hkl. specialize (Hb k Hk). rewrite at1_set1 in Hb by lia.
    destruct (Nat.eq_dec k l); [lia | exact Hb].
Qed.

Lemma heapify_spec n : forall l a,
  l <= n -> n = length a ->
  (forall k, l < k -> heap_ok n a k) ->
  let a' := Npy.heapify v l a n in
  length a' = length a /\ Permutation a' a /\ (forall k, 1 <= k -> heap_ok n a' k).
Proof.
  induction l as [|l IH]; intros a Hl Hn Hheap; simpl.
  - split; [reflexivity|]. split; [reflexivity|]. intros k Hk. apply Hheap. lia.
  - destruct (sift_from_spec (S l) n a (Npy.at1 a (S l)) ltac:(lia) ltac:(lia) Hheap)
      as (L & P & H & _ & _).
    assert (Eid : Npy.set1 a (S l) (Npy.at1 a (S l)) = a).
    { unfold Npy.set1, Npy.at1. apply list_insert_id. apply lookup_at. lia. }
    rewrite Eid in L, P.
    destruct (IH (Npy.sift_from v a (Npy.at1 a (S l)) (S l) n)) as (L' & P' & H').
    + lia.
    + lia.
    + intros k Hk. apply H. lia.
    + split; [lia|]. split; [now rewrite P'|]. exact H'.
Qed.

(** The root of a heap holds a largest key. *)
Lemma heap_root_max n a :
  (forall k, 1 <= k -> heap_ok n a k) ->
  forall k, 1 <= k <= n -> (K (Npy.at1 a k) <= K (Npy.at1 a 1))%Z.
Proof.
  intros Hheap k. induction k as [k IH] using (well_founded_induction lt_wf).
  intros Hk. destruct (Nat.eq_dec k 1) as [->|Hne]; [lia|].
  pose proof (Nat.div_mod_eq k 2) as E.
  pose proof (Nat.mod_upper_bound k 2 ltac:(lia)) as Hm.
  set (m := k / 2) in *.
  assert (Hm1 : 1 <= m <= n) by lia.
  specialize (IH m ltac:(lia) Hm1).
  destruct (Hheap m ltac:(lia)) as [H1 H2].
  destruct (Nat.eq_dec (k mod 2) 0) as [E0|E0].
  - replace k with (2 * m) by lia. specialize (H1 ltac:(lia)). lia.
  - replace k with (2 * m + 1) by lia. specialize (H2 ltac:(lia)). lia.
Qed.

Lemma extract_spec : forall n a,
  n <= length a ->
  (forall k, 1 <= k -> heap_ok n a k) ->
  (forall p q, 1 <= p <= q -> q <= length a -> n < q ->
     (K (Npy.at1 a p) <= K (Npy.at1 a q))%Z) ->
  let a' := Npy.extract v n a in
  length a' = length a /\ Permutation a' a
  /\ (forall p q, 1 <= p <= q -> q <= length a ->
        (K (Npy.at1 a' p) <= K (Npy.at1 a' q))%Z).
Proof.
  induction n as [|n IH]; intros a Hn Hheap Hsorted.
  - simpl. split; [reflexivity|]. split; [reflexivity|].
    intros p q Hpq Hq. apply Hsorted; lia.
  - simpl Npy.extract. destruct (1 <? S n) eqn:E.
    + apply Nat.ltb_lt in E.
      set (tmp := Npy.at1 a (S n)).
      set (top := Npy.at1 a 1).
      set (a1 := Npy.set1 a (S n) top).
      assert (L1 : length a1 = length a) by apply set1_length.
      assert (Hheap1 : forall k, 1 < k -> heap_ok n a1 k).
      { intros k Hk. destruct (Hheap k ltac:(lia)) as [H1 H2].
        unfold Invariant.heap_ok, a1. rewrite !at1_set1 by lia.
        destruct (Nat.eq_dec k (S n)) as [->|Hk'].
        - split; intros; lia.
        - split; intros Hc.
          + destruct (Nat.eq_dec (2 * k) (S n)); [lia|]. apply H1. lia.
          + destruct (Nat.eq_dec (2 * k + 1) (S n)); [lia|]. apply H2. lia. }
      destruct (sift_from_spec 1 n a1 tmp ltac:(lia) ltac:(lia) Hheap1)
        as (L & P & H & Hfr & Hbd).
      set (a2 := Npy.sift_from v a1 tmp 1 n) in *.
      rewrite set1_length in L.
      assert (Pa : Permutation (Npy.set1 a1 1 tmp) a).
      { unfold a1, Npy.set1, tmp, top.
        apply Permutation_insert_swap; unfold Npy.at1; apply lookup_at; lia. }
      assert (Hfr' : forall k, S n <= k -> Npy.at1 a2 k
                       = if Nat.eq_dec k (S n) then top else Npy.at1 a k).
      { intros k Hk. rewrite Hfr by lia. rewrite at1_set1 by lia.
        destruct (Nat.eq_dec k 1); [lia|]. unfold a1. apply at1_set1; lia. }
      assert (Hreg : forall B, (forall k, 1 <= k <= S n -> (K (Npy.at1 a k) <= B)%Z) ->
                       forall k, 1 <= k <= n -> (K (Npy.at1 a2 k) <= B)%Z).
      { intros B HB. apply Hbd. intros k Hk. rewrite at1_set1 by lia.
        destruct (Nat.eq_dec k 1); [apply HB; lia|].
        unfold a1. rewrite at1_set1 by lia.
        destruct (Nat.eq_dec k (S n)); [lia|]. apply HB. lia. }
      destruct (IH a2) as (L' & P' & S').
      * lia.
      * exact H.
      * intros p q Hpq Hq Hnq.
        assert (Hq' : Npy.at1 a2 q = if Nat.eq_dec q (S n) then top else Npy.at1 a q)
          by (apply Hfr'; lia).
        rewrite Hq'.
        destruct (Nat.le_gt_cases p n) as [Hp|Hp].
        -- apply Hreg; [|lia]. intros k Hk.
           destruct (Nat.eq_dec q (S n)) as [->|Hqn].
           ++ apply (heap_root_max (S n) a Hheap). lia.
           ++ apply Hsorted; lia.
        -- rewrite Hfr' by lia.
           destruct (Nat.eq_dec p (S n)) as [->|Hpn];
             destruct (Nat.eq_dec q (S n)) as [->|Hqn]; try lia.
           ++ apply Hsorted; lia.
           ++ apply Hsorted; lia.
      * split; [lia|]. split; [rewrite P', P; exact Pa|].
        intros p q Hpq Hq. apply S'; lia.
    + apply Nat.ltb_ge in E. split; [reflexivity|]. split; [reflexivity|].
      intros p q Hpq Hq. destruct (Nat.eq_dec q p) as [->|Hne]; [lia|].
      apply Hsorted; lia.
Qed.

Lemma aheapsort_perm seg : Permutation (Npy.aheapsort v seg) seg.
Proof.
  unfold Npy.aheapsort.
  destruct (heapify_spec (length seg) (Nat.div2 (length seg)) seg) as (L & P & H).
  - pose proof (Nat.div2_odd (length seg)). destruct (Nat.odd (length seg)); simpl in *; lia.
  - reflexivity.
  - intros k Hk. pose proof (Nat.div2_odd (length seg)) as E.
    destruct (Nat.odd (length seg)); simpl in E; split; intros; lia.
  - destruct (extract_spec (length seg) (Npy.heapify v (Nat.div2 (length seg)) seg (length seg)))
      as (L' & P' & _).
    + lia.
    + exact H.
    + intros; lia.
    + now rewrite P'.
Qed.

Lemma aheapsort_sorted seg : StronglySorted key_le (Npy.aheapsort v seg).
Proof.
  unfold Npy.aheapsort.
  destruct (heapify_spec (length seg) (Nat.div2 (length seg)) seg) as (L & P & H).
  - pose proof (Nat.div2_odd (length seg)). destruct (Nat.odd (length seg)); simpl in *; lia.
  - reflexivity.
  - intros k Hk. pose proof (Nat.div2_odd (length seg)) as E.
    destruct (Nat.odd (length seg)); simpl in E; split; intros; lia.
  - destruct (extract_spec (length seg) (Npy.heapify v (Nat.div2 (length seg)) seg (length seg)))
      as (L' & P' & S').
    + lia.
    + exact H.
    + intros; lia.
    + apply sorted_by_cells. intros p q Hpq.
      specialize (S' (S p) (S q)). unfold Npy.at1 in S'. simpl in S'.
      rewrite !Nat.sub_0_r in S'. apply S'; lia.
Qed.

End HeapsortFacts.

Section QuicksortFacts.

Variable v : list Z.
Local Abbreviation K := (Npy.key v).
Local Abbreviation key_le := (Invariant.key_le v).
Local Abbreviation key_index_lt := (Invariant.key_index_lt v).

(** *** The driver *)

Lemma quick_spec : forall fuel cdepth seg,
  (length seg <= fuel)%nat ->
  Permutation (Npy.quick v fuel cdepth seg) seg
  /\ StronglySorted key_le (Npy.quick v fuel cdepth seg).
Proof.
  induction fuel as [|f IH]; intros cdepth seg Hlen.
  - destruct seg; [|simpl in Hlen; lia]. simpl. split; [reflexivity | constructor].
  - simpl Npy.quick.
    destruct (Npy.SMALL_QUICKSORT <? length seg - 1)%nat eqn:Hbig;
      [|split; [apply insertion_sort_perm | apply insertion_sort_sorted]].
    apply Nat.ltb_lt in Hbig. unfold Npy.SMALL_QUICKSORT in Hbig.
    pose proof (partition_spec v seg ltac:(lia)) as Hpart.
    destruct (Npy.partition v seg) as [a pi].
    destruct Hpart as (La & Pa & Hpi & Hlo & Hhi).
    assert (Hmid : (firstn pi a ++ Npy.at_ a pi :: skipn (S pi) a)%list = a).
    { apply take_drop_middle. now apply lookup_at. }
    assert (Hleft : forall x, In x (firstn pi a) -> K x <= K (Npy.at_ a pi)).
    { intros x Hx. apply list_elem_of_In, list_elem_of_lookup in Hx as [k Hk].
      apply lookup_take_Some in Hk as [Hk Hkpi].
      apply at_lookup in Hk. subst x. now apply Hlo. }
    assert (Hright : forall x, In x (skipn (S pi) a) -> K (Npy.at_ a pi) <= K x).
    { intros x Hx. apply list_elem_of_In, list_elem_of_lookup in Hx as [k Hk].
      rewrite lookup_drop in Hk.
      assert (S pi + k < length a)%nat by (eapply lookup_lt_Some; exact Hk).
      apply at_lookup in Hk. subst x. apply Hhi. lia. }
    assert (Lleft : (length (firstn pi a) <= f)%nat) by (rewrite length_firstn; lia).
    assert (Lright : (length (skipn (S pi) a) <= f)%nat) by (rewrite length_skipn; lia).
    set (cdepth' := cdepth - 1).
    assert (Hpop : forall side, (length side <= f)%nat ->
              Permutation (if cdepth' <? 0 then Npy.aheapsort v side
                           else Npy.quick v f cdepth' side) side
              /\ StronglySorted key_le
                   (if cdepth' <? 0 then Npy.aheapsort v side
                    else Npy.quick v f cdepth' side)).
    { intros side Hside. destruct (cdepth' <? 0).
      - split; [apply aheapsort_perm | apply aheapsort_sorted].
      - now apply IH. }
    assert (Hglue : forall L R,
              Permutation L (firstn pi a) -> StronglySorted key_le L ->
              Permutation R (skipn (S pi) a) -> StronglySorted key_le R ->
              Permutation (L ++ Npy.at_ a pi :: R)%list seg
              /\ StronglySorted key_le (L ++ Npy.at_ a pi :: R)%list).
    { intros L R PL SL PR SR. split.
      - rewrite PL, PR, Hmid. exact Pa.
      - apply StronglySorted_app_2; [|exact SL|].
        + intros x y Hx Hy. apply list_elem_of_In in Hx, Hy.
          assert (Hx' : K x <= K (Npy.at_ a pi)).
          { apply Hleft. now apply (Permutation_in _ PL). }
          destruct Hy as [<-|Hy]; [exact Hx'|].
          unfold Invariant.key_le. etransitivity; [exact Hx'|].
          apply Hright. now apply (Permutation_in _ PR).
        + constructor; [exact SR|].
          apply List.Forall_forall. intros y Hy.
          apply Hright. now apply (Permutation_in _ PR). }
    destruct (IH cdepth' _ Lleft) as [PL SL].
    destruct (IH cdepth' _ Lright) as [PR SR].
    destruct (Hpop _ Lleft) as [PL' SL'].
    destruct (Hpop _ Lright) as [PR' SR'].
    destruct (pi <? length seg - 1 - pi)%nat; now apply Hglue.
Qed.

(** The index array that comes back is a permutation of the positions. *)
Lemma aquicksort_perm : Permutation (Npy.aquicksort v) (seq 0 (length v)).
Proof. unfold Npy.aquicksort. apply quick_spec. now rewrite length_seq. Qed.

(** It lists the positions by ascending key. *)
Lemma aquicksort_sorted : StronglySorted key_le (Npy.aquicksort v).
Proof. unfold Npy.aquicksort. apply quick_spec. now rewrite length_seq. Qed.

Lemma seq_sorted n : forall s, StronglySorted lt (seq s n).
Proof.
  induction n as [|n IH]; intros s; simpl; constructor; [apply IH|].
  apply List.Forall_forall. intros x Hx. apply in_seq in Hx. lia.
Qed.

Lemma quick_small f cdepth seg :
  (length seg <= 17)%nat ->
  Npy.quick v (S f) cdepth seg = Npy.insertion_sort v seg.
Proof.
  intros Hn. cbn [Npy.quick].
  destruct (Nat.ltb_spec Npy.SMALL_QUICKSORT (length seg - 1)) as [H|H];
    [unfold Npy.SMALL_QUICKSORT in H; lia | reflexivity].
Qed.

(** Up to 17 keys are sorted by insertion alone, which keeps positions
    with equal keys in ascending order. *)
Lemma aquicksort_small :
  (length v <= 17)%nat -> StronglySorted key_index_lt (Npy.aquicksort v).
Proof.
  intros Hn. unfold Npy.aquicksort.
  destruct (length v) as [|n] eqn:E; [constructor|].
  rewrite quick_small by (rewrite length_seq; exact Hn).
  apply insertion_sort_stable. apply seq_sorted.
Qed.

End QuicksortFacts.


(** ** Sorting a frame *)

Lemma take_in_range {A} (d : A) (indexer : list nat) (column : list A) :
  Forall (fun i => (i < length column)%nat) indexer ->
  take indexer column = Ok (map (fun i => nth i column d) indexer).
Proof.
  intros H. unfold take. apply omap_total. intros i Hi.
  rewrite List.Forall_forall in H. specialize (H i Hi).
  destruct (nth_error column i) as [x|] eqn:E.
  - now rewrite (nth_error_nth _ _ d E).
  - apply nth_error_None in E. lia.
Qed.

Lemma map_nth_seq {A} (d : A) (l : list A) :
  map (fun i => nth i l d) (seq 0 (length l)) = l.
Proof.
  induction l as [|x l IH]; [reflexivity|].
  simpl. f_equal. rewrite <- seq_shift, map_map. exact IH.
Qed.

Lemma StronglySorted_map_in {A B} (R : A -> A -> Prop) (R' : B -> B -> Prop)
    (f : A -> B) (l : list A) :
  (forall x y, In x l -> In y l -> R x y -> R' (f x) (f y)) ->
  StronglySorted R l -> StronglySorted R' (map f l).
Proof.
  intros Hf Hs. induction Hs as [|x l Hs IH Hx]; simpl; [constructor|].
  constructor.
  - apply IH. intros a b Ha Hb. apply Hf; now right.
  - apply List.Forall_forall. intros y Hy. apply in_map_iff in Hy as (z & <- & Hz).
    rewrite List.Forall_forall in Hx. apply Hf; [now left | now right | now apply Hx].
Qed.

Lemma StronglySorted_filter {A} (R : A -> A -> Prop) (p : A -> bool) (l : list A) :
  StronglySorted R l -> StronglySorted R (List.filter p l).
Proof.
  induction 1 as [|x l Hs IH Hx]; simpl; [constructor|].
  destruct (p x); [|exact IH]. constructor; [exact IH|].
  rewrite List.Forall_forall in *. intros y Hy. apply List.filter_In in Hy as [Hy _].
  now apply Hx.
Qed.

Lemma filter_map_comm {A B} (f : A -> B) (p : B -> bool) (l : list A) :
  List.filter p (map f l) = map f (List.filter (fun x => p (f x)) l).
Proof.
  induction l as [|x l IH]; [reflexivity|].
  simpl. destruct (p (f x)); simpl; now rewrite IH.
Qed.

Lemma Permutation_filter {A} (p : A -> bool) (l l' : list A) :
  Permutation l l' -> Permutation (List.filter p l) (List.filter p l').
Proof.
  induction 1 as [|x l l' H IH|x y l|l l' l'' H1 IH1 H2 IH2]; simpl.
  - constructor.
  - destruct (p x); [now constructor | exact IH].
  - destruct (p x), (p y); try reflexivity. apply perm_swap.
  - now transitivity (List.filter p l').
Qed.

(** What [sort_values] makes of a frame with its key column: the rows
    rearranged, ascending by key; up to 17 rows, rows with the same key
    stay in the order they had. *)
Lemma sort_values_keyed (today : list Row) :
  sort_values (mkFrame today (Some (map start_key today)))
    = Ok (mkFrame (sorted_rows today) (Some (map start_key (sorted_rows today))))
  /\ Permutation (sorted_rows today) today
  /\ StronglySorted by_start (sorted_rows today)
  /\ ((length today <= 17)%nat ->
      forall t, List.filter (fun r => start_key r =? t) (sorted_rows today)
                = List.filter (fun r => start_key r =? t) today).
Proof.
  set (keys := map start_key today).
  set (indexer := Npy.aquicksort keys).
  assert (Hlen : length keys = length today) by (unfold keys; apply length_map).
  assert (Hperm : Permutation indexer (seq 0 (length today))).
  { unfold indexer. rewrite <- Hlen. apply aquicksort_perm. }
  assert (Hrange : forall i, In i indexer -> (i < length today)%nat).
  { intros i Hi. apply (Permutation_in _ Hperm) in Hi. apply in_seq in Hi. lia. }
  assert (Hkey : forall i, (i < length today)%nat ->
            Npy.key keys i = start_key (nth i today blank_row)).
  { intros i Hi. unfold Npy.key, keys.
    rewrite (nth_indep _ 0 (start_key blank_row)) by (rewrite length_map; exact Hi).
    apply map_nth. }
  assert (Hrows : take indexer today = Ok (map (fun i => nth i today blank_row) indexer)).
  { apply take_in_range. apply List.Forall_forall. exact Hrange. }
  assert (Hkeys : take indexer keys
                  = Ok (map start_key (map (fun i => nth i today blank_row) indexer))).
  { rewrite (take_in_range 0) by (apply List.Forall_forall; intros i Hi; rewrite Hlen; auto).
    f_equal. rewrite map_map. apply map_ext_in. intros i Hi.
    apply Hkey. auto. }
  assert (Hrun : sort_values (mkFrame today (Some keys))
                 = Ok (mkFrame (map (fun i => nth i today blank_row) indexer)
                         (Some (map start_key (map (fun i => nth i today blank_row) indexer))))).
  { unfold sort_values. cbn [start_obj rows]. fold indexer.
    rewrite Hrows. cbn [obind]. rewrite Hkeys. reflexivity. }
  assert (Hsr : sorted_rows today = map (fun i => nth i today blank_row) indexer).
  { unfold sorted_rows. fold keys. rewrite Hrun. reflexivity. }
  rewrite Hsr. split; [exact Hrun|]. split; [|split].
  - rewrite Hperm. now rewrite map_nth_seq.
  - apply (StronglySorted_map_in (Invariant.key_le keys)); [|apply aquicksort_sorted].
    intros x y Hx Hy Hxy. unfold by_start, Invariant.key_le in *.
    rewrite <- !Hkey by auto. exact Hxy.
  - intros Hsmall t.
    rewrite filter_map_comm.
    assert (Hr : List.filter (fun r => start_key r =? t) today
                 = map (fun i => nth i today blank_row)
                     (List.filter (fun i => start_key (nth i today blank_row) =? t)
                        (seq 0 (length today)))).
    { rewrite <- (filter_map_comm (fun i => nth i today blank_row)
                   (fun r => start_key r =? t)).
      now rewrite map_nth_seq. }
    rewrite Hr. f_equal.
    apply (StronglySorted_unique_strong lt).
    + intros; lia.
    + rewrite <- (map_id (List.filter _ indexer)).
      apply (StronglySorted_map_in (Invariant.key_index_lt keys)).
      * intros x y Hx Hy Hxy.
        apply List.filter_In in Hx as [Hxi Hx]. apply List.filter_In in Hy as [Hyi Hy].
        apply Z.eqb_eq in Hx. apply Z.eqb_eq in Hy.
        unfold Invariant.key_index_lt in Hxy. rewrite !Hkey in Hxy by auto. lia.
      * apply StronglySorted_filter. apply aquicksort_small. now rewrite Hlen.
    + apply StronglySorted_filter. apply seq_sorted.
    + now apply Permutation_filter.
Qed.


(** ** Today's courses *)

Lemma check_week_range_Ok (expr : pyval) (W : Z) :
  check_week_range expr W = Ok (matches expr W).
Proof.
  unfold matches.
  assert (H : exists m : bool, check_week_range expr W = Ok m).
  { unfold check_week_range.
    destruct expr as [| |s]; cbn [isna]; [now exists true | now exists true |].
    destruct (String.eqb s ""); [now exists true|].
    destruct (Py.contains "-" s); [apply try_except_total|].
    destruct (Py.contains "," s); apply try_except_total. }
  destruct H as [m ->]. reflexivity.
Qed.

Lemma bind_run {A B} (m : M A) (k : A -> M B) w a w' :
  m w = (Ok a, w') -> bind m k w = k a w'.
Proof. intros H. unfold bind. now rewrite H. Qed.

Lemma select_selected wd cw (base : list Row) :
  select (zip_with andb (map (fun r => weekday r =? wd) base)
                   (map (fun r => matches (weeks r) cw) base)) base
  = selected wd cw base.
Proof.
  unfold selected. induction base as [|r base IH]; [reflexivity|].
  simpl. rewrite IH. reflexivity.
Qed.

Lemma existsb_mask {A} (p : A -> bool) (l : list A) :
  existsb (fun b : bool => b) (map p l) = existsb p l.
Proof. induction l as [|x l IH]; [reflexivity|]. simpl. now rewrite IH. Qed.

Lemma zip_with_mask {A} (p : A -> bool) (f : A -> A) (l : list A) :
  zip_with (fun (b : bool) x => if b then f x else x) (map p l) l
  = map (fun x => if p x then f x else x) l.
Proof. induction l as [|x l IH]; [reflexivity|]. simpl. now rewrite IH. Qed.

(** A new object is not one of the objects that existed before. *)
Lemma fresh_outside (h0 h : gmap loc frame) :
  h0 ⊆ h -> h0 !! fresh (dom h) = None.
Proof.
  intros Hsub. destruct (h0 !! fresh (dom h)) as [f|] eqn:E; [|reflexivity].
  exfalso. apply (is_fresh (dom h)). apply elem_of_dom.
  exists f. eapply lookup_weaken; eassumption.
Qed.

Lemma alloc_keeps (h0 h : gmap loc frame) (f : frame) :
  h0 ⊆ h -> h0 ⊆ <[fresh (dom h) := f]> h.
Proof.
  intros Hsub. apply insert_subseteq_r; [now apply fresh_outside | exact Hsub].
Qed.

(** One turn of the loop over the adjustments computes
    [replace_or_append] on the rows of [today_courses], writes to no object
    that existed before the call of [get_today_courses] (the heap [h0]),
    and leaves the session alone. *)
Lemma merge_adjust_run (h0 : gmap loc frame) wd cw adjust today w today_rows :
  heap w !! today = Some (mkFrame today_rows None) ->
  h0 ⊆ heap w -> h0 !! today = None ->
  exists today' w',
    merge_adjust wd cw adjust today w = (Ok today', w')
    /\ heap w' !! today' = Some (mkFrame (replace_or_append wd cw today_rows adjust) None)
    /\ h0 ⊆ heap w' /\ h0 !! today' = None
    /\ sess w' = sess w /\ clock w' = clock w /\ ticks w' = ticks w.
Proof.
  intros Hload Hsub Hnew.
  unfold merge_adjust, replace_or_append, applies.
  destruct (adj_weekday adjust =? wd); simpl andb;
    [|exists today, w; unfold bind, ret; simpl; auto 10].
  rewrite check_week_range_Ok. unfold bind at 1. unfold lift at 1.
  destruct (matches (PyStr (adj_weeks adjust)) cw);
    [|exists today, w; unfold ret; auto 10].
  unfold bind at 1. unfold load at 1. rewrite Hload.
  unfold adjust_mask. cbn [rows].
  change (fun r : Row => String.eqb (start_time r) (orig_start adjust)
                         && String.eqb (course_name r) (orig_name adjust))
    with (targets adjust).
  rewrite existsb_mask.
  destruct (existsb (targets adjust) today_rows).
  - unfold bind, store, ret. cbn.
    eexists today, _. split; [reflexivity|]. cbn.
    rewrite lookup_insert_eq. unfold loc_assign. cbn [rows start_obj].
    rewrite zip_with_mask.
    split; [reflexivity|]. split; [now apply insert_subseteq_r|]. auto.
  - unfold bind, alloc, load. cbn.
    rewrite lookup_insert_eq. cbn.
    eexists _, _. split; [reflexivity|]. cbn.
    rewrite lookup_insert_eq. unfold concat. cbn [rows].
    split; [reflexivity|].
    split; [apply alloc_keeps; now apply alloc_keeps|].
    split; [apply fresh_outside; now apply alloc_keeps|]. auto.
Qed.

Lemma merge_adjusts_run (h0 : gmap loc frame) wd cw : forall adjusts today w today_rows,
  heap w !! today = Some (mkFrame today_rows None) ->
  h0 ⊆ heap w -> h0 !! today = None ->
  exists today' w',
    merge_adjusts wd cw adjusts today w = (Ok today', w')
    /\ heap w' !! today'
       = Some (mkFrame (fold_left (replace_or_append wd cw) adjusts today_rows) None)
    /\ h0 ⊆ heap w' /\ h0 !! today' = None
    /\ sess w' = sess w /\ clock w' = clock w /\ ticks w' = ticks w.
Proof.
  induction adjusts as [|adjust rest IH]; intros today w today_rows Hload Hsub Hnew.
  - exists today, w. simpl. unfold ret. auto 10.
  - destruct (merge_adjust_run h0 wd cw adjust today w today_rows Hload Hsub Hnew)
      as (today1 & w1 & Hrun & Hload1 & Hsub1 & Hnew1 & Hs1 & Hc1 & Ht1).
    destruct (IH today1 w1 _ Hload1 Hsub1 Hnew1)
      as (today2 & w2 & Hrun2 & Hload2 & Hsub2 & Hnew2 & Hs2 & Hc2 & Ht2).
    exists today2, w2. simpl merge_adjusts. rewrite (bind_run _ _ _ _ _ Hrun).
    split; [exact Hrun2|]. split; [exact Hload2|].
    split; [exact Hsub2|]. split; [exact Hnew2|].
    split; [congruence|]. split; congruence.
Qed.

(** The run of [get_today_courses] on a session that holds a schedule. *)
Lemma get_today_courses_run (w : world) (data : loc) (df : frame) :
  course_data (sess w) = Some data ->
  heap w !! data = Some df ->
  exists out w' week,
    get_today_courses w = (Ok out, w')
    /\ fst (get_week_num (tick w)) = Ok week
    /\ heap w' !! out
       = Some (mkFrame (sorted_rows
                          (merged (Datetime.isoweekday (clock w (ticks w))) week
                                  (adjust_courses (sess w)) (rows df)))
                       None)
    /\ heap w ⊆ heap w'
    /\ sess w' = sess w /\ clock w' = clock w.
Proof.
  intros Hcd Hdf.
  destruct (get_week_num_total (tick w)) as (week & n & Hweek).
  set (wd := Datetime.isoweekday (clock w (ticks w))).
  set (w2 := mkWorld (heap (tick w)) (sess (tick w)) (clock (tick w)) n) in *.
  set (today0 := mkFrame (selected wd week (rows df)) None).
  set (l0 := fresh (dom (heap w))).
  set (w3 := mkWorld (<[l0 := today0]> (heap w)) (sess w) (clock w) n).
  destruct (merge_adjusts_run (heap w) wd week (adjust_courses (sess w)) l0 w3
              (selected wd week (rows df)))
    as (today & w4 & Hmerge & Hload4 & Hsub4 & Hnew4 & Hs4 & Hc4 & Ht4).
  { unfold w3. cbn. apply lookup_insert_eq. }
  { unfold w3. cbn. now apply alloc_keeps. }
  { now apply fresh_outside. }
  fold (merged wd week (adjust_courses (sess w)) (rows df)) in Hload4.
  set (mrows := merged wd week (adjust_courses (sess w)) (rows df)) in *.
  destruct (sort_values_keyed mrows) as (Hsort & _).
  set (keyed := mkFrame mrows (Some (map start_key mrows))).
  set (w5 := mkWorld (<[today := keyed]> (heap w4)) (sess w4) (clock w4) (ticks w4)).
  set (srt := mkFrame (sorted_rows mrows) (Some (map start_key (sorted_rows mrows)))) in *.
  set (l6 := fresh (dom (heap w5))).
  set (w6 := mkWorld (<[l6 := srt]> (heap w5)) (sess w5) (clock w5) (ticks w5)).
  set (l7 := fresh (dom (heap w6))).
  set (w7 := mkWorld (<[l7 := drop_start_obj srt]> (heap w6)) (sess w6) (clock w6) (ticks w6)).
  exists l7, w7, week.
  assert (Hrun : get_today_courses w = (Ok l7, w7)).
  { unfold get_today_courses.
    unfold bind at 1. unfold gets at 1. rewrite Hcd.
    unfold bind at 1. unfold now at 1.
    fold (tick w). fold wd.
    rewrite (bind_run _ _ _ _ _ Hweek).
    unfold bind at 1. unfold load at 1. unfold w2. cbn [heap tick]. rewrite Hdf.
    rewrite (omap_total _ (fun r => matches (weeks r) week))
      by (intros; apply check_week_range_Ok).
    unfold bind at 1. unfold lift at 1.
    rewrite select_selected.
    unfold bind at 1. unfold alloc at 1. cbn [heap sess clock ticks tick].
    fold today0. fold l0. fold w3.
    unfold bind at 1. unfold gets at 1. cbn [sess].
    replace (sess w3) with (sess w) by reflexivity.
    rewrite (bind_run _ _ _ _ _ Hmerge).
    unfold bind at 1. unfold load at 1. rewrite Hload4.
    unfold bind at 1. unfold store at 1. cbn [rows].
    fold mrows. change (fun r : Row => parse_course_time (start_time r)) with start_key.
    fold keyed. fold w5.
    unfold bind at 1. unfold load at 1.
    replace (heap w5 !! today) with (Some keyed) by (unfold w5; cbn; now rewrite lookup_insert_eq).
    unfold bind at 1. unfold lift at 1. unfold keyed. rewrite Hsort.
    unfold bind at 1. unfold alloc at 1.
    fold l6. fold w6. unfold alloc. fold l7. reflexivity. }
  split; [exact Hrun|].
  split; [rewrite Hweek; reflexivity|].
  split; [unfold w7; cbn; now rewrite lookup_insert_eq|].
  split.
  - unfold w7, w6, w5. cbn.
    apply alloc_keeps, alloc_keeps. apply insert_subseteq_r; assumption.
  - unfold w7, w6, w5. cbn. unfold w3 in Hs4, Hc4. cbn in Hs4, Hc4.
    split; assumption.
Qed.

(** Without a schedule the result is a new empty table. *)
Lemma get_today_courses_none (w : world) :
  course_data (sess w) = None ->
  get_today_courses w
  = (Ok (fresh (dom (heap w))),
     mkWorld (<[fresh (dom (heap w)) := empty_frame]> (heap w)) (sess w) (clock w) (ticks w)).
Proof.
  intros Hcd. unfold get_today_courses, bind, gets. rewrite Hcd. reflexivity.
Qed.

(** The reference in [course_data] may dangle in a world built by hand;
    the load then raises, before anything is written. *)
Lemma get_today_courses_dangling (w : world) (data : loc) :
  course_data (sess w) = Some data ->
  heap w !! data = None ->
  exists n, get_today_courses w
            = (Raise KeyError, mkWorld (heap w) (sess w) (clock w) n).
Proof.
  intros Hcd Hdf.
  destruct (get_week_num_total (tick w)) as (week & n & Hweek).
  exists n. unfold get_today_courses.
  unfold bind at 1. unfold gets at 1. rewrite Hcd.
  unfold bind at 1. unfold now at 1. fold (tick w).
  rewrite (bind_run _ _ _ _ _ Hweek).
  unfold bind at 1. unfold load at 1. cbn [heap tick]. rewrite Hdf. reflexivity.
Qed.

(** C9.  Computing today's courses changes neither the session -- in
    particular not the reference to the schedule and not the list of
    adjustments -- nor any frame that existed before the call: the
    schedule stored in the session is the same frame with the same rows
    afterwards.  The merge writes only to the copy made at the start and to
    new objects. *)
Theorem today_courses_leave_state_alone (w : world) :
  let w' := snd (get_today_courses w) in
  course_data (sess w') = course_data (sess w)
  /\ adjust_courses (sess w') = adjust_courses (sess w)
  /\ sess w' = sess w
  /\ (forall l f, heap w !! l = Some f -> heap w' !! l = Some f)
  /\ (forall data df, course_data (sess w) = Some data -> heap w !! data = Some df ->
        course_data (sess w') = Some data /\ heap w' !! data = Some df).
Proof.
  assert (H : sess (snd (get_today_courses w)) = sess w
              /\ heap w ⊆ heap (snd (get_today_courses w))).
  { destruct (course_data (sess w)) as [data|] eqn:Hcd.
    - destruct (heap w !! data) as [df|] eqn:Hdf.
      + destruct (get_today_courses_run w data df Hcd Hdf)
          as (out & w' & week & Hrun & _ & _ & Hsub & Hs & _).
        rewrite Hrun. simpl. auto.
      + destruct (get_today_courses_dangling w data Hcd Hdf) as (n & Hrun).
        rewrite Hrun. simpl. auto.
    - rewrite (get_today_courses_none w Hcd). simpl. split; [reflexivity|].
      now apply alloc_keeps. }
  destruct H as [Hs Hsub]. cbv zeta.
  split; [now rewrite Hs|]. split; [now rewrite Hs|]. split; [exact Hs|].
  split.
  - intros l f Hl. eapply lookup_weaken; eassumption.
  - intros data df Hcd Hdf. split; [now rewrite Hs|].
    eapply lookup_weaken; eassumption.
Qed.

(** ** The merge *)

Lemma targets_spec adjust r :
  targets adjust r = true
  <-> start_time r = orig_start adjust /\ course_name r = orig_name adjust.
Proof.
  unfold targets. rewrite andb_true_iff, !String.eqb_eq. reflexivity.
Qed.

(** C1 (as amended).  When the session holds a schedule,
    [get_today_courses] returns the rows of [merged] in the order
    [sort_values] gives them: the selected rows, to which each adjustment
    of the list is applied in turn by [replace_or_append], ascending by
    parsed start time.  For an adjustment of today's weekday whose week
    range matches the current week, [replace_or_append] gives every row
    whose (start time, course name) equals the adjustment's (original start
    time, original course name) the adjustment's new name, place, teacher,
    start and end, keeping its weekday and week range and its position, and
    leaves the other rows as they are; when no row has that key, it adds
    one row built from the adjustment's new fields at the end.  Either way
    the rows take part in the sort that follows. *)
Theorem merge_is_replace_or_append (w : world) (data : loc) (df : frame) :
  course_data (sess w) = Some data ->
  heap w !! data = Some df ->
  exists out w' week,
    get_today_courses w = (Ok out, w')
    /\ fst (get_week_num (tick w)) = Ok week
    /\ let today_weekday := Datetime.isoweekday (clock w (ticks w)) in
       let result := sorted_rows (merged today_weekday week (adjust_courses (sess w)) (rows df)) in
       heap w' !! out = Some (mkFrame result None)
       /\ Permutation result
            (fold_left (replace_or_append today_weekday week) (adjust_courses (sess w))
               (selected today_weekday week (rows df)))
       /\ StronglySorted by_start result
       /\ forall (today : list Row) (adjust : Adjust),
            adj_weekday adjust = today_weekday ->
            check_week_range (PyStr (adj_weeks adjust)) week = Ok true ->
            let hit r := start_time r = orig_start adjust
                         /\ course_name r = orig_name adjust in
            (Exists hit today ->
               length (replace_or_append today_weekday week today adjust) = length today
               /\ forall i r, nth_error today i = Some r ->
                    (hit r ->
                       nth_error (replace_or_append today_weekday week today adjust) i
                       = Some (mkRow (weekday r) (new_start adjust) (new_end adjust)
                                 (new_name adjust) (new_place adjust)
                                 (new_teacher adjust) (weeks r)))
                    /\ (~ hit r ->
                          nth_error (replace_or_append today_weekday week today adjust) i
                          = Some r))
            /\ (~ Exists hit today ->
                  replace_or_append today_weekday week today adjust
                  = (today ++ [mkRow (adj_weekday adjust) (new_start adjust)
                                 (new_end adjust) (new_name adjust) (new_place adjust)
                                 (new_teacher adjust) (PyStr (adj_weeks adjust))])%list).
Proof.
  intros Hcd Hdf.
  destruct (get_today_courses_run w data df Hcd Hdf)
    as (out & w' & week & Hrun & Hweek & Hout & _).
  exists out, w', week. split; [exact Hrun|]. split; [exact Hweek|].
  cbv zeta. split; [exact Hout|].
  destruct (sort_values_keyed
              (merged (Datetime.isoweekday (clock w (ticks w))) week
                 (adjust_courses (sess w)) (rows df))) as (_ & Hperm & Hsorted & _).
  split; [exact Hperm|]. split; [exact Hsorted|].
  intros today adjust Hwd Hweeks.
  assert (Happ : applies (Datetime.isoweekday (clock w (ticks w))) week adjust = true).
  { unfold applies, matches. rewrite Hweeks, Hwd, Z.eqb_refl. reflexivity. }
  unfold replace_or_append. rewrite Happ.
  split.
  - intros Hex.
    assert (Hb : existsb (targets adjust) today = true).
    { apply existsb_exists. apply List.Exists_exists in Hex as (r & Hin & Hr).
      exists r. split; [exact Hin | now apply targets_spec]. }
    rewrite Hb. split; [apply length_map|].
    intros i r Hi. rewrite nth_error_map, Hi. simpl.
    split.
    + intros Hr. apply targets_spec in Hr. rewrite Hr. reflexivity.
    + intros Hr. destruct (targets adjust r) eqn:E; [|reflexivity].
      apply targets_spec in E. contradiction.
  - intros Hnone.
    assert (Hb : existsb (targets adjust) today = false).
    { destruct (existsb (targets adjust) today) eqn:E; [|reflexivity].
      exfalso. apply Hnone. apply existsb_exists in E as (r & Hin & Hr).
      apply List.Exists_exists. exists r. split; [exact Hin | now apply targets_spec]. }
    rewrite Hb. reflexivity.
Qed.

(** C4 (as amended).  When the session holds a schedule, the table
    returned holds exactly the merged rows, ascending by parsed start time;
    and when there are at most 17 merged rows, rows with equal parsed start
    times keep the order they had before the sort. *)
Theorem today_courses_sorted (w : world) (data : loc) (df : frame) :
  course_data (sess w) = Some data ->
  heap w !! data = Some df ->
  exists out w' week result,
    get_today_courses w = (Ok out, w')
    /\ fst (get_week_num (tick w)) = Ok week
    /\ heap w' !! out = Some (mkFrame result None)
    /\ let before := merged (Datetime.isoweekday (clock w (ticks w))) week
                       (adjust_courses (sess w)) (rows df) in
       Permutation result before
       /\ StronglySorted by_start result
       /\ ((length before <= 17)%nat ->
           forall t, List.filter (fun r => start_key r =? t) result
                     = List.filter (fun r => start_key r =? t) before).
Proof.
  intros Hcd Hdf.
  destruct (get_today_courses_run w data df Hcd Hdf)
    as (out & w' & week & Hrun & Hweek & Hout & _).
  exists out, w', week. eexists.
  split; [exact Hrun|]. split; [exact Hweek|]. split; [exact Hout|].
  cbv zeta.
  destruct (sort_values_keyed
              (merged (Datetime.isoweekday (clock w (ticks w))) week
                 (adjust_courses (sess w)) (rows df))) as (_ & Hperm & Hsorted & Hstable).
  auto.
Qed.

(** ** The reminder *)

Lemma due_dec t remind_time course :
  ((t <=? Datetime.combine (Datetime.date_of t) (parse_course_time (start_time course)))
   && (Datetime.combine (Datetime.date_of t) (parse_course_time (start_time course))
       <=? remind_time)) = true
  <-> due t remind_time course.
Proof. unfold due, start_key. rewrite andb_true_iff, !Z.leb_le. reflexivity. Qed.

Lemma first_due_Some t remind_time courses r :
  first_due t remind_time courses = Some r
  <-> exists before after, courses = (before ++ r :: after)%list
        /\ due t remind_time r /\ Forall (fun x => ~ due t remind_time x) before.
Proof.
  induction courses as [|c rest IH]; simpl.
  - split; [discriminate|]. intros (before & after & E & _). now destruct before.
  - destruct ((t <=? _) && (_ <=? remind_time)) eqn:E.
    + apply due_dec in E. split.
      * intros H. injection H as <-. exists [], rest. auto.
      * intros (before & after & Heq & Hr & Hb). destruct before as [|b before].
        -- simpl in Heq. now injection Heq as <- _.
        -- simpl in Heq. injection Heq as <- _. now inversion Hb.
    + assert (Hc : ~ due t remind_time c) by (rewrite <- due_dec, E; discriminate).
      rewrite IH. split.
      * intros (before & after & -> & Hr & Hb). exists (c :: before), after. auto.
      * intros (before & after & Heq & Hr & Hb). destruct before as [|b before].
        -- simpl in Heq. injection Heq as <- _. contradiction.
        -- simpl in Heq. injection Heq as <- ->. exists before, after.
           split; [reflexivity|]. split; [exact Hr | now inversion Hb].
Qed.

Lemma first_due_None t remind_time courses :
  first_due t remind_time courses = None
  <-> Forall (fun x => ~ due t remind_time x) courses.
Proof.
  induction courses as [|c rest IH]; simpl.
  - split; [constructor | reflexivity].
  - destruct ((t <=? _) && (_ <=? remind_time)) eqn:E.
    + apply due_dec in E. split; [discriminate|]. intros H. inversion H. contradiction.
    + assert (Hc : ~ due t remind_time c) by (rewrite <- due_dec, E; discriminate).
      rewrite IH. split; [now constructor | intros H; now inversion H].
Qed.

(** [get_today_courses] returns a table whenever the schedule reference,
    if there is one, points to a frame. *)
Lemma get_today_courses_total (w : world) :
  (forall data, course_data (sess w) = Some data -> exists df, heap w !! data = Some df) ->
  exists out w' today,
    get_today_courses w = (Ok out, w') /\ heap w' !! out = Some today
    /\ sess w' = sess w /\ clock w' = clock w.
Proof.
  intros Hwf. destruct (course_data (sess w)) as [data|] eqn:Hcd.
  - destruct (Hwf data eq_refl) as [df Hdf].
    destruct (get_today_courses_run w data df Hcd Hdf)
      as (out & w' & week & Hrun & _ & Hout & _ & Hs & Hc).
    eauto 10.
  - rewrite (get_today_courses_none w Hcd). eexists _, _, _.
    split; [reflexivity|]. cbn. rewrite lookup_insert_eq. auto.
Qed.

(** C2.  The loop over today's table returns the first row, in the order
    of the table, whose start time on today's date lies between now and
    now plus the lookahead, and none when no row does; [check_remind]
    stores that answer, and stores none without looking at the clock when
    the table is empty. *)
Theorem reminder_is_first_in_window (courses : list Row) (t m : Z) (w : world) :
  let window r := due t (Datetime.add_minutes t m) r in
  (forall r, first_due t (Datetime.add_minutes t m) courses = Some r
             <-> exists before after, courses = (before ++ r :: after)%list
                   /\ window r /\ Forall (fun x => ~ window x) before)
  /\ (first_due t (Datetime.add_minutes t m) courses = None
      <-> Forall (fun x => ~ window x) courses)
  /\ first_due t (Datetime.add_minutes t m) [] = None
  /\ ((forall data, course_data (sess w) = Some data ->
         exists df, heap w !! data = Some df) ->
      exists today_ref w1 today w2,
        get_today_courses w = (Ok today_ref, w1)
        /\ heap w1 !! today_ref = Some today
        /\ check_remind w = (Ok tt, w2)
        /\ current_remind (sess w2)
           = first_due (clock w1 (ticks w1))
               (Datetime.add_minutes (clock w1 (ticks w1)) (remind_minutes (sess w)))
               (rows today)
        /\ course_data (sess w2) = course_data (sess w)
        /\ adjust_courses (sess w2) = adjust_courses (sess w)).
Proof.
  cbv zeta. split; [intros r; apply first_due_Some|].
  split; [apply first_due_None|]. split; [reflexivity|].
  intros Hwf.
  destruct (get_today_courses_total w Hwf) as (out & w1 & today & Hrun & Hout & Hs & Hc).
  exists out, w1, today.
  assert (Hcr : check_remind w =
            if frame_empty today then set_current_remind None w1
            else (let* t := now in
                  let* minutes := gets remind_minutes in
                  set_current_remind
                    (first_due t (Datetime.add_minutes t minutes) (rows today))) w1).
  { unfold check_remind. rewrite (bind_run _ _ _ _ _ Hrun).
    unfold bind at 1. unfold load at 1. rewrite Hout.
    destruct (frame_empty today); reflexivity. }
  rewrite Hcr. unfold frame_empty.
  destruct (rows today) as [|c rest] eqn:Hrows.
  - eexists. split; [exact Hrun|]. split; [exact Hout|].
    unfold set_current_remind, bind, gets, set_sess. cbn.
    split; [reflexivity|]. cbn. split; [reflexivity|]. rewrite Hs. auto.
  - eexists. split; [exact Hrun|]. split; [exact Hout|].
    unfold set_current_remind, bind, gets, set_sess, now. cbn.
    split; [reflexivity|]. cbn. rewrite Hs. auto.
Qed.

(** ** Examples *)

Lemma today_courses_leave_state_alone_witness :
  adjust_courses (sess (snd (get_today_courses (loaded_world [math_to_physics; extra_seminar]))))
  = [math_to_physics; extra_seminar]
  /\ course_data (sess (snd (get_today_courses (loaded_world [math_to_physics; extra_seminar]))))
     = Some 0%nat
  /\ heap (snd (get_today_courses (loaded_world [math_to_physics; extra_seminar]))) !! 0%nat
     = Some monday_schedule.
Proof.
  destruct (today_courses_leave_state_alone (loaded_world [math_to_physics; extra_seminar]))
    as (_ & Hadj & _ & _ & Hdata).
  split; [exact Hadj|].
  exact (Hdata 0%nat monday_schedule eq_refl eq_refl).
Defined.

(** Math at 08:00 is replaced by Physics, the seminar that no row matches
    is added, and the table comes back ordered by start time. *)
Lemma merge_is_replace_or_append_witness :
  exists out w',
    get_today_courses (loaded_world [math_to_physics; extra_seminar]) = (Ok out, w')
    /\ heap w' !! out
       = Some (mkFrame
                 [mkRow 1 "07:30" "08:00" "Seminar" "B2" "" (PyStr "1-16");
                  mkRow 1 "08:00" "08:45" "Physics" "A101" "Li" (PyStr "1-16");
                  monday_art]
                 None).
Proof.
  destruct (merge_is_replace_or_append (loaded_world [math_to_physics; extra_seminar])
              0%nat monday_schedule eq_refl eq_refl)
    as (out & w' & week & Hrun & Hweek & Hout & _).
  assert (Hw : week = 1) by (vm_compute in Hweek; congruence).
  subst week. exists out, w'. split; [exact Hrun|].
  rewrite Hout. vm_compute. reflexivity.
Defined.

(** C1, the claim as stated, fails while no schedule is loaded: the
    adjustment is for today's weekday and its week range matches the current
    week, no row has its key, and yet the table returned is empty -- the
    synthetic row is not added. *)
Lemma adjustment_without_schedule_counterexample :
  adj_weekday extra_seminar = Datetime.isoweekday monday_0855
  /\ fst (get_week_num (tick (sample_world ∅ [extra_seminar] None monday_0855))) = Ok 1
  /\ check_week_range (PyStr (adj_weeks extra_seminar)) 1 = Ok true
  /\ exists out w',
       get_today_courses (sample_world ∅ [extra_seminar] None monday_0855) = (Ok out, w')
       /\ heap w' !! out = Some (mkFrame [] None).
Proof.
  split; [reflexivity|]. split; [reflexivity|]. split; [reflexivity|].
  eexists _, _. split; [vm_compute; reflexivity|]. vm_compute. reflexivity.
Qed.

Lemma today_courses_sorted_witness :
  exists out w' result,
    get_today_courses (loaded_world [math_to_physics; extra_seminar]) = (Ok out, w')
    /\ heap w' !! out = Some (mkFrame result None)
    /\ StronglySorted by_start result
    /\ forall t, List.filter (fun r => start_key r =? t) result
                 = List.filter (fun r => start_key r =? t)
                     (merged 1 1 [math_to_physics; extra_seminar] (rows monday_schedule)).
Proof.
  destruct (today_courses_sorted (loaded_world [math_to_physics; extra_seminar])
              0%nat monday_schedule eq_refl eq_refl)
    as (out & w' & week & result & Hrun & Hweek & Hout & _ & Hsorted & Hstable).
  assert (Hw : week = 1) by (vm_compute in Hweek; congruence).
  subst week. exists out, w', result.
  split; [exact Hrun|]. split; [exact Hout|]. split; [exact Hsorted|].
  apply Hstable. vm_compute. lia.
Defined.

(** C4, the claim as stated, fails for ties in a table of 18 rows: all
    eighteen courses start at 08:00 and are stored in the order c00 ... c17,
    and the table returned lists c15 ... c01 in reverse between c00 and
    c16. *)
Lemma sort_reorders_equal_starts_counterexample :
  Forall (fun r => start_key r = 480) (rows eighteen_at_eight)
  /\ map course_name (merged 1 1 [] (rows eighteen_at_eight)) = eighteen_names
  /\ exists out w' result,
       get_today_courses crowded_world = (Ok out, w')
       /\ heap w' !! out = Some (mkFrame result None)
       /\ map course_name result
          = ["c00"; "c15"; "c14"; "c13"; "c12"; "c11"; "c10"; "c09"; "c08";
             "c07"; "c06"; "c05"; "c04"; "c03"; "c02"; "c01"; "c16"; "c17"].
Proof.
  split; [repeat constructor|]. split; [reflexivity|].
  eexists _, _, _. split; [vm_compute; reflexivity|].
  split; [vm_compute; reflexivity|]. reflexivity.
Qed.

(** Five minutes before Art at 09:00, with a lookahead of ten minutes, Art
    is the reminder. *)
Lemma reminder_is_first_in_window_witness :
  exists w2,
    check_remind (loaded_world []) = (Ok tt, w2)
    /\ current_remind (sess w2) = Some monday_art.
Proof.
  destruct (reminder_is_first_in_window [] 0 0 (loaded_world []))
    as (_ & _ & _ & Hrun).
  destruct Hrun as (today_ref & w1 & today & w2 & Htoday & Hload & Hcheck & Hremind & _).
  { intros data Hdata. injection Hdata as <-. exists monday_schedule. reflexivity. }
  exists w2. split; [exact Hcheck|].
  rewrite Hremind.
  vm_compute in Htoday. injection Htoday as <- <-.
  vm_compute in Hload. injection Hload as <-.
  vm_compute. reflexivity.
Defined.

(** * Further properties *)

(** ** Finite ranges *)

Lemma zrange_In lo hi x : lo <= x < hi -> In x (zrange lo hi).
Proof.
  intros H. unfold zrange. apply in_map_iff.
  exists (Z.to_nat (x - lo)). split; [lia|].
  apply in_seq. lia.
Qed.

Lemma zrange_forallb (f : Z -> bool) lo hi :
  forallb f (zrange lo hi) = true ->
  forall x, lo <= x < hi -> f x = true.
Proof.
  intros H x Hx. rewrite forallb_forall in H. apply H. now apply zrange_In.
Qed.

(** ** Reading the clock face *)

Lemma first_alt_Some {A} alts s (k : string -> string -> option A) x :
  Datetime.first_alt alts s k = Some x ->
  exists a m rest, In a alts /\ Datetime.match_alt a s = Some (m, rest) /\ k m rest = Some x.
Proof.
  induction alts as [|a alts IH]; simpl; [discriminate|].
  destruct (Datetime.match_alt a s) as [[m rest]|] eqn:Ha.
  - destruct (k m rest) as [y|] eqn:Hk.
    + intros [= <-]. exists a, m, rest. auto.
    + intros H. destruct (IH H) as (a' & m' & rest' & Hin & Hm & Hk').
      exists a', m', rest'. auto.
  - intros H. destruct (IH H) as (a' & m' & rest' & Hin & Hm & Hk').
    exists a', m', rest'. auto.
Qed.

Lemma match_alt_1 k s m rest :
  Datetime.match_alt [k] s = Some (m, rest) ->
  exists c, m = String c "" /\ s = String c rest /\ Datetime.cls_ok k c = true.
Proof.
  simpl. destruct s as [|c r]; [discriminate|].
  destruct (Datetime.cls_ok k c) eqn:Hk; [|discriminate].
  intros [= <- <-]. exists c. auto.
Qed.

Lemma match_alt_2 k1 k2 s m rest :
  Datetime.match_alt [k1; k2] s = Some (m, rest) ->
  exists c1 c2, m = String c1 (String c2 "") /\ s = String c1 (String c2 rest)
    /\ Datetime.cls_ok k1 c1 = true /\ Datetime.cls_ok k2 c2 = true.
Proof.
  simpl. destruct s as [|c1 [|c2 r]]; try discriminate.
  - destruct (Datetime.cls_ok k1 c1); discriminate.
  - destruct (Datetime.cls_ok k1 c1) eqn:H1; [|discriminate].
    destruct (Datetime.cls_ok k2 c2) eqn:H2; [|discriminate].
    intros [= <- <-]. exists c1, c2. auto.
Qed.

Lemma digit_in_range c : 48 <= Py.code c <= 57 -> Py.digit c = Some (Py.code c - 48).
Proof.
  intros H. unfold Py.digit.
  replace (48 <=? Py.code c) with true by (symmetry; apply Z.leb_le; lia).
  replace (Py.code c <=? 57) with true by (symmetry; apply Z.leb_le; lia).
  reflexivity.
Qed.

Lemma isdigit_range c : Py.isdigit c = true -> 48 <= Py.code c <= 57.
Proof.
  unfold Py.isdigit, Py.digit.
  destruct (48 <=? Py.code c) eqn:H1; destruct (Py.code c <=? 57) eqn:H2;
    simpl; try discriminate.
  intros _. split; [now apply Z.leb_le | now apply Z.leb_le].
Qed.

Lemma rng_range lo hi c :
  Datetime.cls_ok (Datetime.Rng lo hi) c = true -> Py.code lo <= Py.code c <= Py.code hi.
Proof.
  simpl. intros H. apply andb_true_iff in H. destruct H as [H1 H2].
  split; [now apply Z.leb_le | now apply Z.leb_le].
Qed.

Lemma lit_eq l c : Datetime.cls_ok (Datetime.Lit l) c = true -> c = l.
Proof. simpl. apply Ascii.eqb_eq. Qed.

(** A string that opens with a digit is read without sign or blanks. *)
Lemma int_digit_head c r :
  48 <= Py.code c <= 57 ->
  Py.int (String c r) =
    match Py.unsigned_literal (String c r) with
    | Some v => Ok v
    | None => Raise ValueError
    end.
Proof.
  intros H.
  destruct c as [b0 b1 b2 b3 b4 b5 b6 b7].
  destruct b0, b1, b2, b3, b4, b5, b6, b7;
    try (exfalso; vm_compute in H; destruct H as [H1 H2];
         first [now apply H1 | now apply H2]);
    reflexivity.
Qed.

Lemma int_one_digit c :
  48 <= Py.code c <= 57 -> Py.int (String c "") = Ok (Py.code c - 48).
Proof.
  intros H. rewrite (int_digit_head c "" H).
  unfold Py.unsigned_literal. rewrite (digit_in_range c H). reflexivity.
Qed.

Lemma int_two_digits c1 c2 :
  48 <= Py.code c1 <= 57 -> 48 <= Py.code c2 <= 57 ->
  Py.int (String c1 (String c2 "")) = Ok ((Py.code c1 - 48) * 10 + (Py.code c2 - 48)).
Proof.
  intros H1 H2. rewrite (int_digit_head c1 _ H1).
  unfold Py.unsigned_literal. rewrite (digit_in_range c1 H1).
  cbn [Py.digits_loop]. rewrite (digit_in_range c2 H2). reflexivity.
Qed.

Lemma code_consts :
  Py.code "0" = 48 /\ Py.code "1" = 49 /\ Py.code "2" = 50 /\ Py.code "3" = 51
  /\ Py.code "5" = 53 /\ Py.code "9" = 57.
Proof. repeat split; reflexivity. Qed.

(** What the hour directive can match. *)
Lemma hour_group a s m rest h :
  In a Datetime.re_H -> Datetime.match_alt a s = Some (m, rest) ->
  Py.int m = Ok h -> 0 <= h <= 23.
Proof.
  destruct code_consts as (C0 & C1 & C2 & C3 & C5 & C9).
  intros Hin Hm Hint. unfold Datetime.re_H in Hin. simpl in Hin.
  destruct Hin as [<-|[<-|[<-|[]]]].
  - apply match_alt_2 in Hm. destruct Hm as (c1 & c2 & -> & _ & K1 & K2).
    apply lit_eq in K1. subst c1. apply rng_range in K2. rewrite C0, C3 in K2.
    rewrite int_two_digits in Hint by (rewrite ?C2; lia).
    injection Hint as <-. rewrite C2. lia.
  - apply match_alt_2 in Hm. destruct Hm as (c1 & c2 & -> & _ & K1 & K2).
    apply rng_range in K1. rewrite C0, C1 in K1.
    apply isdigit_range in K2.
    rewrite int_two_digits in Hint by lia.
    injection Hint as <-. lia.
  - apply match_alt_1 in Hm. destruct Hm as (c & -> & _ & K).
    apply isdigit_range in K.
    rewrite int_one_digit in Hint by lia.
    injection Hint as <-. lia.
Qed.

(** What the minute directive can match. *)
Lemma minute_group a s m rest v :
  In a Datetime.re_M -> Datetime.match_alt a s = Some (m, rest) ->
  Py.int m = Ok v -> 0 <= v <= 59.
Proof.
  destruct code_consts as (C0 & C1 & C2 & C3 & C5 & C9).
  intros Hin Hm Hint. unfold Datetime.re_M in Hin. simpl in Hin.
  destruct Hin as [<-|[<-|[]]].
  - apply match_alt_2 in Hm. destruct Hm as (c1 & c2 & -> & _ & K1 & K2).
    apply rng_range in K1. rewrite C0, C5 in K1.
    apply isdigit_range in K2.
    rewrite int_two_digits in Hint by lia.
    injection Hint as <-. lia.
  - apply match_alt_1 in Hm. destruct Hm as (c & -> & _ & K).
    apply isdigit_range in K.
    rewrite int_one_digit in Hint by lia.
    injection Hint as <-. lia.
Qed.

Lemma strptime_hm_in_day s t :
  Datetime.strptime_hm s = Ok t -> 0 <= t <= 1439.
Proof.
  unfold Datetime.strptime_hm, Datetime.strptime_groups.
  destruct (Datetime.re_match _ s) as [[groups rest]|] eqn:Hre; [|discriminate].
  destruct rest; [|discriminate].
  cbn [Datetime.re_match] in Hre.
  apply first_alt_Some in Hre. destruct Hre as (aH & gh & r1 & HinH & HmH & Hre).
  destruct (Datetime.first_alt (Datetime.re_lit ":") r1 _) as [[g1 rest1]|] eqn:Hc;
    [|discriminate].
  injection Hre as <- ->.
  apply first_alt_Some in Hc. destruct Hc as (aC & gc & r2 & _ & _ & Hc).
  destruct (Datetime.first_alt Datetime.re_M r2 _) as [[g2 rest2]|] eqn:HM;
    [|discriminate].
  injection Hc as <- ->.
  apply first_alt_Some in HM. destruct HM as (aM & gm & r3 & HinM & HmM & HM).
  injection HM as <- ->.
  cbn [obind].
  destruct (Py.int gh) as [hour|] eqn:Hh; [|discriminate].
  destruct (Py.int gm) as [minute|] eqn:Hmin; [|discriminate].
  cbn [obind]. intros [= <-].
  pose proof (hour_group _ _ _ _ _ HinH HmH Hh).
  pose proof (minute_group _ _ _ _ _ HinM HmM Hmin).
  lia.
Qed.

(** X1.  [parse_course_time] always answers with a time of day: a number
    of minutes from 0 (00:00) to 1439 (23:59), whatever the text. *)
Theorem parse_course_time_in_day (time_str : string) :
  0 <= parse_course_time time_str <= 1439.
Proof.
  unfold parse_course_time.
  destruct (Datetime.strptime_hm time_str) as [t|e] eqn:H; [|lia].
  exact (strptime_hm_in_day _ _ H).
Qed.

Lemma two_digit_table :
  forallb (fun h =>
    forallb (fun m =>
      let expected := if (h <? 24) && (m <? 60) then h * 60 + m else 0 in
      (parse_course_time (padded_time h m) =? expected)
      && (parse_course_time (plain_time h m) =? expected))
      (zrange 0 100))
    (zrange 0 100) = true.
Proof. vm_compute. reflexivity. Qed.

(** X2.  For hour and minute fields of up to two digits, written with or
    without leading zeros, [parse_course_time] gives the minutes after
    midnight when the hour is below 24 and the minute below 60, and
    midnight for every other pair. *)
Theorem parse_course_time_fields (h m : Z) :
  0 <= h <= 99 -> 0 <= m <= 99 ->
  let expected := if (h <? 24) && (m <? 60) then h * 60 + m else 0 in
  parse_course_time (padded_time h m) = expected
  /\ parse_course_time (plain_time h m) = expected.
Proof.
  intros Hh Hm expected.
  pose proof (zrange_forallb _ 0 100 two_digit_table h ltac:(lia)) as H.
  cbv beta in H.
  pose proof (zrange_forallb _ 0 100 H m ltac:(lia)) as H'.
  cbv beta zeta in H'. apply andb_true_iff in H'. destruct H' as [H1 H2].
  split; [now apply Z.eqb_eq | now apply Z.eqb_eq].
Qed.

Lemma parse_course_time_fields_witness :
  parse_course_time "08:05" = 485 /\ parse_course_time "8:5" = 485.
Proof.
  exact (parse_course_time_fields 8 5 ltac:(lia) ltac:(lia)).
Defined.

(** ** Texts that do not read as a time *)









(** ** Writing and reading the semester start *)

Lemma year_table :
  forallb (fun y =>
    match Py.decimal y with
    | String c1 (String c2 (String c3 (String c4 EmptyString))) =>
        Py.isdigit c1 && Py.isdigit c2 && Py.isdigit c3 && Py.isdigit c4
        && match Py.int (Py.decimal y) with Ok v => v =? y | Raise _ => false end
    | _ => false
    end) (zrange 1000 10000) = true.
Proof. vm_compute. reflexivity. Qed.

Lemma year_digits y :
  1000 <= y <= 9999 ->
  exists c1 c2 c3 c4,
    Py.decimal y = String c1 (String c2 (String c3 (String c4 EmptyString)))
    /\ Py.isdigit c1 = true /\ Py.isdigit c2 = true
    /\ Py.isdigit c3 = true /\ Py.isdigit c4 = true
    /\ Py.int (Py.decimal y) = Ok y.
Proof.
  intros Hy.
  pose proof (zrange_forallb _ 1000 10000 year_table y ltac:(lia)) as H.
  cbv beta in H.
  destruct (Py.decimal y) as [|c1 [|c2 [|c3 [|c4 [|? ?]]]]]; try discriminate H.
  destruct (Py.int _) as [v|e]; [|rewrite andb_false_r in H; discriminate H].
  repeat (apply andb_true_iff in H; destruct H as [H ?]).
  exists c1, c2, c3, c4. repeat split; try assumption.
  f_equal. now apply Z.eqb_eq.
Qed.

Lemma month_day_table :
  forallb (fun m =>
    forallb (fun d =>
      match Datetime.re_match
              [Datetime.re_lit "-"; Datetime.re_m; Datetime.re_lit "-"; Datetime.re_d]
              ("-" ++ zero_pad 2 m ++ "-" ++ zero_pad 2 d)%string with
      | Some ([_; gm; _; gd], EmptyString) =>
          match Py.int gm, Py.int gd with
          | Ok vm, Ok vd => (vm =? m) && (vd =? d)
          | _, _ => false
          end
      | _ => false
      end) (zrange 1 32)) (zrange 1 13) = true.
Proof. vm_compute. reflexivity. Qed.

Lemma days_in_month_le year month : Datetime.days_in_month year month <= 31.
Proof.
  unfold Datetime.days_in_month.
  destruct ((month =? 2) && Datetime.is_leap year); [lia|].
  generalize (Z.to_nat month) as k. intros k.
  do 13 (destruct k as [|k]; [simpl; lia|]).
  simpl. destruct k; lia.
Qed.

Lemma ymd2ord_Ok year month day ordinal :
  Datetime.ymd2ord year month day = Ok ordinal ->
  1 <= year <= 9999 /\ 1 <= month <= 12 /\ 1 <= day <= 31.
Proof.
  unfold Datetime.ymd2ord.
  destruct (_ && _) eqn:H; [|discriminate]. intros _.
  repeat (apply andb_true_iff in H; destruct H as [H ?]).
  pose proof (days_in_month_le year month).
  repeat match goal with
         | K : (_ <=? _) = true |- _ => apply Z.leb_le in K
         end.
  lia.
Qed.

Lemma re_match_year p c1 c2 c3 c4 tail :
  Py.isdigit c1 = true -> Py.isdigit c2 = true ->
  Py.isdigit c3 = true -> Py.isdigit c4 = true ->
  Datetime.re_match (Datetime.re_Y :: p) (String c1 (String c2 (String c3 (String c4 tail))))
  = match Datetime.re_match p tail with
    | Some (groups, rest) =>
        Some (String c1 (String c2 (String c3 (String c4 ""))) :: groups, rest)
    | None => None
    end.
Proof.
  intros D1 D2 D3 D4.
  cbn [Datetime.re_match]. unfold Datetime.re_Y.
  cbn [Datetime.first_alt Datetime.match_alt Datetime.cls_ok].
  rewrite D1, D2, D3, D4.
  destruct (Datetime.re_match p tail) as [[groups rest]|]; reflexivity.
Qed.

Lemma strptime_strftime (year month day ordinal : Z) :
  1000 <= year ->
  Datetime.ymd2ord year month day = Ok ordinal ->
  Datetime.strptime_ymd (strftime_ymd year month day) = Ok (Datetime.midnight ordinal).
Proof.
  intros Hy Hord.
  destruct (ymd2ord_Ok _ _ _ _ Hord) as (Hyear & Hmonth & Hday).
  destruct (year_digits year ltac:(lia)) as (c1 & c2 & c3 & c4 & Hdec & D1 & D2 & D3 & D4 & Hint).
  pose proof (zrange_forallb _ 1 13 month_day_table month ltac:(lia)) as H.
  cbv beta in H.
  pose proof (zrange_forallb _ 1 32 H day ltac:(lia)) as Htail. clear H.
  cbv beta in Htail.
  unfold strftime_ymd. rewrite Hdec in *.
  set (tail := ("-" ++ zero_pad 2 month ++ "-" ++ zero_pad 2 day)%string) in *.
  unfold Datetime.strptime_ymd, Datetime.strptime_groups.
  change ((String c1 (String c2 (String c3 (String c4 ""))) ++ tail)%string)
    with (String c1 (String c2 (String c3 (String c4 tail)))).
  rewrite (re_match_year _ c1 c2 c3 c4 tail D1 D2 D3 D4).
  destruct (Datetime.re_match _ tail) as [[groups rest]|]; [|discriminate Htail].
  destruct groups as [|g1 [|gm [|g3 [|gd [|? ?]]]]]; try discriminate Htail.
  destruct rest; [|discriminate Htail].
  cbn [obind]. rewrite Hint. cbn [obind].
  destruct (Py.int gm) as [vm|]; [|discriminate Htail].
  destruct (Py.int gd) as [vd|]; [|discriminate Htail].
  apply andb_true_iff in Htail. destruct Htail as [Hm Hd].
  apply Z.eqb_eq in Hm, Hd. subst vm vd.
  cbn [obind]. rewrite Hord. reflexivity.
Qed.

(** X4.  The text the date picker stores reads back as the date picked:
    for every date from the year 1000 on, [strptime] of its [strftime]
    form is the midnight of that date. *)
Theorem semester_start_reads_back (year month day ordinal : Z) :
  1000 <= year ->
  Datetime.ymd2ord year month day = Ok ordinal ->
  Datetime.strptime_ymd (strftime_ymd year month day) = Ok (Datetime.midnight ordinal).
Proof. apply strptime_strftime. Qed.

Lemma semester_start_reads_back_witness :
  Datetime.strptime_ymd (strftime_ymd 2025 9 1) = Ok (Datetime.midnight 739495).
Proof.
  apply (semester_start_reads_back 2025 9 1 739495); [lia | reflexivity].
Defined.

(** ** The week number over time *)

Lemma get_week_num_at w :
  fst (get_week_num w) = Ok (week_at (semester_start (sess w)) (clock w (ticks w))).
Proof.
  unfold week_at.
  destruct (Datetime.strptime_ymd (semester_start (sess w))) as [start|e] eqn:Hs.
  - now rewrite (get_week_num_run w start Hs).
  - now rewrite (get_week_num_fallback w e Hs).
Qed.

Lemma week_at_nonneg s t : 0 <= week_at s t.
Proof.
  unfold week_at. destruct (Datetime.strptime_ymd s) as [start|e]; [|lia].
  destruct (Z.ltb_spec t start); [lia|].
  unfold Datetime.days_between, Datetime.us_per_day.
  assert (0 <= (t - start) / 86400000000) by (apply Z.div_pos; lia).
  assert (0 <= (t - start) / 86400000000 / 7) by (apply Z.div_pos; lia).
  lia.
Qed.

Lemma week_at_mono s t1 t2 : t1 <= t2 -> week_at s t1 <= week_at s t2.
Proof.
  intros Ht. pose proof (week_at_nonneg s t2) as Hnn. revert Hnn.
  unfold week_at. destruct (Datetime.strptime_ymd s) as [start|e]; [|lia].
  destruct (Z.ltb_spec t1 start); [lia|].
  destruct (Z.ltb_spec t2 start); [lia|].
  intros _. unfold Datetime.days_between, Datetime.us_per_day.
  assert ((t1 - start) / 86400000000 <= (t2 - start) / 86400000000)
    by (apply Z.div_le_mono; lia).
  assert ((t1 - start) / 86400000000 / 7 <= (t2 - start) / 86400000000 / 7)
    by (apply Z.div_le_mono; lia).
  lia.
Qed.

Lemma week_at_next s start t :
  Datetime.strptime_ymd s = Ok start -> start <= t ->
  week_at s (t + 7 * Datetime.us_per_day) = week_at s t + 1.
Proof.
  intros Hs Ht. unfold week_at. rewrite Hs.
  unfold Datetime.days_between, Datetime.us_per_day.
  destruct (Z.ltb_spec t start); [lia|].
  destruct (Z.ltb_spec (t + 7 * 86400000000) start); [lia|].
  replace (t + 7 * 86400000000 - start) with (t - start + 7 * 86400000000) by lia.
  rewrite Z.div_add by lia.
  replace ((t - start) / 86400000000 + 7) with ((t - start) / 86400000000 + 1 * 7) by lia.
  rewrite Z.div_add by lia. lia.
Qed.

(** X5.  [get_week_num] never answers a negative week; with the same
    stored semester start a later clock never gives a smaller week; and,
    from the semester start on, a clock seven days later gives the next
    week. *)
Theorem week_number_over_time (w1 w2 : world) :
  semester_start (sess w2) = semester_start (sess w1) ->
  exists week1 week2,
    fst (get_week_num w1) = Ok week1
    /\ fst (get_week_num w2) = Ok week2
    /\ 0 <= week1
    /\ (clock w1 (ticks w1) <= clock w2 (ticks w2) -> week1 <= week2)
    /\ (forall start,
          Datetime.strptime_ymd (semester_start (sess w1)) = Ok start ->
          start <= clock w1 (ticks w1) ->
          clock w2 (ticks w2) = clock w1 (ticks w1) + 7 * Datetime.us_per_day ->
          week2 = week1 + 1).
Proof.
  intros Hs.
  exists (week_at (semester_start (sess w1)) (clock w1 (ticks w1))),
         (week_at (semester_start (sess w1)) (clock w2 (ticks w2))).
  split; [apply get_week_num_at|].
  split; [rewrite <- Hs; apply get_week_num_at|].
  split; [apply week_at_nonneg|].
  split; [apply week_at_mono|].
  intros start Hstart Hle ->. now apply (week_at_next _ start).
Qed.

Lemma week_number_over_time_witness :
  exists week1 week2,
    fst (get_week_num (loaded_world [])) = Ok week1
    /\ fst (get_week_num (loaded_world [])) = Ok week2
    /\ 0 <= week1 /\ week1 <= week2.
Proof.
  destruct (week_number_over_time (loaded_world []) (loaded_world []) eq_refl)
    as (week1 & week2 & H1 & H2 & H0 & Hmono & _).
  exists week1, week2.
  split; [exact H1|]. split; [exact H2|]. split; [exact H0|].
  apply Hmono. vm_compute. discriminate.
Defined.

(** ** The date picker *)

Lemma semester_block_run w year month day :
  semester_block (year, month, day) w =
    match Datetime.strptime_ymd (semester_start (sess w)) with
    | Ok _ =>
        (Ok tt,
         mkWorld (heap w)
           (mkSession (course_data (sess w)) (remind_minutes (sess w))
                      (adjust_courses (sess w)) (current_remind (sess w))
                      (strftime_ymd year month day))
           (clock w) (ticks w))
    | Raise e => (Raise e, w)
    end.
Proof.
  unfold semester_block, bind, gets, lift, set_semester_start, set_sess.
  destruct (Datetime.strptime_ymd (semester_start (sess w))); reflexivity.
Qed.

(** X6.  When the stored semester start reads as a date, the date picker
    block stores the picked date (from the year 1000 on) and changes
    nothing else, and from then on [get_week_num] counts from the midnight
    of the picked date: 0 before it, else the whole days elapsed (of
    86400 seconds each), divided by 7 and rounded down, plus 1, that is
    [k + 1] throughout the block of seven days number [k].  When the
    stored text does not read as a date, the block raises and stores
    nothing. *)
Theorem picked_date_counts_weeks (w : world) (year month day ordinal : Z) :
  1000 <= year ->
  Datetime.ymd2ord year month day = Ok ordinal ->
  let run := semester_block (year, month, day) w in
  let w' := snd run in
  let day_us := 86400000000 in
  let start := (ordinal - 1) * day_us in
  let today := clock w (ticks w) in
  ((exists old, Datetime.strptime_ymd (semester_start (sess w)) = Ok old) ->
     fst run = Ok tt
     /\ heap w' = heap w /\ clock w' = clock w /\ ticks w' = ticks w
     /\ course_data (sess w') = course_data (sess w)
     /\ remind_minutes (sess w') = remind_minutes (sess w)
     /\ adjust_courses (sess w') = adjust_courses (sess w)
     /\ current_remind (sess w') = current_remind (sess w)
     /\ Datetime.strptime_ymd (semester_start (sess w')) = Ok start
     /\ (today < start -> fst (get_week_num w') = Ok 0)
     /\ (start <= today ->
           fst (get_week_num w') = Ok ((today - start) / day_us / 7 + 1))
     /\ (forall k, 0 <= k ->
           start + 7 * k * day_us <= today < start + 7 * (k + 1) * day_us ->
           fst (get_week_num w') = Ok (k + 1)))
  /\ (forall e, Datetime.strptime_ymd (semester_start (sess w)) = Raise e ->
        run = (Raise e, w)).
Proof.
  intros Hy Hord run w' day_us start today. subst run w'.
  rewrite semester_block_run. split.
  - intros [old Hold]. rewrite Hold. cbn [fst snd heap clock ticks sess
      course_data remind_minutes adjust_courses current_remind semester_start].
    pose proof (strptime_strftime _ _ _ _ Hy Hord) as Hrt.
    change (Datetime.midnight ordinal) with start in Hrt.
    repeat (split; [reflexivity|]).
    split; [exact Hrt|].
    rewrite (get_week_num_run _ start) by exact Hrt.
    cbn [fst clock ticks]. fold today.
    unfold Datetime.days_between, Datetime.us_per_day. fold day_us.
    split; [|split].
    + intros H. apply Z.ltb_lt in H. now rewrite H.
    + intros H. apply Z.ltb_ge in H. now rewrite H.
    + intros k Hk H.
      replace (today <? start) with false by (symmetry; apply Z.ltb_ge; subst day_us; lia).
      subst day_us. now rewrite (week_block start today k Hk H).
  - intros e He. rewrite He. reflexivity.
Qed.

Lemma picked_date_counts_weeks_witness :
  fst (get_week_num (snd (semester_block (2025, 9, 8) (loaded_world [])))) = Ok 0
  /\ fst (get_week_num (snd (semester_block (2025, 8, 18) (loaded_world [])))) = Ok 3.
Proof.
  split.
  - destruct (picked_date_counts_weeks (loaded_world []) 2025 9 8 739502
                ltac:(lia) eq_refl) as [H _].
    destruct (H (ex_intro _ (Datetime.midnight 739495) eq_refl))
      as (_ & _ & _ & _ & _ & _ & _ & _ & _ & Hbefore & _).
    apply Hbefore. reflexivity.
  - destruct (picked_date_counts_weeks (loaded_world []) 2025 8 18 739481
                ltac:(lia) eq_refl) as [H _].
    destruct (H (ex_intro _ (Datetime.midnight 739495) eq_refl))
      as (_ & _ & _ & _ & _ & _ & _ & _ & _ & _ & _ & Hblock).
    apply (Hblock 2 ltac:(lia)). split; [discriminate | reflexivity].
Defined.

(** ** Week ranges that mix the two notations *)

Lemma contains_split c sep s :
  c <> sep ->
  Py.contains c s = existsb (Py.contains c) (Py.split sep s).
Proof.
  intros Hne. induction s as [|x r IH]; [reflexivity|].
  cbn [Py.split Py.contains].
  destruct (Ascii.eqb_spec x sep) as [->|Hx].
  - cbn [existsb Py.contains]. rewrite <- IH.
    destruct (Ascii.eqb_spec sep c) as [->|_]; [congruence|reflexivity].
  - destruct (Py.split sep r) as [|p ps] eqn:Hsp.
    + exfalso. exact (split_nonempty sep r Hsp).
    + cbn [existsb Py.contains] in *. rewrite IH. now rewrite orb_assoc.
Qed.

Lemma split_with sep s :
  Py.contains sep s = true -> exists a b rest, Py.split sep s = a :: b :: rest.
Proof.
  induction s as [|x r IH]; [discriminate|].
  cbn [Py.split Py.contains].
  destruct (Ascii.eqb_spec x sep) as [->|Hx].
  - intros _. destruct (Py.split sep r) as [|p ps] eqn:Hsp.
    + exfalso. exact (split_nonempty sep r Hsp).
    + exists EmptyString, p, ps. reflexivity.
  - cbn [orb]. intros H. destruct (IH H) as (a & b & rest & ->).
    exists (String x a), b, rest. reflexivity.
Qed.

Lemma all_space_no_comma s : Py.all_space s = true -> Py.contains "," s = false.
Proof.
  induction s as [|c r IH]; [reflexivity|].
  cbn [Py.all_space Py.contains]. intros H.
  apply andb_true_iff in H. destruct H as [Hc Hr].
  rewrite (IH Hr), orb_false_r.
  destruct (Ascii.eqb_spec c ",") as [->|]; [discriminate Hc|reflexivity].
Qed.

Lemma digits_loop_no_comma s : forall acc us v rest,
  Py.digits_loop acc us s = Some (v, rest) ->
  Py.contains "," rest = false -> Py.contains "," s = false.
Proof.
  induction s as [|c r IH]; intros acc us v rest.
  - reflexivity.
  - cbn [Py.digits_loop Py.contains].
    destruct (Py.digit c) as [d|] eqn:Hd.
    + intros H Hrest. rewrite (IH _ _ _ _ H Hrest), orb_false_r.
      destruct (Ascii.eqb_spec c ",") as [->|]; [discriminate Hd|reflexivity].
    + destruct (Ascii.eqb_spec c "_") as [->|Hus].
      * destruct us; [discriminate|].
        intros H Hrest. now rewrite (IH _ _ _ _ H Hrest).
      * destruct us; [discriminate|].
        intros [= <- <-] Hrest. exact Hrest.
Qed.

Lemma unsigned_literal_no_comma s v :
  Py.unsigned_literal s = Some v -> Py.contains "," s = false.
Proof.
  unfold Py.unsigned_literal. destruct s as [|c r]; [discriminate|].
  destruct (Py.digit c) as [d|] eqn:Hd; [|discriminate].
  destruct (Py.digits_loop d false r) as [[v' rest]|] eqn:Hloop; [|discriminate].
  destruct (Py.all_space rest) eqn:Hsp; [|discriminate].
  intros _. cbn [Py.contains].
  rewrite (digits_loop_no_comma _ _ _ _ _ Hloop (all_space_no_comma _ Hsp)), orb_false_r.
  destruct (Ascii.eqb_spec c ",") as [->|]; [discriminate Hd|reflexivity].
Qed.

Lemma lstrip_no_comma s :
  Py.contains "," (Py.lstrip s) = false -> Py.contains "," s = false.
Proof.
  induction s as [|c r IH]; [reflexivity|].
  cbn [Py.lstrip]. destruct (Py.isspace c) eqn:Hc; [|tauto].
  intros H. cbn [Py.contains]. rewrite (IH H), orb_false_r.
  destruct (Ascii.eqb_spec c ",") as [->|]; [discriminate Hc|reflexivity].
Qed.

Lemma lstrip_idem s : Py.lstrip (Py.lstrip s) = Py.lstrip s.
Proof.
  induction s as [|c r IH]; [reflexivity|].
  cbn [Py.lstrip]. destruct (Py.isspace c) eqn:Hc; [exact IH|].
  cbn [Py.lstrip]. now rewrite Hc.
Qed.

Lemma int_lstrip s : Py.int s = Py.int (Py.lstrip s).
Proof. unfold Py.int. now rewrite lstrip_idem. Qed.

Lemma lstrip_head s :
  Py.lstrip s = EmptyString
  \/ exists c r, Py.lstrip s = String c r /\ Py.isspace c = false.
Proof.
  induction s as [|c r IH]; [now left|].
  cbn [Py.lstrip]. destruct (Py.isspace c) eqn:Hc; [exact IH|].
  right. exists c, r. auto.
Qed.

(** An integer literal that opens without a blank. *)
Lemma int_head_no_comma c r v :
  Py.isspace c = false -> Py.int (String c r) = Ok v ->
  Py.contains "," (String c r) = false.
Proof.
  intros Hsp H. unfold Py.int in H. cbn [Py.lstrip] in H. rewrite Hsp in H.
  destruct c as [b0 b1 b2 b3 b4 b5 b6 b7].
  destruct b0, b1, b2, b3, b4, b5, b6, b7; cbv beta iota zeta in H;
    try (destruct (Py.unsigned_literal _) as [u|] eqn:Hu; [|discriminate H];
         exact (unsigned_literal_no_comma _ _ Hu)).
Qed.

(** No integer literal has a comma in it. *)
Lemma int_no_comma s v : Py.int s = Ok v -> Py.contains "," s = false.
Proof.
  rewrite int_lstrip. intros H. apply lstrip_no_comma.
  destruct (lstrip_head s) as [He|(c & r & He & Hsp)]; rewrite He in *.
  - reflexivity.
  - exact (int_head_no_comma _ _ _ Hsp H).
Qed.

(** X7.  A week range that has both a hyphen and a comma in it, such as
    [1-8,10-16], matches no week at all: the hyphen is looked for first,
    and then some part between hyphens is not a number, or there are more
    than two parts. *)
Theorem mixed_week_range_never_matches (week_str : string) (current_week : Z) :
  Py.contains "-" week_str = true ->
  Py.contains "," week_str = true ->
  check_week_range (PyStr week_str) current_week = Ok false.
Proof.
  intros Hh Hc.
  unfold check_week_range. cbn [isna].
  destruct (String.eqb_spec week_str "") as [->|_]; [discriminate Hh|].
  rewrite Hh.
  destruct (split_with "-" week_str Hh) as (a & b & rest & Hsplit).
  rewrite (contains_split "," "-" week_str ltac:(discriminate)), Hsplit in Hc.
  rewrite Hsplit. cbn [map Py.unpack2].
  destruct rest as [|c rest].
  - cbn [existsb] in Hc. rewrite orb_false_r in Hc.
    destruct (Py.int a) as [va|ea] eqn:Ha; [|reflexivity].
    destruct (Py.int b) as [vb|eb] eqn:Hb; [|reflexivity].
    rewrite (int_no_comma _ _ Ha), (int_no_comma _ _ Hb) in Hc. discriminate Hc.
  - cbn [map]. destruct (Py.int a); [|reflexivity].
    destruct (Py.int b); [|reflexivity].
    destruct (Py.int c); reflexivity.
Qed.

Lemma mixed_week_range_never_matches_witness :
  check_week_range (PyStr "1-8,10-16") 3 = Ok false.
Proof.
  apply mixed_week_range_never_matches; reflexivity.
Defined.

(** ** The upload, whatever the file *)

Lemma upload_block_run numeric_text uploaded_file w :
  upload_block numeric_text uploaded_file w =
    (Ok match uploaded_file with
        | None => None
        | Some (Raise _) => Some ImportFailed
        | Some (Ok df) =>
            if forallb (fun col => existsb (String.eqb col) (columns df)) required_cols
            then Some ImportFailed
            else Some MissingColumns
        end, w).
Proof.
  destruct uploaded_file as [[df|e]|]; [|reflexivity|reflexivity].
  unfold upload_block, Mtry, bind, lift.
  destruct (forallb _ required_cols); [|reflexivity].
  rewrite weekday_filter_raises. reflexivity.
Qed.

(** X8.  The upload block never raises, never reports success and never
    changes the session or the heap: nothing uploaded gives no notice, a
    file that cannot be read or that has all seven required columns gives
    the failure notice, and a table that lacks a required column gives the
    missing-columns notice. *)
Theorem upload_changes_nothing
    (numeric_text : string -> option Z) (uploaded_file : option (outcome sheet))
    (w : world) :
  exists shown,
    upload_block numeric_text uploaded_file w = (Ok shown, w)
    /\ shown <> Some ImportSucceeded
    /\ (uploaded_file = None -> shown = None)
    /\ (forall e, uploaded_file = Some (Raise e) -> shown = Some ImportFailed)
    /\ (forall df, uploaded_file = Some (Ok df) ->
          (forall col, In col required_cols -> In col (columns df)) ->
          shown = Some ImportFailed)
    /\ (forall df col, uploaded_file = Some (Ok df) ->
          In col required_cols -> ~ In col (columns df) ->
          shown = Some MissingColumns).
Proof.
  rewrite upload_block_run. eexists. split; [reflexivity|].
  split.
  { destruct uploaded_file as [[df|e]|]; try discriminate.
    destruct (forallb _ required_cols); discriminate. }
  split; [intros ->; reflexivity|].
  split; [intros e ->; reflexivity|].
  split.
  - intros df -> Hcols. apply required_cols_present_dec in Hcols.
    now rewrite Hcols.
  - intros df col -> Hin Hmiss.
    destruct (forallb _ required_cols) eqn:Hall; [|reflexivity].
    pose proof (proj1 (required_cols_present_dec df) Hall) as Hcols.
    elim Hmiss. now apply Hcols.
Qed.

Lemma upload_changes_nothing_witness :
  exists shown,
    upload_block (fun _ => None) (Some (Ok (mkSheet ["星期"; "开始时间"] [])))
      (loaded_world []) = (Ok shown, loaded_world [])
    /\ shown = Some MissingColumns.
Proof.
  destruct (upload_changes_nothing (fun _ => None)
              (Some (Ok (mkSheet ["星期"; "开始时间"] []))) (loaded_world []))
    as (shown & Hrun & _ & _ & _ & _ & Hmiss).
  exists shown. split; [exact Hrun|].
  apply (Hmiss (mkSheet ["星期"; "开始时间"] []) "周次" eq_refl).
  - unfold required_cols. simpl. tauto.
  - simpl. intros [H|[H|[]]]; discriminate H.
Defined.

(** ** Adding an adjustment *)

Lemma str_truth_all (l : list string) :
  forallb str_truth l = true <-> ~ In EmptyString l.
Proof.
  induction l as [|s l IH]; simpl.
  - tauto.
  - rewrite andb_true_iff, IH. unfold str_truth.
    destruct (String.eqb_spec s ""); simpl; intuition congruence.
Qed.

Lemma world_eta w : mkWorld (heap w) (sess w) (clock w) (ticks w) = w.
Proof. now destruct w. Qed.

Lemma session_eta s :
  mkSession (course_data s) (remind_minutes s) (adjust_courses s)
            (current_remind s) (semester_start s) = s.
Proof. now destruct s. Qed.

(** X9.  The form refuses a submission in which one of the five mandatory
    fields (original name and start, new name, start and end) is empty, and
    then changes nothing.  Otherwise it adds the entry at the end of the
    list and changes nothing else, whatever the place, teacher, weekday and
    week range say; a click on the delete button of that last position
    (the only button to report one) then gives back the state before the
    submission. *)
Theorem form_adds_at_the_end (form : Adjust) (w : world) :
  let mandatory :=
    [orig_name form; orig_start form; new_name form; new_start form; new_end form] in
  let l := adjust_courses (sess w) in
  (In EmptyString mandatory ->
     form_block (Some form) w = (Ok (Some MissingFields), w))
  /\ (~ In EmptyString mandatory ->
      exists w',
        form_block (Some form) w = (Ok (Some AdjustAdded), w')
        /\ adjust_courses (sess w') = (l ++ [form])%list
        /\ heap w' = heap w /\ clock w' = clock w /\ ticks w' = ticks w
        /\ course_data (sess w') = course_data (sess w)
        /\ remind_minutes (sess w') = remind_minutes (sess w)
        /\ current_remind (sess w') = current_remind (sess w)
        /\ semester_start (sess w') = semester_start (sess w)
        /\ adjust_list_block (Z.eqb (Z.of_nat (length l))) w' = (Ok true, w)).
Proof.
  intros mandatory l. unfold form_block. fold mandatory.
  destruct (forallb str_truth mandatory) eqn:Hall.
  - apply str_truth_all in Hall. split; [tauto|]. intros _.
    eexists. split; [reflexivity|].
    cbn [snd sess adjust_courses heap clock ticks course_data remind_minutes
         current_remind semester_start].
    repeat (split; [reflexivity|]).
    rewrite (adjust_list_block_click _ _ (length l)).
    + cbn [sess adjust_courses heap clock ticks course_data remind_minutes
           current_remind semester_start].
      fold l.
      rewrite firstn_app, Nat.sub_diag, firstn_all. simpl firstn. rewrite app_nil_r.
      rewrite skipn_app, skipn_all2 by lia.
      replace (S (length l) - length l)%nat with 1%nat by lia. simpl skipn.
      rewrite app_nil_r. f_equal. subst l.
      rewrite session_eta. apply world_eta.
    + cbn [sess adjust_courses]. fold l. rewrite length_app. simpl. lia.
    + apply Z.eqb_refl.
    + intros j Hj. apply Z.eqb_neq. lia.
  - split; [reflexivity|]. intros Hnone. apply str_truth_all in Hnone. congruence.
Qed.

Lemma form_adds_at_the_end_witness :
  exists w',
    form_block (Some extra_seminar) (loaded_world [math_to_physics])
      = (Ok (Some AdjustAdded), w')
    /\ adjust_courses (sess w') = [math_to_physics; extra_seminar]
    /\ adjust_list_block (Z.eqb 1) w' = (Ok true, loaded_world [math_to_physics]).
Proof.
  destruct (form_adds_at_the_end extra_seminar (loaded_world [math_to_physics]))
    as [_ H].
  destruct H as (w' & Hrun & Hadj & _ & _ & _ & _ & _ & _ & _ & Hdel).
  - simpl. intros [H|[H|[H|[H|[H|[]]]]]]; discriminate H.
  - exists w'. split; [exact Hrun|]. split; [exact Hadj|]. exact Hdel.
Defined.

(** ** The shape of today's table *)

Section MergeFacts.

Variables today_weekday current_week : Z.

Local Abbreviation step := (replace_or_append today_weekday current_week).
Local Abbreviation active := (applies today_weekday current_week).

Lemma replace_or_append_idle today adjust :
  active adjust = false -> step today adjust = today.
Proof. intros H. unfold replace_or_append. now rewrite H. Qed.

Lemma fold_active adjusts : forall today,
  fold_left step adjusts today = fold_left step (List.filter active adjusts) today.
Proof.
  induction adjusts as [|a adjusts IH]; intros today; [reflexivity|].
  cbn [fold_left List.filter]. destruct (active a) eqn:Ha.
  - cbn [fold_left]. apply IH.
  - rewrite (replace_or_append_idle _ _ Ha). apply IH.
Qed.

Lemma replace_or_append_weekday today adjust :
  List.Forall (fun r => weekday r = today_weekday) today ->
  List.Forall (fun r => weekday r = today_weekday) (step today adjust).
Proof.
  intros H. unfold replace_or_append.
  destruct (active adjust) eqn:Ha; [|exact H].
  unfold applies in Ha. apply andb_true_iff in Ha. destruct Ha as [Hwd _].
  apply Z.eqb_eq in Hwd.
  destruct (existsb (targets adjust) today).
  - apply List.Forall_forall. intros r Hin. apply in_map_iff in Hin.
    destruct Hin as (x & <- & Hx).
    rewrite List.Forall_forall in H. specialize (H x Hx).
    destruct (targets adjust x); [exact H|exact H].
  - apply Forall_app. split; [exact H|].
    constructor; [exact Hwd|constructor].
Qed.

Lemma fold_weekday adjusts : forall today,
  List.Forall (fun r => weekday r = today_weekday) today ->
  List.Forall (fun r => weekday r = today_weekday) (fold_left step adjusts today).
Proof.
  induction adjusts as [|a adjusts IH]; intros today H; [exact H|].
  cbn [fold_left]. apply IH. now apply replace_or_append_weekday.
Qed.

Lemma selected_weekday base :
  List.Forall (fun r => weekday r = today_weekday) (selected today_weekday current_week base).
Proof.
  apply List.Forall_forall. intros r Hin. unfold selected in Hin.
  apply filter_In in Hin. destruct Hin as [_ H].
  apply andb_true_iff in H. destruct H as [H _]. now apply Z.eqb_eq.
Qed.

Lemma replace_or_append_length today adjust :
  (length today <= length (step today adjust)
   <= length today + (if active adjust then 1 else 0))%nat.
Proof.
  unfold replace_or_append. destruct (active adjust); [|lia].
  destruct (existsb (targets adjust) today).
  - rewrite length_map. lia.
  - rewrite length_app. simpl. lia.
Qed.

Lemma fold_length adjusts : forall today,
  (length today <= length (fold_left step adjusts today)
   <= length today + length (List.filter active adjusts))%nat.
Proof.
  induction adjusts as [|a adjusts IH]; intros today; [simpl; lia|].
  cbn [fold_left List.filter].
  pose proof (replace_or_append_length today a) as H1.
  pose proof (IH (step today a)) as H2.
  destruct (active a); simpl in *; lia.
Qed.

(** The row an active adjustment leaves in the table. *)
Lemma replace_or_append_row today adjust :
  active adjust = true ->
  List.Forall (fun r => weekday r = today_weekday) today ->
  exists r, In r (step today adjust)
    /\ weekday r = today_weekday
    /\ start_time r = new_start adjust /\ end_time r = new_end adjust
    /\ course_name r = new_name adjust
    /\ place r = new_place adjust /\ teacher r = new_teacher adjust.
Proof.
  intros Ha Hwd. unfold replace_or_append. rewrite Ha.
  destruct (existsb (targets adjust) today) eqn:Hex.
  - apply existsb_exists in Hex. destruct Hex as (x & Hx & Ht).
    exists (overwrite adjust x). split.
    + apply in_map_iff. exists x. rewrite Ht. auto.
    + rewrite List.Forall_forall in Hwd. cbn. repeat split; auto.
  - exists (new_course adjust). split.
    + apply in_or_app. right. now left.
    + unfold applies in Ha. apply andb_true_iff in Ha. destruct Ha as [Ha _].
      apply Z.eqb_eq in Ha. cbn. repeat split; auto.
Qed.

End MergeFacts.

Lemma isoweekday_range t : 1 <= Datetime.isoweekday t <= 7.
Proof.
  unfold Datetime.isoweekday.
  pose proof (Z.mod_pos_bound (t / Datetime.us_per_day) 7 ltac:(lia)). lia.
Qed.

(** X10.  Every row of the table [get_today_courses] returns carries
    today's weekday (that of the first clock reading, a number from 1 to
    7), the rows that adjustments rewrote or added included; a row of the
    schedule with any other weekday, such as 0, is never in the table. *)
Theorem today_rows_are_of_today (w : world) (data : loc) (df : frame) :
  course_data (sess w) = Some data ->
  heap w !! data = Some df ->
  exists out w' today,
    get_today_courses w = (Ok out, w')
    /\ heap w' !! out = Some today
    /\ 1 <= Datetime.isoweekday (clock w (ticks w)) <= 7
    /\ List.Forall
         (fun r => weekday r = Datetime.isoweekday (clock w (ticks w)))
         (rows today).
Proof.
  intros Hcd Hdf.
  destruct (get_today_courses_run w data df Hcd Hdf)
    as (out & w' & week & Hrun & _ & Hout & _).
  eexists out, w', _. split; [exact Hrun|]. split; [exact Hout|].
  split; [apply isoweekday_range|].
  cbn [rows].
  destruct (sort_values_keyed
              (merged (Datetime.isoweekday (clock w (ticks w))) week
                      (adjust_courses (sess w)) (rows df))) as (_ & Hperm & _).
  eapply Permutation_Forall; [symmetry; exact Hperm|].
  unfold merged. apply fold_weekday, selected_weekday.
Qed.

Lemma today_rows_are_of_today_witness :
  exists out w' today,
    get_today_courses (loaded_world [math_to_physics; extra_seminar]) = (Ok out, w')
    /\ heap w' !! out = Some today
    /\ List.Forall (fun r => weekday r = 1) (rows today).
Proof.
  destruct (today_rows_are_of_today (loaded_world [math_to_physics; extra_seminar])
              0%nat monday_schedule eq_refl eq_refl)
    as (out & w' & today & Hrun & Hout & _ & Hall).
  exists out, w', today. split; [exact Hrun|]. split; [exact Hout|exact Hall].
Defined.

(** X11.  Only the adjustments of today's weekday whose week range holds
    the current week count, and only their order among themselves: two
    adjustment lists that agree on those give the same table. *)
Theorem idle_adjustments_are_ignored
    (w : world) (data : loc) (df : frame) (adjusts' : list Adjust) :
  course_data (sess w) = Some data ->
  heap w !! data = Some df ->
  exists week out w1 out' w1' today,
    fst (get_week_num (tick w)) = Ok week
    /\ get_today_courses w = (Ok out, w1)
    /\ heap w1 !! out = Some today
    /\ get_today_courses (snd (set_adjust_courses adjusts' w)) = (Ok out', w1')
    /\ (List.filter (applies (Datetime.isoweekday (clock w (ticks w))) week) adjusts'
        = List.filter (applies (Datetime.isoweekday (clock w (ticks w))) week)
            (adjust_courses (sess w)) ->
        heap w1' !! out' = Some today).
Proof.
  intros Hcd Hdf.
  destruct (get_today_courses_run w data df Hcd Hdf)
    as (out & w1 & week & Hrun & Hweek & Hout & _).
  set (w2 := snd (set_adjust_courses adjusts' w)).
  destruct (get_today_courses_run w2 data df Hcd Hdf)
    as (out' & w1' & week' & Hrun' & Hweek' & Hout' & _).
  change (get_week_num (tick w2)) with (get_week_num
    (mkWorld (heap w) (sess w2) (clock w) (S (ticks w)))) in Hweek'.
  assert (week' = week) as ->.
  { rewrite get_week_num_at in Hweek, Hweek'. cbn in Hweek, Hweek'. congruence. }
  eexists week, out, w1, out', w1', _.
  split; [exact Hweek|]. split; [exact Hrun|]. split; [exact Hout|].
  split; [exact Hrun'|].
  intros Hsame. rewrite Hout'. cbn [w2 snd set_adjust_courses]. cbn.
  unfold merged. rewrite fold_active, Hsame, <- fold_active. reflexivity.
Qed.

Lemma idle_adjustments_are_ignored_witness :
  exists out w1 out' w1' today,
    get_today_courses (loaded_world [math_to_physics]) = (Ok out, w1)
    /\ heap w1 !! out = Some today
    /\ get_today_courses
         (snd (set_adjust_courses
                 [mkAdjust 2 "1-16" "Art" "09:00" "Music" "09:00" "09:45" "" "";
                  math_to_physics;
                  mkAdjust 1 "3-16" "Art" "09:00" "Music" "09:00" "09:45" "" ""]
                 (loaded_world [math_to_physics]))) = (Ok out', w1')
    /\ heap w1' !! out' = Some today.
Proof.
  destruct (idle_adjustments_are_ignored (loaded_world [math_to_physics]) 0%nat
              monday_schedule
              [mkAdjust 2 "1-16" "Art" "09:00" "Music" "09:00" "09:45" "" "";
               math_to_physics;
               mkAdjust 1 "3-16" "Art" "09:00" "Music" "09:00" "09:45" "" ""]
              eq_refl eq_refl)
    as (week & out & w1 & out' & w1' & today & Hweek & Hrun & Hout & Hrun' & Hsame).
  exists out, w1, out', w1', today.
  split; [exact Hrun|]. split; [exact Hout|]. split; [exact Hrun'|].
  apply Hsame.
  assert (week = 1) as -> by (vm_compute in Hweek; congruence).
  vm_compute. reflexivity.
Defined.

(** X12.  Adjustments never shorten today's table and each lengthens it
    by at most one row: the table has at least as many rows as the
    schedule has for today's weekday and week, and at most that many plus
    the number of adjustments that apply today.  (A replacing adjustment
    rewrites rows where they stand, so the count stays while the course
    named in a row changes.)  When no adjustment applies today the table is
    the schedule's rows for today's weekday and week, reordered. *)
Theorem adjustments_never_shorten_the_table (w : world) (data : loc) (df : frame) :
  course_data (sess w) = Some data ->
  heap w !! data = Some df ->
  exists week out w' today,
    fst (get_week_num (tick w)) = Ok week
    /\ get_today_courses w = (Ok out, w')
    /\ heap w' !! out = Some today
    /\ let today_weekday := Datetime.isoweekday (clock w (ticks w)) in
       let scheduled := selected today_weekday week (rows df) in
       let active := List.filter (applies today_weekday week) (adjust_courses (sess w)) in
       (length scheduled <= length (rows today) <= length scheduled + length active)%nat
       /\ (active = [] -> Permutation (rows today) scheduled).
Proof.
  intros Hcd Hdf.
  destruct (get_today_courses_run w data df Hcd Hdf)
    as (out & w' & week & Hrun & Hweek & Hout & _).
  eexists week, out, w', _.
  split; [exact Hweek|]. split; [exact Hrun|]. split; [exact Hout|].
  cbn [rows].
  destruct (sort_values_keyed
              (merged (Datetime.isoweekday (clock w (ticks w))) week
                      (adjust_courses (sess w)) (rows df))) as (_ & Hperm & _).
  split.
  - rewrite (Permutation_length Hperm). unfold merged. apply fold_length.
  - intros Hnone. etransitivity; [exact Hperm|].
    unfold merged. rewrite fold_active, Hnone. reflexivity.
Qed.

Lemma adjustments_never_shorten_the_table_witness :
  exists out w' today,
    get_today_courses (loaded_world [math_to_physics; extra_seminar]) = (Ok out, w')
    /\ heap w' !! out = Some today
    /\ (2 <= length (rows today) <= 4)%nat.
Proof.
  destruct (adjustments_never_shorten_the_table
              (loaded_world [math_to_physics; extra_seminar])
              0%nat monday_schedule eq_refl eq_refl)
    as (week & out & w' & today & Hweek & Hrun & Hout & Hlen & _).
  exists out, w', today. split; [exact Hrun|]. split; [exact Hout|].
  assert (week = 1) as -> by (vm_compute in Hweek; congruence).
  exact Hlen.
Defined.

(** X13.  With a schedule loaded, an adjustment that the form has just
    accepted shows in today's table whenever it is for today's weekday and
    its week range holds the current week: some row of the table then
    carries its new name, times, place and teacher.  Without a schedule
    the table stays empty, whatever the form accepted. *)
Theorem accepted_adjustment_shows (w : world) (form : Adjust) :
  schedule_in_heap w ->
  ~ In EmptyString
      [orig_name form; orig_start form; new_name form; new_start form; new_end form] ->
  exists w1 week out w2 today,
    form_block (Some form) w = (Ok (Some AdjustAdded), w1)
    /\ fst (get_week_num (tick w1)) = Ok week
    /\ get_today_courses w1 = (Ok out, w2)
    /\ heap w2 !! out = Some today
    /\ (course_data (sess w) = None -> rows today = [])
    /\ (course_data (sess w) <> None ->
        adj_weekday form = Datetime.isoweekday (clock w1 (ticks w1)) ->
        check_week_range (PyStr (adj_weeks form)) week = Ok true ->
        exists r, In r (rows today)
          /\ weekday r = adj_weekday form
          /\ start_time r = new_start form /\ end_time r = new_end form
          /\ course_name r = new_name form
          /\ place r = new_place form /\ teacher r = new_teacher form).
Proof.
  intros Hwf Hfields.
  assert (Hform : exists w1,
            form_block (Some form) w = (Ok (Some AdjustAdded), w1)
            /\ adjust_courses (sess w1) = (adjust_courses (sess w) ++ [form])%list
            /\ heap w1 = heap w /\ course_data (sess w1) = course_data (sess w)).
  { unfold form_block. rewrite (proj2 (str_truth_all _) Hfields).
    eexists. split; [reflexivity|]. cbn. auto. }
  destruct Hform as (w1 & Hform & Hadj & Hheap & Hcd1).
  destruct (course_data (sess w)) as [data|] eqn:Hcd.
  - destruct (Hwf data Hcd) as [df Hdf]. rewrite <- Hheap in Hdf.
    destruct (get_today_courses_run w1 data df Hcd1 Hdf)
      as (out & w2 & week & Hrun & Hweek & Hout & _).
    eexists w1, week, out, w2, _.
    split; [exact Hform|]. split; [exact Hweek|]. split; [exact Hrun|].
    split; [exact Hout|]. split; [discriminate|].
    intros _ Hwd Hwk. cbn [rows].
    set (wd := Datetime.isoweekday (clock w1 (ticks w1))) in *.
    assert (Ha : applies wd week form = true).
    { unfold applies, matches. rewrite Hwk, Hwd, Z.eqb_refl. reflexivity. }
    destruct (sort_values_keyed (merged wd week (adjust_courses (sess w1)) (rows df)))
      as (_ & Hperm & _).
    unfold merged in *. rewrite Hadj, fold_left_app in *. cbn [fold_left] in *.
    destruct (replace_or_append_row wd week
                (fold_left (replace_or_append wd week) (adjust_courses (sess w))
                           (selected wd week (rows df)))
                form Ha)
      as (r & Hin & Hr).
    { apply fold_weekday, selected_weekday. }
    exists r. split.
    + eapply Permutation_in; [symmetry; exact Hperm|exact Hin].
    + rewrite Hwd. exact Hr.
  - destruct (get_week_num_total (tick w1)) as (week & n & Hweek).
    pose proof (get_today_courses_none w1 Hcd1) as Hrun.
    eexists w1, week, _, _, _.
    split; [exact Hform|]. split; [now rewrite Hweek|]. split; [exact Hrun|].
    split; [cbn [heap]; apply lookup_insert_eq|].
    split; [reflexivity|]. intros H. now elim H.
Qed.

Lemma accepted_adjustment_shows_witness :
  (exists w1 out w2 today r,
     form_block (Some extra_seminar) (loaded_world [math_to_physics])
       = (Ok (Some AdjustAdded), w1)
     /\ get_today_courses w1 = (Ok out, w2)
     /\ heap w2 !! out = Some today
     /\ In r (rows today) /\ course_name r = "Seminar" /\ start_time r = "07:30")
  /\ (exists w1 out w2 today,
        form_block (Some extra_seminar) (sample_world ∅ [] None monday_0855)
          = (Ok (Some AdjustAdded), w1)
        /\ get_today_courses w1 = (Ok out, w2)
        /\ heap w2 !! out = Some today
        /\ rows today = []).
Proof.
  split.
  - destruct (accepted_adjustment_shows (loaded_world [math_to_physics]) extra_seminar)
      as (w1 & week & out & w2 & today & Hform & Hweek & Hrun & Hout & _ & Hshow).
    + intros data Hdata. injection Hdata as <-. exists monday_schedule. reflexivity.
    + simpl. intros [H|[H|[H|[H|[H|[]]]]]]; discriminate H.
    + assert (Hw1 : w1 = snd (form_block (Some extra_seminar)
                                   (loaded_world [math_to_physics])))
        by (rewrite Hform; reflexivity).
      subst w1.
      assert (week = 1) as -> by (vm_compute in Hweek; congruence).
      destruct (Hshow ltac:(discriminate) eq_refl eq_refl)
        as (r & Hin & _ & Hstart & _ & Hname & _).
      eexists. exists out, w2, today, r.
      split; [exact Hform|]. split; [exact Hrun|]. split; [exact Hout|].
      split; [exact Hin|]. split; [exact Hname|exact Hstart].
  - destruct (accepted_adjustment_shows (sample_world ∅ [] None monday_0855) extra_seminar)
      as (w1 & week & out & w2 & today & Hform & _ & Hrun & Hout & Hnone & _).
    + intros data Hdata. discriminate Hdata.
    + simpl. intros [H|[H|[H|[H|[H|[]]]]]]; discriminate H.
    + exists w1, out, w2, today.
      split; [exact Hform|]. split; [exact Hrun|]. split; [exact Hout|].
      apply Hnone. reflexivity.
Defined.

(** ** The reminder window on the clock face *)

Lemma due_time_of_day t m course :
  due t (Datetime.add_minutes t m) course
  <-> time_of_day t <= start_key course * Datetime.us_per_minute
                    <= time_of_day t + m * Datetime.us_per_minute.
Proof.
  unfold due, Datetime.add_minutes, Datetime.combine, Datetime.date_of, time_of_day.
  pose proof (Z.div_mod t Datetime.us_per_day ltac:(discriminate)) as H.
  rewrite Z.mul_comm in H. lia.
Qed.

Lemma time_of_day_range t : 0 <= time_of_day t < Datetime.us_per_day.
Proof. unfold time_of_day. apply Z.mod_pos_bound. reflexivity. Qed.

(** X14.  The reminder loop compares times of day: the course it picks
    starts no earlier than the clock's time of day and no later than the
    lookahead after it, so a course that has already begun is never
    picked, nothing is picked with a negative lookahead, and a row whose
    start time does not read as [HH:MM] is picked only when the clock
    shows midnight exactly.  A row of the table inside that window always
    makes the loop pick some course. *)
Theorem reminder_window_on_the_clock_face (t m : Z) (courses : list Row) :
  let inside r :=
    time_of_day t <= start_key r * Datetime.us_per_minute
                  <= time_of_day t + m * Datetime.us_per_minute in
  (forall r, first_due t (Datetime.add_minutes t m) courses = Some r ->
     In r courses /\ inside r /\ 0 <= m
     /\ (forall e, Datetime.strptime_hm (start_time r) = Raise e -> time_of_day t = 0))
  /\ (forall r, In r courses -> inside r ->
        first_due t (Datetime.add_minutes t m) courses <> None).
Proof.
  intros inside. split.
  - intros r Hr. apply first_due_Some in Hr.
    destruct Hr as (before & after & -> & Hdue & _).
    apply due_time_of_day in Hdue. fold (inside r) in Hdue.
    split; [apply in_or_app; right; now left|].
    split; [exact Hdue|].
    pose proof (time_of_day_range t) as Ht.
    unfold inside, Datetime.us_per_minute in *.
    split; [lia|].
    intros e He. unfold start_key, parse_course_time in Hdue. rewrite He in Hdue. lia.
  - intros r Hin Hr Hnone. apply first_due_None in Hnone.
    rewrite List.Forall_forall in Hnone. apply (Hnone r Hin).
    now apply due_time_of_day.
Qed.

Lemma reminder_window_on_the_clock_face_witness :
  time_of_day monday_0855 <= start_key monday_art * Datetime.us_per_minute
                          <= time_of_day monday_0855 + 10 * Datetime.us_per_minute.
Proof.
  destruct (reminder_window_on_the_clock_face monday_0855 10 [one_monday_course; monday_art])
    as [H _].
  destruct (H monday_art eq_refl) as (_ & Hin & _).
  exact Hin.
Defined.

(** ** The table and the reminder in one run *)

Lemma today_table_run w :
  schedule_in_heap w ->
  exists out w1,
    get_today_courses w = (Ok out, w1)
    /\ heap w1 !! out = Some (mkFrame (today_table w) None)
    /\ heap w ⊆ heap w1 /\ sess w1 = sess w /\ clock w1 = clock w.
Proof.
  intros Hwf. unfold today_table.
  destruct (course_data (sess w)) as [data|] eqn:Hcd.
  - destruct (Hwf data Hcd) as [df Hdf]. rewrite Hdf.
    destruct (get_today_courses_run w data df Hcd Hdf)
      as (out & w1 & week & Hrun & Hweek & Hout & Hsub & Hs & Hc).
    exists out, w1. split; [exact Hrun|].
    rewrite get_week_num_at in Hweek. cbn in Hweek. injection Hweek as <-.
    auto.
  - rewrite (get_today_courses_none w Hcd). eexists _, _.
    split; [reflexivity|]. cbn [heap sess clock].
    split; [apply lookup_insert_eq|].
    split; [|auto]. now apply alloc_keeps.
Qed.

Lemma today_table_sorted w : StronglySorted by_start (today_table w).
Proof.
  unfold today_table.
  destruct (course_data (sess w)) as [data|]; [|constructor].
  destruct (heap w !! data) as [df|]; [|constructor].
  apply sort_values_keyed.
Qed.

Lemma schedule_in_heap_later w w' :
  schedule_in_heap w -> heap w ⊆ heap w' ->
  course_data (sess w') = course_data (sess w) ->
  schedule_in_heap w'.
Proof.
  intros Hwf Hsub Hcd data Hdata. rewrite Hcd in Hdata.
  destruct (Hwf data Hdata) as [df Hdf]. exists df.
  eapply lookup_weaken; eassumption.
Qed.

Lemma check_remind_run w :
  schedule_in_heap w ->
  exists out w1 w2,
    get_today_courses w = (Ok out, w1)
    /\ heap w1 !! out = Some (mkFrame (today_table w) None)
    /\ check_remind w = (Ok tt, w2)
    /\ current_remind (sess w2)
       = first_due (clock w1 (ticks w1))
           (Datetime.add_minutes (clock w1 (ticks w1)) (remind_minutes (sess w)))
           (today_table w)
    /\ same_settings (sess w) (sess w2)
    /\ heap w ⊆ heap w2 /\ clock w2 = clock w.
Proof.
  intros Hwf.
  destruct (today_table_run w Hwf) as (out & w1 & Hrun & Hout & Hsub & Hs & Hc).
  exists out, w1.
  assert (Hcr : check_remind w =
            if frame_empty (mkFrame (today_table w) None) then set_current_remind None w1
            else (let* t := now in
                  let* minutes := gets remind_minutes in
                  set_current_remind
                    (first_due t (Datetime.add_minutes t minutes) (today_table w))) w1).
  { unfold check_remind. rewrite (bind_run _ _ _ _ _ Hrun).
    unfold bind at 1. unfold load at 1. rewrite Hout.
    destruct (frame_empty _); reflexivity. }
  rewrite Hcr. unfold frame_empty. cbn [rows].
  destruct (today_table w) as [|c rest] eqn:Hrows.
  - eexists. split; [exact Hrun|]. split; [exact Hout|].
    unfold set_current_remind, bind, gets, set_sess, same_settings. cbn.
    rewrite Hs. auto 10.
  - eexists. split; [exact Hrun|]. split; [exact Hout|].
    unfold set_current_remind, bind, gets, set_sess, now, same_settings. cbn.
    rewrite Hs. auto 10.
Qed.

(** X15.  The table is in ascending order of start time, so the course
    [check_remind] stores is a row of today's table that starts inside the
    window, and no row inside the window starts earlier. *)
Theorem reminder_is_the_earliest (w : world) :
  schedule_in_heap w ->
  exists out w1 today w2,
    get_today_courses w = (Ok out, w1)
    /\ heap w1 !! out = Some today
    /\ check_remind w = (Ok tt, w2)
    /\ forall r, current_remind (sess w2) = Some r ->
         let t := clock w1 (ticks w1) in
         let remind_time := Datetime.add_minutes t (remind_minutes (sess w)) in
         In r (rows today)
         /\ due t remind_time r
         /\ forall r', In r' (rows today) -> due t remind_time r' ->
              start_key r <= start_key r'.
Proof.
  intros Hwf.
  destruct (check_remind_run w Hwf) as (out & w1 & w2 & Hrun & Hout & Hcr & Hcur & _).
  eexists out, w1, _, w2. split; [exact Hrun|]. split; [exact Hout|].
  split; [exact Hcr|]. cbn [rows]. intros r Hr.
  rewrite Hcur in Hr. apply first_due_Some in Hr.
  destruct Hr as (before & after & Hsplit & Hdue & Hbefore).
  pose proof (today_table_sorted w) as Hsorted.
  rewrite Hsplit in *.
  split; [apply in_or_app; right; now left|].
  split; [exact Hdue|].
  intros r' Hin Hdue'.
  apply in_app_or in Hin. destruct Hin as [Hin|[<-|Hin]].
  - rewrite List.Forall_forall in Hbefore. elim (Hbefore r' Hin). exact Hdue'.
  - lia.
  - apply StronglySorted_app_1_r in Hsorted.
    apply StronglySorted_inv in Hsorted. destruct Hsorted as [_ Hall].
    rewrite List.Forall_forall in Hall. exact (Hall r' Hin).
Qed.

Lemma reminder_is_the_earliest_witness :
  exists w2,
    check_remind (loaded_world []) = (Ok tt, w2)
    /\ forall r, current_remind (sess w2) = Some r -> start_key r <= start_key monday_art.
Proof.
  destruct (reminder_is_the_earliest (loaded_world []))
    as (out & w1 & today & w2 & Hrun & Hout & Hcr & Hearliest).
  - intros data Hdata. injection Hdata as <-. exists monday_schedule. reflexivity.
  - exists w2. split; [exact Hcr|]. intros r Hr.
    destruct (Hearliest r Hr) as (_ & _ & Hmin).
    apply (Hmin monday_art).
    + vm_compute in Hrun. injection Hrun as <- <-.
      vm_compute in Hout. injection Hout as <-. simpl. auto.
    + vm_compute in Hrun. injection Hrun as <- <-.
      vm_compute. split; discriminate.
Defined.

(** ** The main column *)

Lemma same_settings_refl s : same_settings s s.
Proof. unfold same_settings. auto. Qed.

Lemma same_settings_trans s1 s2 s3 :
  same_settings s1 s2 -> same_settings s2 s3 -> same_settings s1 s3.
Proof. unfold same_settings. intuition congruence. Qed.

Lemma same_settings_eq s s' : s' = s -> same_settings s s'.
Proof. intros ->. apply same_settings_refl. Qed.

Lemma week_courses_run w :
  schedule_in_heap w ->
  exists r w',
    week_courses w = (Ok r, w')
    /\ heap w ⊆ heap w' /\ sess w' = sess w /\ clock w' = clock w.
Proof.
  intros Hwf. unfold week_courses.
  unfold bind at 1. unfold gets at 1.
  destruct (course_data (sess w)) as [data|] eqn:Hcd.
  - destruct (Hwf data Hcd) as [df Hdf].
    destruct (get_week_num_total w) as (week & n & Hweek).
    rewrite (bind_run _ _ _ _ _ Hweek).
    unfold bind at 1. unfold load at 1. cbn [heap]. rewrite Hdf.
    rewrite (omap_total _ (fun r => matches (weeks r) week))
      by (intros; apply check_week_range_Ok).
    unfold bind at 1. unfold lift at 1.
    unfold bind at 1. unfold alloc at 1. cbn [heap sess clock ticks].
    unfold bind at 1. unfold load at 1. cbn [heap]. rewrite lookup_insert_eq.
    unfold bind at 1. unfold alloc at 1. cbn [heap sess clock ticks].
    eexists _, _. split; [reflexivity|]. cbn [heap sess clock].
    split; [|auto]. apply alloc_keeps, alloc_keeps. reflexivity.
  - eexists _, _. split; [reflexivity|]. auto.
Qed.

(** One run of the main column.  [wl] is the world in which the last
    check of the reminder built its table, [tl] the clock it then read. *)
Lemma main_block_run w refresh :
  schedule_in_heap w ->
  exists shown w' wl tl,
    main_block refresh w = (Ok shown, w')
    /\ heap w' !! shown = Some (mkFrame (today_table w) None)
    /\ current_remind (sess w')
       = first_due tl (Datetime.add_minutes tl (remind_minutes (sess w))) (today_table wl)
    /\ same_settings (sess w) (sess wl) /\ heap w ⊆ heap wl /\ clock wl = clock w
    /\ same_settings (sess w) (sess w') /\ heap w ⊆ heap w' /\ clock w' = clock w.
Proof.
  intros Hwf. unfold main_block.
  destruct (today_table_run w Hwf) as (shown & w1 & Hrun1 & Hout1 & Hsub1 & Hs1 & Hc1).
  rewrite (bind_run _ _ _ _ _ Hrun1).
  assert (Hwf1 : schedule_in_heap w1)
    by (apply (schedule_in_heap_later w); [assumption|assumption|now rewrite Hs1]).
  destruct (week_courses_run w1 Hwf1) as (r2 & w2 & Hrun2 & Hsub2 & Hs2 & Hc2).
  rewrite (bind_run _ _ _ _ _ Hrun2).
  unfold bind at 1. unfold now at 1.
  set (w3 := mkWorld (heap w2) (sess w2) (clock w2) (S (ticks w2))).
  destruct (get_week_num_total w3) as (week & n & Hweek).
  rewrite (bind_run _ _ _ _ _ Hweek).
  set (w4 := mkWorld (heap w3) (sess w3) (clock w3) n).
  assert (Hheap4 : heap w ⊆ heap w4) by (cbn; etransitivity; eassumption).
  assert (Hsess4 : sess w4 = sess w) by (cbn; congruence).
  assert (Hclock4 : clock w4 = clock w) by (cbn; congruence).
  assert (Hwf4 : schedule_in_heap w4)
    by (apply (schedule_in_heap_later w); [assumption|assumption|now rewrite Hsess4]).
  destruct (check_remind_run w4 Hwf4)
    as (out5 & w5a & w5 & _ & _ & Hcr5 & Hcur5 & Hset5 & Hsub5 & Hc5).
  rewrite (bind_run _ _ _ _ _ Hcr5).
  assert (Hshown4 : heap w4 !! shown = Some (mkFrame (today_table w) None)).
  { cbn. eapply lookup_weaken; [exact Hout1|exact Hsub2]. }
  destruct refresh.
  - assert (Hwf5 : schedule_in_heap w5).
    { apply (schedule_in_heap_later w4); [assumption|assumption|apply Hset5]. }
    destruct (check_remind_run w5 Hwf5)
      as (out6 & w6a & w6 & _ & _ & Hcr6 & Hcur6 & Hset6 & Hsub6 & Hc6).
    rewrite (bind_run _ _ _ _ _ Hcr6).
    assert (Hset45 : same_settings (sess w) (sess w5))
      by (eapply same_settings_trans; [apply same_settings_eq; exact Hsess4|exact Hset5]).
    exists shown, w6, w5, (clock w6a (ticks w6a)).
    split; [reflexivity|].
    split; [eapply lookup_weaken; [exact Hshown4|etransitivity; eassumption]|].
    split; [rewrite Hcur6; destruct Hset45 as (_ & -> & _); reflexivity|].
    split; [exact Hset45|].
    split; [etransitivity; eassumption|].
    split; [congruence|].
    split; [eapply same_settings_trans; eassumption|].
    split; [etransitivity; [exact Hheap4|etransitivity; eassumption]|congruence].
  - unfold bind at 1. unfold ret at 1.
    exists shown, w5, w4, (clock w5a (ticks w5a)).
    split; [reflexivity|].
    split; [eapply lookup_weaken; [exact Hshown4|exact Hsub5]|].
    split; [rewrite Hcur5, Hsess4; reflexivity|].
    split; [apply same_settings_eq; exact Hsess4|].
    split; [exact Hheap4|].
    split; [exact Hclock4|].
    split; [eapply same_settings_trans; [apply same_settings_eq; exact Hsess4|exact Hset5]|].
    split; [etransitivity; eassumption|congruence].
Qed.

Lemma strptime_ymd_midnight s start :
  Datetime.strptime_ymd s = Ok start -> exists ordinal, start = Datetime.midnight ordinal.
Proof.
  unfold Datetime.strptime_ymd.
  destruct (Datetime.strptime_groups _ s) as [groups|]; [|discriminate].
  cbn [obind].
  destruct groups as [|gy [|g1 [|gm [|g2 [|gd [|? ?]]]]]]; try discriminate.
  destruct (Py.int gy); [|discriminate].
  destruct (Py.int gm); [|discriminate].
  destruct (Py.int gd); [|discriminate].
  cbn [obind]. destruct (Datetime.ymd2ord _ _ _) as [ordinal|]; [|discriminate].
  cbn [obind]. intros [= <-]. now exists ordinal.
Qed.

(** The week number depends on the day of the clock only. *)
Lemma week_at_day s t1 t2 :
  t1 / Datetime.us_per_day = t2 / Datetime.us_per_day -> week_at s t1 = week_at s t2.
Proof.
  intros Hday. unfold week_at.
  destruct (Datetime.strptime_ymd s) as [start|e] eqn:Hs; [|reflexivity].
  destruct (strptime_ymd_midnight _ _ Hs) as [o ->].
  unfold Datetime.midnight, Datetime.days_between, Datetime.us_per_day in *.
  assert (Hq : forall t, (t - (o - 1) * 86400000000) / 86400000000
                         = t / 86400000000 - (o - 1)).
  { intros t. replace (t - (o - 1) * 86400000000) with (t + (- (o - 1)) * 86400000000)
      by lia. rewrite Z.div_add by lia. lia. }
  assert (Hlt : forall t, (t <? (o - 1) * 86400000000) = (t / 86400000000 <? o - 1)).
  { intros t.
    destruct (Z.ltb_spec t ((o - 1) * 86400000000));
      destruct (Z.ltb_spec (t / 86400000000) (o - 1)); try reflexivity.
    - assert (t / 86400000000 < o - 1) by (apply Z.div_lt_upper_bound; lia). lia.
    - assert (o - 1 <= t / 86400000000) by (apply Z.div_le_lower_bound; lia). lia. }
  rewrite !Hlt, !Hq, Hday. reflexivity.
Qed.

Lemma today_table_same_day w w' :
  (forall i j, clock w i / Datetime.us_per_day = clock w j / Datetime.us_per_day) ->
  schedule_in_heap w ->
  same_settings (sess w) (sess w') -> heap w ⊆ heap w' -> clock w' = clock w ->
  today_table w' = today_table w.
Proof.
  intros Hday Hwf (Hcd & _ & Hadj & Hsem) Hsub Hclock.
  unfold today_table. rewrite Hcd, Hadj, Hsem, Hclock.
  destruct (course_data (sess w)) as [data|] eqn:Hdata; [|reflexivity].
  destruct (Hwf data Hdata) as [df Hdf].
  rewrite Hdf, (lookup_weaken _ _ _ _ Hdf Hsub).
  unfold Datetime.isoweekday.
  rewrite (Hday (ticks w') (ticks w)).
  rewrite (week_at_day _ _ _ (Hday (S (ticks w')) (S (ticks w)))).
  reflexivity.
Qed.

(** X16.  In a run of the main column whose clock readings all fall on
    one day, the course the reminder panel announces is a row of the table
    of today's courses drawn in the same run. *)
Theorem reminder_is_on_display (w : world) (refresh : bool) :
  schedule_in_heap w ->
  (forall i j, clock w i / Datetime.us_per_day = clock w j / Datetime.us_per_day) ->
  exists shown w' today,
    main_block refresh w = (Ok shown, w')
    /\ heap w' !! shown = Some today
    /\ forall r, current_remind (sess w') = Some r -> In r (rows today).
Proof.
  intros Hwf Hday.
  destruct (main_block_run w refresh Hwf)
    as (shown & w' & wl & tl & Hrun & Hshown & Hcur & Hsetl & Hsubl & Hcl & _).
  eexists shown, w', _. split; [exact Hrun|]. split; [exact Hshown|].
  cbn [rows]. intros r Hr. rewrite Hcur in Hr.
  rewrite (today_table_same_day w wl Hday Hwf Hsetl Hsubl Hcl) in Hr.
  apply first_due_Some in Hr. destruct Hr as (before & after & -> & _).
  apply in_or_app. right. now left.
Qed.

Lemma reminder_is_on_display_witness :
  exists shown w' today,
    main_block true (loaded_world [math_to_physics]) = (Ok shown, w')
    /\ heap w' !! shown = Some today
    /\ forall r, current_remind (sess w') = Some r -> In r (rows today).
Proof.
  apply (reminder_is_on_display (loaded_world [math_to_physics]) true).
  - intros data Hdata. injection Hdata as <-. exists monday_schedule. reflexivity.
  - intros i j. reflexivity.
Defined.

(** ** Whole runs of the script *)

(** The delete buttons, whichever report a click: no exception, and only
    the list of adjustments can change. *)
Lemma delete_buttons_quiet pressed items : forall (i : nat) w,
  (exists before, adjust_courses (sess w) = (before ++ items)%list /\ length before = i) ->
  exists b w',
    delete_buttons pressed (Z.of_nat i) items w = (Ok b, w')
    /\ heap w' = heap w /\ clock w' = clock w /\ ticks w' = ticks w
    /\ course_data (sess w') = course_data (sess w)
    /\ remind_minutes (sess w') = remind_minutes (sess w)
    /\ current_remind (sess w') = current_remind (sess w)
    /\ semester_start (sess w') = semester_start (sess w).
Proof.
  induction items as [|x rest IH]; intros i w (before & Hl & Hlen).
  - exists false, w. cbn. auto 10.
  - cbn [delete_buttons]. destruct (pressed (Z.of_nat i)).
    + unfold bind at 1. unfold gets at 1.
      assert (Hnth : nth_error (adjust_courses (sess w)) i = Some x).
      { rewrite Hl, nth_error_app2 by lia.
        replace (i - length before)%nat with O by lia. reflexivity. }
      unfold bind at 1. unfold lift at 1.
      rewrite (py_pop_in_range _ _ _ Hnth).
      eexists _, _. split; [reflexivity|]. cbn. auto 10.
    + replace (Z.of_nat i + 1) with (Z.of_nat (S i)) by lia.
      apply IH. exists (before ++ [x])%list. split.
      * rewrite Hl, <- app_assoc. reflexivity.
      * rewrite length_app. simpl. lia.
Qed.

Lemma adjust_list_block_quiet pressed w :
  exists b w',
    adjust_list_block pressed w = (Ok b, w')
    /\ heap w' = heap w /\ clock w' = clock w /\ ticks w' = ticks w
    /\ course_data (sess w') = course_data (sess w)
    /\ remind_minutes (sess w') = remind_minutes (sess w)
    /\ current_remind (sess w') = current_remind (sess w)
    /\ semester_start (sess w') = semester_start (sess w).
Proof.
  unfold adjust_list_block, bind, gets.
  destruct (adjust_courses (sess w)) as [|x rest] eqn:Hl.
  - exists false, w. cbn. auto 10.
  - apply (delete_buttons_quiet pressed (x :: rest) O w).
    exists []. auto.
Qed.

Lemma form_block_quiet submit_adjust w :
  exists shown w',
    form_block submit_adjust w = (Ok shown, w')
    /\ heap w' = heap w /\ clock w' = clock w /\ ticks w' = ticks w
    /\ course_data (sess w') = course_data (sess w)
    /\ remind_minutes (sess w') = remind_minutes (sess w)
    /\ current_remind (sess w') = current_remind (sess w)
    /\ semester_start (sess w') = semester_start (sess w).
Proof.
  unfold form_block. destruct submit_adjust as [form|].
  - destruct (forallb str_truth _).
    + eexists _, _. split; [reflexivity|]. cbn. auto 10.
    + eexists _, _. split; [reflexivity|]. auto 10.
  - eexists _, _. split; [reflexivity|]. auto 10.
Qed.

Lemma today_table_none w : course_data (sess w) = None -> today_table w = [].
Proof. intros H. unfold today_table. now rewrite H. Qed.

Section ScriptFacts.

Variable numeric_text : string -> option Z.

(** What every run keeps when it starts without a schedule, without a
    reminder and with a semester start that reads as a date. *)
Lemma page_run_idle ws w :
  (let '(year, month, day) := semester_start_picker ws in
   1000 <= year /\ exists ordinal, Datetime.ymd2ord year month day = Ok ordinal) ->
  course_data (sess w) = None ->
  current_remind (sess w) = None ->
  (exists start, Datetime.strptime_ymd (semester_start (sess w)) = Ok start) ->
  exists w',
    page_run numeric_text ws w = (Ok tt, w')
    /\ course_data (sess w') = None
    /\ current_remind (sess w') = None
    /\ (exists start, Datetime.strptime_ymd (semester_start (sess w')) = Ok start)
    /\ remind_minutes (sess w') = remind_min_select ws
    /\ clock w' = clock w.
Proof.
  intros Hpick Hcd Hcur [start Hstart]. unfold page_run.
  destruct (semester_start_picker ws) as [[year month] day].
  destruct Hpick as (Hyear & ordinal & Hord).
  pose proof (semester_block_run w year month day) as Hsemrun.
  rewrite Hstart in Hsemrun.
  rewrite (bind_run _ _ _ _ _ Hsemrun).
  set (w1 := mkWorld _ _ _ _) in *.
  rewrite (bind_run _ _ _ _ _ (upload_block_run numeric_text (file_uploader ws) w1)).
  set (w2 := mkWorld (heap w)
                 (mkSession (course_data (sess w)) (remind_min_select ws)
                            (adjust_courses (sess w)) (current_remind (sess w))
                            (strftime_ymd year month day))
                 (clock w) (ticks w)).
  assert (Hremind : remind_block (remind_min_select ws) w1 = (Ok tt, w2)) by reflexivity.
  rewrite (bind_run _ _ _ _ _ Hremind).
  destruct (form_block_quiet (adjust_form ws) w2)
    as (shown & w3 & Hform & Hh3 & Hc3 & Ht3 & Hcd3 & Hrm3 & Hcur3 & Hsem3).
  rewrite (bind_run _ _ _ _ _ Hform).
  destruct (adjust_list_block_quiet (del_buttons ws) w3)
    as (rerun & w4 & Hdel & Hh4 & Hc4 & Ht4 & Hcd4 & Hrm4 & Hcur4 & Hsem4).
  rewrite (bind_run _ _ _ _ _ Hdel).
  assert (Hcd' : course_data (sess w4) = None) by (rewrite Hcd4, Hcd3; exact Hcd).
  assert (Hcur' : current_remind (sess w4) = None) by (rewrite Hcur4, Hcur3; exact Hcur).
  assert (Hsem' : Datetime.strptime_ymd (semester_start (sess w4))
                  = Ok (Datetime.midnight ordinal)).
  { rewrite Hsem4, Hsem3. cbn. now apply strptime_strftime. }
  assert (Hrm' : remind_minutes (sess w4) = remind_min_select ws)
    by (rewrite Hrm4, Hrm3; reflexivity).
  assert (Hclock' : clock w4 = clock w) by (rewrite Hc4, Hc3; reflexivity).
  destruct rerun.
  - exists w4. split; [reflexivity|]. eauto 10.
  - assert (Hwf : schedule_in_heap w4) by (intros data Hdata; congruence).
    destruct (main_block_run w4 (refresh_button ws) Hwf)
      as (out & w5 & wl & tl & Hmain & _ & Hcur5 & (Hcdl & _) & _ & _
          & (Hcd5 & Hrm5 & _ & Hsem5) & _ & Hc5).
    rewrite (bind_run _ _ _ _ _ Hmain).
    exists w5. split; [reflexivity|].
    split; [congruence|].
    split.
    { rewrite Hcur5, today_table_none by congruence. reflexivity. }
    split; [rewrite Hsem5; eauto|].
    split; [congruence|congruence].
Qed.

(** X17.  From the session of a first run, whatever the widgets return run
    after run (uploads, form submissions, clicks on delete and refresh,
    lookahead choices, picked dates from the year 1000 on), no run of the
    script raises, and no run ends with a schedule or a reminder in the
    session. *)
Theorem fresh_session_never_reminds (runs : list widgets) (w : world) :
  sess w = initial_session ->
  List.Forall
    (fun ws =>
       let '(year, month, day) := semester_start_picker ws in
       1000 <= year /\ exists ordinal, Datetime.ymd2ord year month day = Ok ordinal)
    runs ->
  exists w',
    page_runs numeric_text runs w = (Ok tt, w')
    /\ course_data (sess w') = None
    /\ current_remind (sess w') = None.
Proof.
  intros Hinit Hruns.
  assert (Hcd : course_data (sess w) = None) by now rewrite Hinit.
  assert (Hcur : current_remind (sess w) = None) by now rewrite Hinit.
  assert (Hsem : exists start, Datetime.strptime_ymd (semester_start (sess w)) = Ok start).
  { rewrite Hinit. exists (Datetime.midnight 739495). reflexivity. }
  clear Hinit. revert w Hcd Hcur Hsem.
  induction Hruns as [|ws runs Hws _ IH]; intros w Hcd Hcur Hsem.
  - exists w. auto.
  - cbn [page_runs].
    destruct (page_run_idle ws w Hws Hcd Hcur Hsem)
      as (w1 & Hrun & Hcd1 & Hcur1 & Hsem1 & _).
    rewrite (bind_run _ _ _ _ _ Hrun). now apply IH.
Qed.

End ScriptFacts.

Lemma fresh_session_never_reminds_witness :
  exists w',
    page_runs (fun _ => None)
      [mkWidgets (2025, 9, 1) (Some (Ok sample_sheet)) 10 (Some extra_seminar)
                 (fun _ => false) true;
       mkWidgets (2025, 9, 1) None 5 None (Z.eqb 0) false]
      (mkWorld ∅ initial_session (fun _ => monday_0855) 0)
    = (Ok tt, w')
    /\ course_data (sess w') = None
    /\ current_remind (sess w') = None.
Proof.
  apply fresh_session_never_reminds; [reflexivity|].
  repeat constructor; try lia; exists 739495; reflexivity.
Defined.
